(** * AIService: the generation client of the Wonderland plugin

    A shallow embedding of [src/services/AIService.ts] and the properties
    of its error classifier, retry driver, request builder and stream
    parser.

    Conventions of the embedding.
    - A JavaScript string is a [string]: a sequence of code units, here the
      code units U+0000 to U+00FF.
    - A JSON value is a [json]; a JavaScript value that may also be
      [undefined] is an [option json], [None] standing for [undefined].
    - A computation that may throw returns an [outcome].
    - [this.settings] is a field of an explicit [world]; the methods that
      only read it take the settings as an argument. *)

From Stdlib Require Import ZArith List Ascii String Bool Lia DecimalString DecimalPos.
From stdpp Require Import base option gmap strings.

Import ListNotations.
Local Open Scope string_scope.
Local Open Scope Z_scope.

(** ** JavaScript strings *)

Module JsString.

Definition code (c : ascii) : N := N_of_ascii c.

(** [String.prototype.toLowerCase] on one code unit: A-Z and the
    Latin-1 capitals U+00C0..U+00DE (U+00D7, the multiplication sign,
    has no case). *)
Definition lower_unit (c : ascii) : ascii :=
  let n := code c in
  if ((65 <=? n) && (n <=? 90))%N
     || ((192 <=? n) && (n <=? 222) && negb (n =? 215))%N
  then ascii_of_N (n + 32) else c.

Fixpoint toLowerCase (s : string) : string :=
  match s with
  | EmptyString => EmptyString
  | String c t => String (lower_unit c) (toLowerCase t)
  end.

Definition startsWith (s p : string) : bool := String.prefix p s.

(** [s.includes(needle)] *)
Fixpoint includes (s needle : string) : bool :=
  startsWith s needle
  || match s with
     | EmptyString => false
     | String _ t => includes t needle
     end.

(** White space and line terminators removed by [trim], among the code
    units of the model: TAB, LF, VT, FF, CR, SPACE, NBSP. *)
Definition is_space (c : ascii) : bool :=
  let n := code c in
  ((9 <=? n) && (n <=? 13) || (n =? 32) || (n =? 160))%N.

Fixpoint trimStart (s : string) : string :=
  match s with
  | EmptyString => EmptyString
  | String c t => if is_space c then trimStart t else s
  end.

Fixpoint trimEnd (s : string) : string :=
  match s with
  | EmptyString => EmptyString
  | String c t =>
      match trimEnd t with
      | EmptyString => if is_space c then EmptyString else String c EmptyString
      | t' => String c t'
      end
  end.

Definition trim (s : string) : string := trimEnd (trimStart s).

(** [s.slice(n)] for [0 <= n] *)
Fixpoint slice (n : nat) (s : string) : string :=
  match n, s with
  | O, _ => s
  | S n', String _ t => slice n' t
  | S _, EmptyString => EmptyString
  end.

Definition newline : ascii := ascii_of_N 10.

(** [s.split('\n')]: never empty. *)
Fixpoint split_lines (s : string) : list string :=
  match s with
  | EmptyString => [EmptyString]
  | String c t =>
      if Ascii.eqb c newline then EmptyString :: split_lines t
      else match split_lines t with
           | l :: ls => String c l :: ls
           | [] => [String c EmptyString]
           end
  end.

(** A non-empty string is truthy. *)
Definition nonempty (s : string) : bool :=
  match s with EmptyString => false | _ => true end.

Definition is_digit (c : ascii) : bool :=
  let n := code c in ((48 <=? n) && (n <=? 57))%N.

(** The longest prefix of decimal digits, and [parseInt(ds, 10)] of a
    string of digits. *)
Fixpoint digits (s : string) : string :=
  match s with
  | String c t => if is_digit c then String c (digits t) else EmptyString
  | EmptyString => EmptyString
  end.

(** The value is exact: it is the number [parseInt] returns as long as
    that is below 2^53, which holds for up to 15 digits; for longer
    strings JavaScript rounds to the nearest double. The service applies
    it to the digits captured from a message only. *)
Fixpoint parseInt_from (acc : Z) (ds : string) : Z :=
  match ds with
  | EmptyString => acc
  | String c t => parseInt_from (10 * acc + (Z.of_N (code c) - 48)) t
  end.

Definition parseInt (ds : string) : Z := parseInt_from 0 ds.

(** Equality of code units under the [i] flag of a regular expression
    without the [u] flag: only the ASCII letters fold. *)
Definition upper_ascii (c : ascii) : ascii :=
  let n := code c in
  if ((97 <=? n) && (n <=? 122))%N then ascii_of_N (n - 32) else c.

Fixpoint prefix_ci (p s : string) : option string :=
  match p, s with
  | EmptyString, _ => Some s
  | String a p', String b s' =>
      if Ascii.eqb (upper_ascii a) (upper_ascii b) then prefix_ci p' s' else None
  | String _ _, EmptyString => None
  end.

(** Decimal rendering of an integer, as a template literal gives it. *)
Definition of_Z (z : Z) : string :=
  NilZero.string_of_int (Z.to_int z).

End JsString.

(** ** JSON values and the JavaScript operations the service applies to them *)

(** A number is carried by its canonical rendering [String(n)], the only
    thing, with its truthiness, that the service observes of a number;
    zero of either sign renders as [0]. An object is the list of its own
    properties, each name once. *)
#[warnings="-register-all"]
Inductive json : Type :=
| JNull
| JBool (b : bool)
| JNum (repr : string)
| JStr (s : string)
| JArr (items : list json)
| JObj (fields : list (string * json)).

(** A JavaScript value: a JSON value or [undefined]. *)
Abbreviation jsval := (option json).
Abbreviation undefined := (@None json).

Inductive AIErrorCode : Type :=
| RATE_LIMIT
| NETWORK_ERROR
| TIMEOUT
| INVALID_API_KEY
| QUOTA_EXCEEDED
| MODEL_NOT_FOUND
| CONTEXT_LENGTH_EXCEEDED
| SERVER_ERROR
| UNKNOWN.

(** [class AIServiceError extends Error]; [retryAfter] is in seconds. *)
Record AIServiceError : Type := mkAIServiceError {
  message : string;
  code : AIErrorCode;
  retryable : bool;
  retryAfter : option Z
}.

(** What a [throw] carries. *)
Inductive thrown : Type :=
| ThrownService (e : AIServiceError)      (* instanceof AIServiceError *)
| ThrownError (name msg : string)         (* any other instanceof Error *)
| ThrownValue (v : jsval).                (* a value that is no Error *)

Inductive outcome (A : Type) : Type :=
| Return (a : A)
| Throw (t : thrown).

Arguments Return {A} a.
Arguments Throw {A} t.

Definition bind {A B : Type} (m : outcome A) (k : A -> outcome B) : outcome B :=
  match m with
  | Return a => k a
  | Throw t => Throw t
  end.

Notation "'let!' x ':=' m 'in' k" := (bind m (fun x => k))
  (at level 10, x name, m at level 99, k at level 200).

(** [try { body } catch { handler }] *)
Definition try_catch {A : Type} (body : outcome A) (handler : thrown -> outcome A)
  : outcome A :=
  match body with
  | Return a => Return a
  | Throw t => handler t
  end.

Module Js.

(** The [TypeError] an engine raises (V8 wording). *)
Definition TypeError (text : string) : thrown := ThrownError "TypeError" text.

Definition truthy (v : jsval) : bool :=
  match v with
  | None => false
  | Some JNull => false
  | Some (JBool b) => b
  | Some (JNum r) => negb (String.eqb r "0" || String.eqb r "NaN")
  | Some (JStr s) => JsString.nonempty s
  | Some (JArr _) => true
  | Some (JObj _) => true
  end.

Fixpoint lookup_field (k : string) (fields : list (string * json)) : jsval :=
  match fields with
  | [] => undefined
  | (k', v) :: rest => if String.eqb k k' then Some v else lookup_field k rest
  end.

(** [v.k] on a value that is neither [null] nor [undefined], for a
    property name [k] that no built-in prototype defines (every name
    the service reads, [length] and indices apart). *)
Definition own (v : json) (k : string) : jsval :=
  match v with
  | JObj fields => lookup_field k fields
  | _ => undefined
  end.

Definition null_name (v : jsval) : string :=
  match v with Some _ => "null" | None => "undefined" end.

(** [v.k]: reading a property of [null] or [undefined] throws. *)
Definition get (v : jsval) (k : string) : outcome jsval :=
  match v with
  | None | Some JNull =>
      Throw (TypeError ("Cannot read properties of " +:+ null_name v
                        +:+ " (reading '" +:+ k +:+ "')"))
  | Some j => Return (own j k)
  end.

(** [v?.k] *)
Definition get_opt (v : jsval) (k : string) : jsval :=
  match v with
  | None | Some JNull => undefined
  | Some j => own j k
  end.

(** [v.length] of a value that is neither [null] nor [undefined]: a
    number for strings and arrays, the own property otherwise. *)
Definition length (v : json) : jsval :=
  match v with
  | JStr s => Some (JNum (JsString.of_Z (Z.of_nat (String.length s))))
  | JArr items => Some (JNum (JsString.of_Z (Z.of_nat (List.length items))))
  | JObj fields => lookup_field "length" fields
  | _ => undefined
  end.

(** [v[0]] of a value that is neither [null] nor [undefined]. *)
Definition first (v : json) : jsval :=
  match v with
  | JStr (String c _) => Some (JStr (String c EmptyString))
  | JArr (x :: _) => Some x
  | JObj fields => lookup_field "0" fields
  | _ => undefined
  end.

(** [v?.[0]] *)
Definition first_opt (v : jsval) : jsval :=
  match v with
  | None | Some JNull => undefined
  | Some j => first j
  end.

(** [v === s] for a string literal [s] *)
Definition is_string (v : jsval) (s : string) : bool :=
  match v with
  | Some (JStr s') => String.eqb s' s
  | _ => false
  end.

(** [v === 0] *)
Definition is_zero (v : jsval) : bool :=
  match v with
  | Some (JNum r) => String.eqb r "0"
  | _ => false
  end.

Definition has_field (k : string) (fields : list (string * json)) : bool :=
  match lookup_field k fields with Some _ => true | None => false end.

(** [String(v)]. An array joins the renderings of its elements with
    commas, [null] elements rendering as the empty string. An object
    renders through [Object.prototype.toString] unless it carries an own
    [toString] property: a parsed value is never callable, [valueOf]
    answers the object itself, and the conversion throws. *)
Fixpoint to_string (v : json) : outcome string :=
  match v with
  | JNull => Return "null"
  | JBool true => Return "true"
  | JBool false => Return "false"
  | JNum r => Return r
  | JStr s => Return s
  | JArr items =>
      (fix join (l : list json) : outcome string :=
         match l with
         | [] => Return ""
         | x :: rest =>
             let! sx := match x with JNull => Return "" | _ => to_string x end in
             match rest with
             | [] => Return sx
             | _ => let! sr := join rest in Return (sx +:+ "," +:+ sr)
             end
         end) items
  | JObj fields =>
      if has_field "toString" fields
      then Throw (TypeError "Cannot convert object to primitive value")
      else Return "[object Object]"
  end.

(** [String(v)] for a value that may be [undefined] *)
Definition String_ (v : jsval) : outcome string :=
  match v with
  | None => Return "undefined"
  | Some j => to_string j
  end.

End Js.

(** ** Configuration and result types *)

(** A JavaScript number that the service only passes along, carried by
    its canonical rendering as in [JNum]. *)
Abbreviation number := string (only parsing).

(** [RetryConfig]: a count and two durations in milliseconds. *)
Record RetryConfig : Type := mkRetryConfig {
  maxRetries : Z;
  baseDelayMs : Z;
  maxDelayMs : Z
}.

Definition DEFAULT_RETRY_CONFIG : RetryConfig :=
  {| maxRetries := 3; baseDelayMs := 1000; maxDelayMs := 30000 |}.

(** The fields of [EvergreenAISettings] that the service reads. The
    provider identifier is the string the [switch] statements compare. *)
Record EvergreenAISettings : Type := mkSettings {
  aiProvider : string;
  apiKey : string;
  apiEndpoint : string;
  model : string;
  maxTokens : number;
  temperature : number
}.

(** The [endpoint] entries of [PROVIDER_DEFAULTS], declared in
    [src/types] and taken as given. *)
Record ProviderDefaults : Type := mkProviderDefaults {
  openai_endpoint : string;
  anthropic_endpoint : string;
  ollama_endpoint : string
}.

Record AIResponse : Type := mkAIResponse {
  response_content : json;
  response_model : jsval;
  response_usage : option (jsval * jsval)   (* promptTokens, completionTokens *)
}.

Record AIStreamChunk : Type := mkChunk {
  content : json;
  done : json
}.

(** What [buildRequest] returns. *)
Record request : Type := mkRequest {
  endpoint : string;
  headers : gmap string string;
  body : json
}.

(** [v || ''] and [v || false] *)
Definition or_else (v : jsval) (d : json) : json :=
  match v with
  | Some j => if Js.truthy v then j else d
  | None => d
  end.

(** ** The error classifier *)

Definition networkErrorMessages : list string :=
  [ "fetch failed"; "network"; "Failed to fetch"; "NetworkError";
    "ECONNREFUSED"; "ENOTFOUND"; "ETIMEDOUT"; "ECONNRESET"; "ERR_NETWORK" ].

Definition isNetworkError (error : thrown) : bool :=
  let some (message name : string) :=
    existsb (fun msg =>
               JsString.includes (JsString.toLowerCase message) (JsString.toLowerCase msg)
               || JsString.includes (JsString.toLowerCase name) (JsString.toLowerCase msg))
            networkErrorMessages in
  match error with
  | ThrownService e => some (message e) "AIServiceError"
  | ThrownError name msg => some msg name
  | ThrownValue _ => false
  end.

(** [message.match(/try again in (\d+)/i)]: the first capture group of
    the leftmost match, when there is one. *)
Fixpoint match_try_again_in (message : string) : option string :=
  let here :=
    match JsString.prefix_ci "try again in " message with
    | Some rest =>
        let ds := JsString.digits rest in
        if JsString.nonempty ds then Some ds else None
    | None => None
    end in
  match here, message with
  | Some ds, _ => Some ds
  | None, String _ t => match_try_again_in t
  | None, EmptyString => None
  end.

(** The first block of [parseErrorResponse]: the message of the provider,
    from the formats the providers use. *)
Definition extractMessage (body : json) : outcome string :=
  let! errorObj := Js.get (Some body) "error" in
  if Js.truthy (Js.get_opt errorObj "message") then
    Js.String_ (Js.get_opt errorObj "message")
  else if Js.truthy (Js.own body "message") then
    Js.String_ (Js.own body "message")
  else if Js.truthy (Js.own body "detail") then
    Js.String_ (Js.own body "detail")
  else Return "API request failed".

Definition mentions (message word : string) : bool :=
  JsString.includes (JsString.toLowerCase message) word.

(** The [switch] of [parseErrorResponse], on the HTTP status. *)
Definition classify (status : Z) (message : string) : AIServiceError :=
  match status with
  | 400 =>
      if mentions message "context" || mentions message "token"
         || mentions message "length"
      then mkAIServiceError
             "Content too long - try with shorter text or break it into smaller parts"
             CONTEXT_LENGTH_EXCEEDED false None
      else mkAIServiceError message UNKNOWN false None
  | 401 =>
      mkAIServiceError "Invalid API key - please check your API key in settings"
                       INVALID_API_KEY false None
  | 403 =>
      mkAIServiceError
        "Access denied - your API key may not have the required permissions"
        INVALID_API_KEY false None
  | 404 =>
      mkAIServiceError "Model not found - please check the model name in settings"
                       MODEL_NOT_FOUND false None
  | 429 =>
      if mentions message "quota" || mentions message "billing"
         || mentions message "limit exceeded"
      then mkAIServiceError
             "API quota exceeded - please check your billing/usage limits"
             QUOTA_EXCEEDED false None
      else
        let message := "Rate limit reached - waiting and retrying..." in
        let retryAfter :=
          match match_try_again_in message with
          | Some ds => JsString.parseInt ds
          | None => 60
          end in
        mkAIServiceError message RATE_LIMIT true (Some retryAfter)
  | 500 | 502 | 503 | 504 =>
      mkAIServiceError
        ("Server error (" +:+ JsString.of_Z status
         +:+ ") - the AI service may be experiencing issues. Retrying...")
        SERVER_ERROR true (Some 5)
  | _ =>
      if 500 <=? status
      then mkAIServiceError message SERVER_ERROR true None
      else mkAIServiceError message UNKNOWN false None
  end.

Definition parseErrorResponse (status : Z) (body : json) : outcome AIServiceError :=
  let! message := extractMessage body in
  Return (classify status message).

(** The wording that makes a 429 a quota failure, and the statuses for
    which the classifier suggests its short wait. *)
Definition quotaWording (message : string) : bool :=
  mentions message "quota" || mentions message "billing"
  || mentions message "limit exceeded".

Definition shortRetryStatus (status : Z) : bool :=
  (status =? 500) || (status =? 502) || (status =? 503) || (status =? 504).

(** ** The request builder *)

Definition chat_message (role text : string) : json :=
  JObj [("role", JStr role); ("content", JStr text)].

Definition buildOpenAIRequest (defaults : ProviderDefaults)
    (settings : EvergreenAISettings) (prompt systemPrompt : string) (stream : bool)
  : request :=
  {| endpoint := openai_endpoint defaults;
     headers :=
       <["Content-Type" := "application/json"]>
         (<["Authorization" := "Bearer " +:+ apiKey settings]> ∅);
     body :=
       JObj [ ("model", JStr (model settings));
              ("messages", JArr [ chat_message "system" systemPrompt;
                                  chat_message "user" prompt ]);
              ("max_tokens", JNum (maxTokens settings));
              ("temperature", JNum (temperature settings));
              ("stream", JBool stream) ] |}.

Definition buildAnthropicRequest (defaults : ProviderDefaults)
    (settings : EvergreenAISettings) (prompt systemPrompt : string) (stream : bool)
  : request :=
  {| endpoint := anthropic_endpoint defaults;
     headers :=
       <["Content-Type" := "application/json"]>
         (<["x-api-key" := apiKey settings]>
            (<["anthropic-version" := "2023-06-01"]> ∅));
     body :=
       JObj [ ("model", JStr (model settings));
              ("system", JStr systemPrompt);
              ("messages", JArr [ chat_message "user" prompt ]);
              ("max_tokens", JNum (maxTokens settings));
              ("temperature", JNum (temperature settings));
              ("stream", JBool stream) ] |}.

Definition buildOllamaRequest (defaults : ProviderDefaults)
    (settings : EvergreenAISettings) (prompt systemPrompt : string) (stream : bool)
  : request :=
  {| endpoint :=
       if JsString.nonempty (apiEndpoint settings) then apiEndpoint settings
       else ollama_endpoint defaults;
     headers := <["Content-Type" := "application/json"]> ∅;
     body :=
       JObj [ ("model", JStr (model settings));
              ("messages", JArr [ chat_message "system" systemPrompt;
                                  chat_message "user" prompt ]);
              ("stream", JBool stream);
              ("options", JObj [ ("temperature", JNum (temperature settings));
                                 ("num_predict", JNum (maxTokens settings)) ]) ] |}.

Definition buildCustomRequest
    (settings : EvergreenAISettings) (prompt systemPrompt : string) (stream : bool)
  : request :=
  {| endpoint := apiEndpoint settings;
     headers :=
       <["Content-Type" := "application/json"]>
         (if JsString.nonempty (apiKey settings)
          then <["Authorization" := "Bearer " +:+ apiKey settings]> ∅
          else ∅);
     body :=
       JObj [ ("model", JStr (model settings));
              ("messages", JArr [ chat_message "system" systemPrompt;
                                  chat_message "user" prompt ]);
              ("max_tokens", JNum (maxTokens settings));
              ("temperature", JNum (temperature settings));
              ("stream", JBool stream) ] |}.

Definition buildRequest (defaults : ProviderDefaults)
    (settings : EvergreenAISettings) (prompt systemPrompt : string) (stream : bool)
  : outcome request :=
  let provider := aiProvider settings in
  if String.eqb provider "openai" then
    Return (buildOpenAIRequest defaults settings prompt systemPrompt stream)
  else if String.eqb provider "anthropic" then
    Return (buildAnthropicRequest defaults settings prompt systemPrompt stream)
  else if String.eqb provider "ollama" then
    Return (buildOllamaRequest defaults settings prompt systemPrompt stream)
  else if String.eqb provider "custom" then
    Return (buildCustomRequest settings prompt systemPrompt stream)
  else
    Throw (ThrownService
             (mkAIServiceError ("Unknown provider: " +:+ provider) UNKNOWN false None)).

(** ** The response and chunk parsers *)

Definition parseResponse (settings : EvergreenAISettings) (json : json)
  : outcome AIResponse :=
  let provider := aiProvider settings in
  if String.eqb provider "anthropic" then
    let! content := Js.get (Some json) "content" in
    Return {| response_content :=
                or_else (Js.get_opt (Js.first_opt content) "text") (JStr "");
              response_model := Js.own json "model";
              response_usage :=
                match Js.own json "usage" with
                | Some usage =>
                    if Js.truthy (Some usage)
                    then Some (Js.own usage "input_tokens", Js.own usage "output_tokens")
                    else None
                | None => None
                end |}
  else if String.eqb provider "ollama" then
    let! message := Js.get (Some json) "message" in
    Return {| response_content := or_else (Js.get_opt message "content") (JStr "");
              response_model := Js.own json "model";
              response_usage := None |}
  else
    let! choices := Js.get (Some json) "choices" in
    Return {| response_content :=
                or_else (Js.get_opt (Js.get_opt (Js.first_opt choices) "message")
                                    "content") (JStr "");
              response_model := Js.own json "model";
              response_usage :=
                match Js.own json "usage" with
                | Some usage =>
                    if Js.truthy (Some usage)
                    then Some (Js.own usage "prompt_tokens",
                               Js.own usage "completion_tokens")
                    else None
                | None => None
                end |}.

Definition DONE_line : string := "data: [DONE]".

(** The [switch] of [parseStreamChunk], inside its [try]. *)
Definition interpretChunk (provider : string) (data : json)
  : outcome (option AIStreamChunk) :=
  if String.eqb provider "anthropic" then
    let! type := Js.get (Some data) "type" in
    if Js.is_string type "content_block_delta" then
      let delta := Js.own data "delta" in
      Return (Some {| content := or_else (Js.get_opt delta "text") (JStr "");
                      done := JBool false |})
    else if Js.is_string type "message_stop" then
      Return (Some {| content := JStr ""; done := JBool true |})
    else Return None
  else if String.eqb provider "ollama" then
    let! message := Js.get (Some data) "message" in
    let done := Js.own data "done" in
    Return (Some {| content := or_else (Js.get_opt message "content") (JStr "");
                    done := or_else done (JBool false) |})
  else
    let! choices := Js.get (Some data) "choices" in
    match choices with
    | Some cs =>
        if negb (Js.truthy choices) || Js.is_zero (Js.length cs) then Return None
        else
          let choice := Js.first cs in
          let! finish_reason := Js.get choice "finish_reason" in
          if Js.is_string finish_reason "stop" then
            Return (Some {| content := JStr ""; done := JBool true |})
          else
            Return (Some {| content :=
                              or_else (Js.get_opt (Js.get_opt choice "delta") "content")
                                      (JStr "");
                            done := JBool false |})
    | None => Return None
    end.

(** [JSON_parse] is [JSON.parse]: it returns the parsed value or throws
    a [SyntaxError]. *)
Definition parseStreamChunk (JSON_parse : string -> outcome json)
    (settings : EvergreenAISettings) (line : string)
  : outcome (option AIStreamChunk) :=
  let trimmed := JsString.trim line in
  if negb (JsString.nonempty trimmed) || String.eqb trimmed DONE_line then
    Return (if String.eqb trimmed DONE_line
            then Some {| content := JStr ""; done := JBool true |}
            else None)
  else
    let provider := aiProvider settings in
    try_catch
      (if JsString.startsWith trimmed "data: " then
         let! data := JSON_parse (JsString.slice 6 trimmed) in
         interpretChunk provider data
       else if JsString.startsWith trimmed "{" then
         let! data := JSON_parse trimmed in
         interpretChunk provider data
       else Return None)
      (fun _ => Return None).

(** The text that [parseStreamChunk] hands to [JSON.parse], for a trimmed
    line that is a data line. *)
Definition payload (trimmed : string) : option string :=
  if JsString.startsWith trimmed "data: " then Some (JsString.slice 6 trimmed)
  else if JsString.startsWith trimmed "{" then Some trimmed
  else None.


(** ** Computations with effects

    A method that suspends, calls the network or invokes a callback is a
    function from the state of the world before it to its outcome and
    the state after it. *)

Definition M (W A : Type) : Type := W -> outcome A * W.

Definition ret {W A : Type} (a : A) : M W A := fun w => (Return a, w).

Definition throw {W A : Type} (t : thrown) : M W A := fun w => (Throw t, w).

Definition lift {W A : Type} (o : outcome A) : M W A := fun w => (o, w).

Definition bindM {W A B : Type} (m : M W A) (k : A -> M W B) : M W B :=
  fun w =>
    match m w with
    | (Return a, w') => k a w'
    | (Throw t, w') => (Throw t, w')
    end.

Definition catchM {W A : Type} (m : M W A) (handler : thrown -> M W A) : M W A :=
  fun w =>
    match m w with
    | (Return a, w') => (Return a, w')
    | (Throw t, w') => handler t w'
    end.

Notation "'do' x <- m ;; k" := (bindM m (fun x => k))
  (at level 10, x name, m at level 99, k at level 200).

(** ** The retry driver *)

Section RetryDriver.

Context {W T : Type}.

(** [this.delay(ms)], a timer that always fires, and [this.retryConfig]. *)
Variable delay : Z -> W -> W.
Variable retryConfig : RetryConfig.

(** The delay before the retry that follows the failure [error] of
    attempt [attempt]: [if (error.retryAfter)] holds for a number other
    than zero. *)
Definition retryDelay (attempt : Z) (error : AIServiceError) : Z :=
  let delayMs := baseDelayMs retryConfig * 2 ^ attempt in
  let delayMs :=
    match retryAfter error with
    | Some seconds => if seconds =? 0 then delayMs else seconds * 1000
    | None => delayMs
    end in
  Z.min delayMs (maxDelayMs retryConfig).

(** The [for] loop of [executeWithRetry], which counts [attempt] up
    from 0 while [attempt <= maxRetries]: here entered with [attempt]
    and with the [remaining] iterations it has left, [maxRetries + 1]
    at first and none when [maxRetries] is negative. *)
Fixpoint retryLoop (operation : M W T) (remaining : nat) (attempt : Z)
    (lastError : option thrown) : M W T :=
  match remaining with
  | O =>
      throw (match lastError with
             | Some error => error
             | None => ThrownService
                         (mkAIServiceError "Retry limit exceeded" UNKNOWN false None)
             end)
  | S remaining' =>
      catchM operation
        (fun error =>
           match error with
           | ThrownService e =>
               if negb (retryable e) then throw error
               else if maxRetries retryConfig <=? attempt then throw error
               else
                 do _ <- (fun w => (Return tt, delay (retryDelay attempt e) w)) ;;
                 retryLoop operation remaining' (attempt + 1) (Some error)
           | _ => throw error
           end)
  end.

Definition executeWithRetry (operation : M W T) : M W T :=
  retryLoop operation (Z.to_nat (maxRetries retryConfig + 1)) 0 None.

End RetryDriver.

(** [{ ...DEFAULT_RETRY_CONFIG, ...retryConfig }] of the constructor *)
Definition mergeRetryConfig (maxRetries' baseDelayMs' maxDelayMs' : option Z)
  : RetryConfig :=
  {| maxRetries := default (maxRetries DEFAULT_RETRY_CONFIG) maxRetries';
     baseDelayMs := default (baseDelayMs DEFAULT_RETRY_CONFIG) baseDelayMs';
     maxDelayMs := default (maxDelayMs DEFAULT_RETRY_CONFIG) maxDelayMs' |}.

(** ** The service and its surroundings *)

(** What the service does to the outside, in order. *)
Inductive event : Type :=
| RequestUrl (r : request)     (* requestUrl({ url, method: 'POST', headers, body }) *)
| Delay (ms : Z)               (* the timer of [delay] *)
| Fetch (r : request)          (* fetch(endpoint, { method: 'POST', ... }) *)
| ReadErrorBody                (* response.json() on a failed streaming request *)
| Read                         (* reader.read() *)
| OnChunk (fragment : json)    (* the fragment callback *)
| OnComplete.                  (* the completion callback *)

(** The state the service runs in: its [settings] field and the events
    so far, oldest first. *)
Record world : Type := mkWorld {
  settings : EvergreenAISettings;
  trace : list event
}.

Record RequestUrlResponse : Type := mkRequestUrlResponse {
  response_status : Z;
  response_json : outcome json     (* the [json] getter throws on a body that is no JSON *)
}.

(** What [reader.read()] settles to before the stream is done. *)
Inductive read_result : Type :=
| ReadValue (text : string)        (* a value, [decoder.decode(value, { stream: true })] *)
| ReadRejected (error : thrown).

(** The response of [fetch]. The body, when there is one, is the finite
    sequence of its reads; after the last the reader reports [done]. *)
Record FetchResponse : Type := mkFetchResponse {
  fetch_ok : bool;
  fetch_status : Z;
  fetch_json : outcome json;
  fetch_body : option (list read_result)
}.

Definition updateSettings (settings : EvergreenAISettings) : M world unit :=
  fun w => (Return tt, {| settings := settings; trace := trace w |}).

Definition emit (e : event) : M world unit :=
  fun w => (Return tt, {| settings := settings w; trace := trace w ++ [e] |}).

Definition isCallback (e : event) : bool :=
  match e with OnChunk _ | OnComplete => true | _ => false end.

(** A computation is quiet when it invokes no callback: it only extends
    the history, by events that are no callbacks. *)
Definition quiet {A : Type} (m : M world A) : Prop :=
  forall w r w',
    m w = (r, w') ->
    exists new, trace w' = (trace w ++ new)%list /\ List.filter isCallback new = [].

Section Service.

(** The host: the constants of [src/types], [JSON.parse],
    [Platform.isMobile], the network as a function of the history, the
    calls of [updateSettings] that the rest of the plugin makes while
    the service is suspended, as a function of the history too, and the
    callbacks of the caller, which return or throw. *)
Variable defaults : ProviderDefaults.
Variable JSON_parse : string -> outcome json.
Variable isMobile : bool.
Variable net_requestUrl : list event -> request -> outcome RequestUrlResponse.
Variable net_fetch : list event -> request -> outcome FetchResponse.
Variable meanwhile : list event -> option EvergreenAISettings.
Variable callbacks : list event -> option thrown.

Variable retryConfig : RetryConfig.

(** A suspension point ([await]): other tasks run before the service
    resumes. *)
Definition suspend : M world unit :=
  fun w =>
    match meanwhile (trace w) with
    | Some settings' => updateSettings settings' w
    | None => (Return tt, w)
    end.

Definition delay (ms : Z) (w : world) : world :=
  snd ((do _ <- emit (Delay ms) ;; suspend) w).

(** The state in which the service resumes after it did [e] in [w] and
    suspended: [e] is in the history, and the settings are those that
    the rest of the plugin put in place meanwhile, if it did. *)
Definition resumed (w : world) (e : event) : world :=
  let history := (trace w ++ [e])%list in
  {| settings := default (settings w) (meanwhile history); trace := history |}.

Definition await_requestUrl (r : request) : M world RequestUrlResponse :=
  do _ <- emit (RequestUrl r) ;;
  do _ <- suspend ;;
  fun w => (net_requestUrl (trace w) r, w).

Definition await_fetch (r : request) : M world FetchResponse :=
  do _ <- emit (Fetch r) ;;
  do _ <- suspend ;;
  fun w => (net_fetch (trace w) r, w).

(** [onChunk(fragment)] and [onComplete()]: the invocation is recorded,
    then the callback returns or throws. *)
Definition invoke (e : event) : M world unit :=
  do _ <- emit e ;;
  fun w =>
    match callbacks (trace w) with
    | Some error => (Throw error, w)
    | None => (Return tt, w)
    end.

Definition getSettings : M world EvergreenAISettings :=
  fun w => (Return (settings w), w).

Definition ollamaOnMobile : AIServiceError :=
  mkAIServiceError
    "Ollama (local AI) is not supported on mobile devices. Please use OpenAI, Anthropic, or a cloud-based custom endpoint."
    UNKNOWN false None.

Definition networkError : AIServiceError :=
  mkAIServiceError "Network error - please check your internet connection"
                   NETWORK_ERROR true None.

(** [error instanceof Error && error.name === 'AbortError']; the name of
    an [AIServiceError] is ['AIServiceError']. *)
Definition isAbortError (error : thrown) : bool :=
  match error with
  | ThrownError name _ => String.eqb name "AbortError"
  | ThrownService _ | ThrownValue _ => false
  end.

(** [error instanceof Error ? error.message : fallback] *)
Definition messageOr (error : thrown) (fallback : string) : string :=
  match error with
  | ThrownService e => message e
  | ThrownError _ msg => msg
  | ThrownValue _ => fallback
  end.

(** The operation that [generate] hands to [executeWithRetry]. *)
Definition generateOnce (prompt systemPrompt : string) : M world AIResponse :=
  do this_settings <- getSettings ;;
  do r <- lift (buildRequest defaults this_settings prompt systemPrompt false) ;;
  catchM
    (do response <- await_requestUrl r ;;
     if 400 <=? response_status response then
       do body <- lift (response_json response) ;;
       do error <- lift (parseErrorResponse (response_status response) body) ;;
       throw (ThrownService error)
     else
       do json <- lift (response_json response) ;;
       do this_settings <- getSettings ;;
       lift (parseResponse this_settings json))
    (fun error =>
       if isNetworkError error then throw (ThrownService networkError)
       else match error with
            | ThrownService _ => throw error
            | _ => throw (ThrownService
                            (mkAIServiceError (messageOr error "Unknown error occurred")
                                              UNKNOWN false None))
            end).

Definition generate (prompt systemPrompt : string) : M world AIResponse :=
  do this_settings <- getSettings ;;
  if isMobile && String.eqb (aiProvider this_settings) "ollama" then
    throw (ThrownService ollamaOnMobile)
  else
    executeWithRetry delay retryConfig (generateOnce prompt systemPrompt).

(** The body of [for (const line of lines)]: [true] when the loop
    returned from [generateStream] after the completion callback. *)
Fixpoint processLines (lines : list string) : M world bool :=
  match lines with
  | [] => ret false
  | line :: rest =>
      do this_settings <- getSettings ;;
      do chunk <- lift (parseStreamChunk JSON_parse this_settings line) ;;
      match chunk with
      | Some chunk =>
          if Js.truthy (Some (done chunk)) then
            do _ <- invoke OnComplete ;; ret true
          else if Js.truthy (Some (content chunk)) then
            do _ <- invoke (OnChunk (content chunk)) ;; processLines rest
          else processLines rest
      | None => processLines rest
      end
  end.

(** The [while (true)] loop over the reads that remain, then the flush
    of the buffer and the completion callback. *)
Fixpoint readLoop (reads : list read_result) (buffer : string) : M world unit :=
  do _ <- emit Read ;;
  do _ <- suspend ;;
  match reads with
  | [] =>
      do _ <-
        (if JsString.nonempty buffer then
           do this_settings <- getSettings ;;
           do chunk <- lift (parseStreamChunk JSON_parse this_settings buffer) ;;
           match chunk with
           | Some chunk =>
               if Js.truthy (Some (content chunk))
               then invoke (OnChunk (content chunk))
               else ret tt
           | None => ret tt
           end
         else ret tt) ;;
      invoke OnComplete
  | ReadRejected error :: _ => throw error
  | ReadValue text :: reads' =>
      let buffer := buffer +:+ text in
      let lines := JsString.split_lines buffer in
      let buffer := List.last lines "" in
      let lines := List.removelast lines in
      do returned <- processLines lines ;;
      if returned then ret tt else readLoop reads' buffer
  end.

(** The two-minute timer belongs to the network: when it fires, the
    pending [fetch] or read rejects with an [AbortError]. *)
Definition generateStream (prompt systemPrompt : string) : M world unit :=
  do this_settings <- getSettings ;;
  if isMobile then
    if String.eqb (aiProvider this_settings) "ollama" then
      throw (ThrownService ollamaOnMobile)
    else
      do response <- generate prompt systemPrompt ;;
      do _ <- invoke (OnChunk (response_content response)) ;;
      invoke OnComplete
  else
    do r <- lift (buildRequest defaults this_settings prompt systemPrompt true) ;;
    catchM
      (do response <- await_fetch r ;;
       if negb (fetch_ok response) then
         do _ <- emit ReadErrorBody ;;
         do _ <- suspend ;;
         let errorBody :=
           match fetch_json response with
           | Return j => j
           | Throw _ => JObj []
           end in
         do error <- lift (parseErrorResponse (fetch_status response) errorBody) ;;
         throw (ThrownService error)
       else
         match fetch_body response with
         | None =>
             throw (ThrownService (mkAIServiceError "No response body" UNKNOWN false None))
         | Some reads => readLoop reads ""
         end)
      (fun error =>
         if isAbortError error then
           throw (ThrownService
                    (mkAIServiceError
                       "Request timed out - try with shorter content or check your connection"
                       TIMEOUT true None))
         else
           match error with
           | ThrownService _ => throw error
           | _ =>
               if isNetworkError error then throw (ThrownService networkError)
               else throw (ThrownService
                             (mkAIServiceError (messageOr error "Unknown streaming error")
                                               UNKNOWN false None))
           end).

End Service.

(** ** The connection test and the message for the user *)

Definition dquote : string := String (ascii_of_N 34) EmptyString.

(** ['Say "connected" and nothing else.'] *)
Definition connectionPrompt : string :=
  "Say " +:+ dquote +:+ "connected" +:+ dquote +:+ " and nothing else.".

Definition connectionSystemPrompt : string := "You are a helpful assistant.".

(** [response.content.toLowerCase().includes('connected')]: the content
    is a string, or a value of another type, which has no method
    [toLowerCase]. *)
Definition saysConnected (content : json) : outcome bool :=
  match content with
  | JStr s => Return (JsString.includes (JsString.toLowerCase s) "connected")
  | _ => Throw (Js.TypeError "response.content.toLowerCase is not a function")
  end.

Section ConnectionTest.

Variable defaults : ProviderDefaults.
Variable isMobile : bool.
Variable net_requestUrl : list event -> request -> outcome RequestUrlResponse.
Variable meanwhile : list event -> option EvergreenAISettings.
Variable retryConfig : RetryConfig.

(** [testConnection]: its [catch] logs the error and throws it again. *)
Definition testConnection : M world bool :=
  catchM
    (do response <- generate defaults isMobile net_requestUrl meanwhile retryConfig
                             connectionPrompt connectionSystemPrompt ;;
     lift (saysConnected (response_content response)))
    (fun error => throw error).

End ConnectionTest.

(** [AIService.getUserFriendlyError(error)] *)
Definition getUserFriendlyError (error : thrown) : string :=
  match error with
  | ThrownService e => message e
  | ThrownError _ msg =>
      if JsString.includes msg "fetch failed" || JsString.includes msg "Failed to fetch"
      then "Network error - please check your internet connection"
      else if JsString.includes msg "timeout" || JsString.includes msg "Timeout"
      then "Request timed out - try again or check your connection"
      else msg
  | ThrownValue _ => "An unexpected error occurred"
  end.

(** The kinds of events, to count them in a history. *)
Definition isRequestUrl (e : event) : bool :=
  match e with RequestUrl _ => true | _ => false end.

Definition isDelay (e : event) : bool :=
  match e with Delay _ => true | _ => false end.

Definition isFetch (e : event) : bool :=
  match e with Fetch _ => true | _ => false end.

(** The statuses that the [switch] of [parseErrorResponse] names. *)
Definition tableStatus (status : Z) : bool :=
  (status =? 400) || (status =? 401) || (status =? 403) || (status =? 404)
  || (status =? 429) || shortRetryStatus status.

(** [message.toLowerCase()] mentions the context, the tokens or the
    length: the wording that makes a 400 a context-length failure. *)
Definition lengthWording (message : string) : bool :=
  mentions message "context" || mentions message "token" || mentions message "length".

(** What a non-streaming call may do to the outside: requests through
    [requestUrl], and delays of at most [maxDelay] milliseconds. *)
Definition withinRetryBounds (maxDelay : Z) (e : event) : bool :=
  match e with
  | RequestUrl _ => true
  | Delay ms => ms <=? maxDelay
  | _ => false
  end.

(** The classified failures with a fixed message that are not retryable:
    401, 403 and 404, a 400 with length wording, a 429 with quota
    wording. *)
Definition failsFast (status : Z) (message : string) : bool :=
  (status =? 401) || (status =? 403) || (status =? 404)
  || ((status =? 400) && lengthWording message)
  || ((status =? 429) && quotaWording message).

(** The property of the response that [parseResponse] reads first, by
    provider. *)
Definition responseKey (provider : string) : string :=
  if String.eqb provider "anthropic" then "content"
  else if String.eqb provider "ollama" then "message"
  else "choices".

(** A provider identifier that [buildRequest] does not know. *)
Definition unknownProvider (provider : string) : bool :=
  negb (String.eqb provider "openai" || String.eqb provider "anthropic"
        || String.eqb provider "ollama" || String.eqb provider "custom").

(** Two states in which the service has the same settings and has
    invoked the same callbacks, in the same order. *)
Definition sameCallbacks (w w' : world) : Prop :=
  settings w = settings w'
  /\ List.filter isCallback (trace w) = List.filter isCallback (trace w').

(** What a non-streaming call does to the outside: requests through
    [requestUrl], and delays. *)
Definition nonStreaming (e : event) : bool := isRequestUrl e || isDelay e.

(** What a streaming request does to the outside once it is sent: reads
    and callbacks. *)
Definition streamEvent (e : event) : bool :=
  match e with
  | Read | ReadErrorBody | OnChunk _ | OnComplete => true
  | _ => false
  end.

(** A computation that only extends the history, by events that [P]
    allows. *)
Definition emitsOnly {A : Type} (P : event -> bool) (m : M world A) : Prop :=
  forall w r w',
    m w = (r, w') ->
    exists new, trace w' = (trace w ++ new)%list /\ forallb P new = true.

(** The settings are left alone, and the callbacks return. *)
Definition leftAlone (history : list event) : option EvergreenAISettings := None.
Definition returns (history : list event) : option thrown := None.

(** ** Instrumentation of an operation

    [recording operation] behaves as [operation] and appends the outcome
    of each invocation to a log kept beside the state. *)

Definition recording {W T : Type} (operation : M W T)
  : M (list (outcome T) * W) T :=
  fun s =>
    match operation (snd s) with
    | (r, w') => (r, ((fst s ++ [r])%list, w'))
    end.

Definition besideLog {W L : Type} (delay : Z -> W -> W) (ms : Z) (s : L * W) : L * W :=
  (fst s, delay ms (snd s)).

(** ** Sample data *)

Module Sample.

Definition quote : string := String (ascii_of_N 34) EmptyString.

Definition defaults : ProviderDefaults :=
  {| openai_endpoint := "https://api.openai.com/v1/chat/completions";
     anthropic_endpoint := "https://api.anthropic.com/v1/messages";
     ollama_endpoint := "http://localhost:11434/api/chat" |}.

Definition settingsFor (provider key : string) : EvergreenAISettings :=
  {| aiProvider := provider; apiKey := key; apiEndpoint := "";
     model := "some-model"; maxTokens := "2000"; temperature := "0.7" |}.

(** [{ "error": { "message": "... Please try again in 20s." } }] *)
Definition rateLimitedBody : json :=
  JObj [("error",
         JObj [("message",
                JStr "Rate limit reached for requests. Please try again in 20s.")])].

(** [{ "foo": 1 }] as a line of a stream and as the value it parses to *)
Definition unrelatedLine : string :=
  "{" +:+ quote +:+ "foo" +:+ quote +:+ ":1}".

Definition unrelatedValue : json := JObj [("foo", JNum "1")].

(** [{ "choices": [{ "delta": { "content": text } }] }], a fragment of an
    OpenAI-compatible stream, as text and as the value it parses to *)
Definition deltaText (text : string) : string :=
  "{" +:+ quote +:+ "choices" +:+ quote +:+ ":[{" +:+ quote +:+ "delta" +:+ quote
  +:+ ":{" +:+ quote +:+ "content" +:+ quote +:+ ":" +:+ quote +:+ text +:+ quote
  +:+ "}}]}".

Definition deltaValue (text : string) : json :=
  JObj [("choices", JArr [JObj [("delta", JObj [("content", JStr text)])]])].

(** [JSON.parse] on the texts of the examples; every other text is taken
    here as malformed. *)
Definition JSON_parse (text : string) : outcome json :=
  if String.eqb text unrelatedLine then Return unrelatedValue
  else if String.eqb text (deltaText "Hello") then Return (deltaValue "Hello")
  else if String.eqb text (deltaText " world") then Return (deltaValue " world")
  else if String.eqb text (deltaText "late") then Return (deltaValue "late")
  else Throw (ThrownError "SyntaxError" "Unexpected token").

Definition nl : string := String JsString.newline EmptyString.

(** A stream in two reads. The first ends in the middle of the second
    line; the second completes it, then carries the sentinel and one
    more fragment after the sentinel. *)
Definition reads : list read_result :=
  [ ReadValue ("data: " +:+ deltaText "Hello" +:+ nl +:+ "data: ");
    ReadValue (deltaText " world" +:+ nl +:+ "data: [DONE]" +:+ nl
               +:+ "data: " +:+ deltaText "late" +:+ nl) ].

Definition streaming (history : list event) (r : request) : outcome FetchResponse :=
  Return {| fetch_ok := true; fetch_status := 200;
            fetch_json := Throw (ThrownError "SyntaxError" "Unexpected token");
            fetch_body := Some reads |}.

(** A completion in the shape of the OpenAI-compatible providers:
    [{ "choices": [{ "message": { "content": "Hello" } }], "model": "some-model" }] *)
Definition openaiCompletion : json :=
  JObj [("choices", JArr [JObj [("message", JObj [("content", JStr "Hello")])]]);
        ("model", JStr "some-model")].

(** A network that answers every request with [openaiCompletion]. *)
Definition answering (history : list event) (r : request) : outcome RequestUrlResponse :=
  Return {| response_status := 200; response_json := Return openaiCompletion |}.

(** A network that answers every request with status 429 and
    [rateLimitedBody]. *)
Definition rateLimiting (history : list event) (r : request)
  : outcome RequestUrlResponse :=
  Return {| response_status := 429; response_json := Return rateLimitedBody |}.

(** The settings screen switches the provider to Anthropic while the
    first request is in flight. *)
Definition switchToAnthropic (history : list event) : option EvergreenAISettings :=
  match history with
  | [RequestUrl _] => Some (settingsFor "anthropic" "sk-ant")
  | _ => None
  end.

Definition undisturbed (history : list event) : option EvergreenAISettings := None.

(** Callbacks that return. *)
Definition returning (history : list event) : option thrown := None.

Definition start (provider key : string) : world :=
  {| settings := settingsFor provider key; trace := [] |}.

(** An operation that fails with the same retryable error at every
    invocation, in a world that only logs its delays. *)
Definition busy : AIServiceError :=
  mkAIServiceError "Rate limit reached - waiting and retrying..." RATE_LIMIT true (Some 60).

Definition alwaysBusy : M (list Z) unit := throw (ThrownService busy).

Definition logDelay (ms : Z) (delays : list Z) : list Z := (delays ++ [ms])%list.

(** An operation that fails with an error that is no [AIServiceError]. *)
Definition broken : M (list Z) unit := throw (ThrownError "RangeError" "Invalid array length").

End Sample.

(** ** More sample data *)

Module Fixture.

(** [{ "error": { "message": text } }] *)
Definition messageBody (text : string) : json :=
  JObj [("error", JObj [("message", JStr text)])].

(** A network that answers every request with the given status and
    body. *)
Definition answeringWith (status : Z) (body : json) (history : list event) (r : request)
  : outcome RequestUrlResponse :=
  Return {| response_status := status; response_json := Return body |}.

(** The request of the sample call, for the provider [openai]. *)
Definition request : request :=
  buildOpenAIRequest Sample.defaults (Sample.settingsFor "openai" "sk") "p" "s" false.

(** An operation on a counter that fails with [Sample.busy] at its first
    invocation and succeeds from then on. *)
Definition flaky : M nat string :=
  fun n =>
    match n with
    | O => (Throw (ThrownService Sample.busy), S n)
    | S _ => (Return "done", S n)
    end.

Definition noDelay (ms : Z) (n : nat) : nat := n.

End Fixture.

(** * Properties *)

(** ** The model at work *)

Example constructor_defaults : mergeRetryConfig None None None = DEFAULT_RETRY_CONFIG.
Proof. reflexivity. Qed.

Example classify_401 :
  parseErrorResponse 401 (JObj [("error", JObj [("message", JStr "bad key")])]) =
    Return (mkAIServiceError "Invalid API key - please check your API key in settings"
                             INVALID_API_KEY false None).
Proof. reflexivity. Qed.

Example classify_400_context :
  code <$> (match parseErrorResponse
                    400 (JObj [("message", JStr "Maximum Context Length is 4096")]) with
            | Return e => Some e
            | Throw _ => None
            end) = Some CONTEXT_LENGTH_EXCEEDED.
Proof. reflexivity. Qed.

Example message_of_array :
  extractMessage (JObj [("detail", JArr [JNum "1"; JNull; JArr [JStr "a"; JStr "b"]])])
    = Return "1,,a,b".
Proof. reflexivity. Qed.

Example message_of_null_body :
  exists t, extractMessage JNull = Throw t.
Proof. eexists. reflexivity. Qed.

(** A rate limit that persists: four requests, three waits of 30 s (the
    60 s that the classifier suggests, clamped), and the classified
    error to the caller. *)
Example generate_rate_limited :
  let run := generate Sample.defaults false Sample.rateLimiting Sample.undisturbed
                      DEFAULT_RETRY_CONFIG "p" "s" (Sample.start "openai" "sk") in
  fst run = Throw (ThrownService Sample.busy)
  /\ List.length (List.filter (fun e => match e with RequestUrl _ => true | _ => false end)
                             (trace (snd run))) = 4%nat
  /\ List.filter (fun e => match e with Delay _ => true | _ => false end)
                 (trace (snd run)) = [Delay 30000; Delay 30000; Delay 30000].
Proof. repeat split. Qed.

Example trim_and_split :
  JsString.trim ("  data: x " +:+ Sample.nl) = "data: x"
  /\ JsString.split_lines ("a" +:+ Sample.nl +:+ "b" +:+ Sample.nl) = ["a"; "b"; ""].
Proof. split; reflexivity. Qed.

(** ** The error classifier *)

(** On status 429 the classifier distinguishes two cases only: the wait
    it suggests for a rate limit is 60 seconds whatever the provider
    wrote. *)
Lemma classify_429 (message : string) :
  classify 429 message =
    if quotaWording message
    then mkAIServiceError "API quota exceeded - please check your billing/usage limits"
                          QUOTA_EXCEEDED false None
    else mkAIServiceError "Rate limit reached - waiting and retrying..."
                          RATE_LIMIT true (Some 60).
Proof.
  unfold classify, quotaWording.
  destruct (mentions message "quota" || mentions message "billing"
            || mentions message "limit exceeded"); reflexivity.
Qed.

Lemma parseErrorResponse_classify (status : Z) (body : json) (message : string) :
  extractMessage body = Return message ->
  parseErrorResponse status body = Return (classify status message).
Proof. intros H. unfold parseErrorResponse. rewrite H. reflexivity. Qed.

(** C1 (the code departs from the claim). A 429 response whose message
    reads "... Please try again in 20s." carries no quota wording and
    embeds the wait of 20 seconds, which the pattern of the classifier
    finds in it; yet the classified error suggests 60 seconds, because
    the pattern is applied to the message after it was overwritten. *)
Theorem C1_embedded_wait_ignored :
  parseErrorResponse 429 Sample.rateLimitedBody =
    Return (mkAIServiceError "Rate limit reached - waiting and retrying..."
                             RATE_LIMIT true (Some 60))
  /\ (exists message,
        extractMessage Sample.rateLimitedBody = Return message
        /\ quotaWording message = false
        /\ JsString.parseInt <$> match_try_again_in message = Some 20).
Proof.
  split; [reflexivity |].
  eexists. split; [reflexivity |]. split; reflexivity.
Qed.

Lemma classify_server_error (status : Z) (message : string) :
  500 <= status ->
  code (classify status message) = SERVER_ERROR
  /\ retryable (classify status message) = true
  /\ retryAfter (classify status message) =
       if shortRetryStatus status then Some 5 else None.
Proof.
  intros Hge.
  destruct (shortRetryStatus status) eqn:Hs.
  - unfold shortRetryStatus in Hs.
    assert (status = 500 \/ status = 502 \/ status = 503 \/ status = 504) as Hc by lia.
    destruct Hc as [-> | [-> | [-> | ->]]]; repeat split; reflexivity.
  - unfold shortRetryStatus in Hs.
    assert (status <> 500 /\ status <> 502 /\ status <> 503 /\ status <> 504)
      as (H0 & H2 & H3 & H4) by lia.
    assert (classify status message = mkAIServiceError message SERVER_ERROR true None)
      as ->.
    { unfold classify.
      destruct status as [| p | p]; try lia.
      assert ((500 <=? Z.pos p) = true) as Hle by lia.
      do 10 (try destruct p as [p | p |]; try lia; try (rewrite Hle; reflexivity)). }
    repeat split; reflexivity.
Qed.

(** [String(v)] throws a [TypeError] or nothing. *)
Lemma to_string_throws :
  forall (v : json) (t : thrown),
    Js.to_string v = Throw t ->
    t = Js.TypeError "Cannot convert object to primitive value".
Proof.
  fix IH 1. intros [| [|] | r | s | items | fields] t; simpl; try discriminate.
  - induction items as [| x rest IHrest]; [discriminate |].
    assert (forall t0,
               match x with JNull => Return "" | _ => Js.to_string x end = Throw t0 ->
               t0 = Js.TypeError "Cannot convert object to primitive value") as Hx.
    { intros t0 Hx. apply (IH x). destruct x; (discriminate || exact Hx). }
    destruct (match x with JNull => Return "" | _ => Js.to_string x end) as [sx | tx].
    + cbn [bind]. destruct rest as [| y rest]; [discriminate |].
      intros Hrun. apply IHrest.
      destruct ((fix join (l : list json) : outcome string :=
                   match l with
                   | [] => Return ""
                   | x0 :: rest0 =>
                       let! sx0 := match x0 with
                                   | JNull => Return ""
                                   | _ => Js.to_string x0
                                   end in
                       match rest0 with
                       | [] => Return sx0
                       | _ => let! sr := join rest0 in Return (sx0 +:+ "," +:+ sr)
                       end
                   end) (y :: rest)) as [sr | tr]; [discriminate | exact Hrun].
    + cbn [bind]. intros [= <-]. by apply Hx.
  - destruct (Js.has_field "toString" fields); [by intros [= <-] | discriminate].
Qed.

Lemma get_throws (v : jsval) (k : string) (t : thrown) :
  Js.get v k = Throw t -> exists text, t = Js.TypeError text.
Proof. destruct v as [[] |]; simpl; try discriminate; intros [= <-]; by eexists. Qed.

Lemma String_throws (v : jsval) (t : thrown) :
  Js.String_ v = Throw t -> exists text, t = Js.TypeError text.
Proof.
  destruct v as [j |]; [| discriminate]. simpl. intros Hj.
  apply to_string_throws in Hj. by eexists.
Qed.

Lemma extractMessage_throws (body : json) (t : thrown) :
  extractMessage body = Throw t -> exists text, t = Js.TypeError text.
Proof.
  unfold extractMessage.
  destruct (Js.get (Some body) "error") as [errorObj | t0] eqn:Hget; cbn [bind].
  - destruct (Js.truthy (Js.get_opt errorObj "message")); [apply String_throws |].
    destruct (Js.truthy (Js.own body "message")); [apply String_throws |].
    destruct (Js.truthy (Js.own body "detail")); [apply String_throws | discriminate].
  - intros [= <-]. by apply get_throws in Hget.
Qed.

(** C3 (as amended). For a status of 500 or more, and a body whose
    message can be read, the classifier returns an upstream-server-error
    that is retryable. For 500, 502, 503 and 504 it suggests a wait of 5
    seconds, its message is the fixed one that names the status, and the
    retry driver waits those 5 seconds, clamped. For any other such
    status it suggests no wait and keeps the message of the provider,
    and the retry driver falls back to its exponential delay: the base
    delay times 2 to the power of the attempt, clamped. For a body whose
    message cannot be read, the classifier returns no classified error:
    it throws a [TypeError]. *)
Theorem C3_server_errors (status : Z) (body : json) :
  500 <= status ->
  (forall text,
      extractMessage body = Return text ->
      exists error,
        parseErrorResponse status body = Return error
        /\ code error = SERVER_ERROR
        /\ retryable error = true
        /\ retryAfter error = (if shortRetryStatus status then Some 5 else None)
        /\ message error =
             (if shortRetryStatus status
              then "Server error (" +:+ JsString.of_Z status
                   +:+ ") - the AI service may be experiencing issues. Retrying..."
              else text)
        /\ (forall (cfg : RetryConfig) (attempt : Z),
              retryDelay cfg attempt error =
                if shortRetryStatus status
                then Z.min (5 * 1000) (maxDelayMs cfg)
                else Z.min (baseDelayMs cfg * 2 ^ attempt) (maxDelayMs cfg)))
  /\ (forall t,
        extractMessage body = Throw t ->
        parseErrorResponse status body = Throw t
        /\ exists text, t = Js.TypeError text).
Proof.
  intros Hge. split.
  2:{ intros t Hm. split; [| by apply extractMessage_throws in Hm].
      unfold parseErrorResponse. by rewrite Hm. }
  intros text Hm. exists (classify status text).
  split; [by apply parseErrorResponse_classify |].
  destruct (classify_server_error status text Hge) as (Hcode & Hretryable & Hafter).
  do 3 (split; [done |]).
  assert (message (classify status text) =
            (if shortRetryStatus status
             then "Server error (" +:+ JsString.of_Z status
                  +:+ ") - the AI service may be experiencing issues. Retrying..."
             else text)) as Hmessage.
  { destruct (shortRetryStatus status) eqn:Hs; unfold shortRetryStatus in Hs.
    - assert (status = 500 \/ status = 502 \/ status = 503 \/ status = 504) as Hc by lia.
      destruct Hc as [-> | [-> | [-> | ->]]]; reflexivity.
    - assert (status <> 500 /\ status <> 502 /\ status <> 503 /\ status <> 504)
        as (H0 & H2 & H3 & H4) by lia.
      unfold classify.
      destruct status as [| p | p]; try lia.
      assert ((500 <=? Z.pos p) = true) as Hle by lia.
      do 10 (try destruct p as [p | p |]; try lia; try (rewrite Hle; reflexivity)). }
  split; [exact Hmessage |].
  intros cfg attempt. unfold retryDelay. rewrite Hafter.
  by destruct (shortRetryStatus status).
Qed.

Lemma C3_server_errors_witness :
  exists error,
    parseErrorResponse 501 (JObj [("message", JStr "not implemented")]) = Return error
    /\ code error = SERVER_ERROR
    /\ retryable error = true
    /\ retryAfter error = None
    /\ message error = "not implemented"
    /\ (forall (cfg : RetryConfig) (attempt : Z),
          retryDelay cfg attempt error
            = Z.min (baseDelayMs cfg * 2 ^ attempt) (maxDelayMs cfg)).
Proof.
  apply (proj1 (C3_server_errors 501 (JObj [("message", JStr "not implemented")])
                                 ltac:(lia))
               "not implemented" eq_refl).
Defined.

(** C3 (the claim as stated fails). Status 501 is classified as an
    upstream-server-error that is retryable, without a suggested wait.
    And for a body whose message cannot be converted to a string, here
    [{ "message": { "toString": 1 } }], the classifier returns no
    classified error at all, whatever the status: the conversion
    throws. *)
Lemma C3_counterexample :
  (exists error,
      parseErrorResponse 501 (JObj []) = Return error
      /\ code error = SERVER_ERROR
      /\ retryable error = true
      /\ retryAfter error <> Some 5)
  /\ parseErrorResponse 500 (JObj [("message", JObj [("toString", JNum "1")])])
     = Throw (Js.TypeError "Cannot convert object to primitive value").
Proof.
  split; [| reflexivity].
  eexists. split; [reflexivity |]. repeat split. discriminate.
Qed.

(** ** The request builder *)

Lemma buildRequest_openai defaults key ep m mt t prompt systemPrompt stream :
  buildRequest defaults (mkSettings "openai" key ep m mt t) prompt systemPrompt stream =
    Return (buildOpenAIRequest defaults (mkSettings "openai" key ep m mt t)
                               prompt systemPrompt stream).
Proof. reflexivity. Qed.

Lemma buildRequest_anthropic defaults key ep m mt t prompt systemPrompt stream :
  buildRequest defaults (mkSettings "anthropic" key ep m mt t) prompt systemPrompt stream =
    Return (buildAnthropicRequest defaults (mkSettings "anthropic" key ep m mt t)
                                  prompt systemPrompt stream).
Proof. reflexivity. Qed.

Lemma buildRequest_ollama defaults key ep m mt t prompt systemPrompt stream :
  buildRequest defaults (mkSettings "ollama" key ep m mt t) prompt systemPrompt stream =
    Return (buildOllamaRequest defaults (mkSettings "ollama" key ep m mt t)
                               prompt systemPrompt stream).
Proof. reflexivity. Qed.

Lemma buildRequest_custom defaults key ep m mt t prompt systemPrompt stream :
  buildRequest defaults (mkSettings "custom" key ep m mt t) prompt systemPrompt stream =
    Return (buildCustomRequest (mkSettings "custom" key ep m mt t)
                               prompt systemPrompt stream).
Proof. reflexivity. Qed.

Lemma custom_authorization (settings : EvergreenAISettings) prompt systemPrompt stream :
  headers (buildCustomRequest settings prompt systemPrompt stream) !! "Authorization" =
    if JsString.nonempty (apiKey settings)
    then Some ("Bearer " +:+ apiKey settings) else None.
Proof.
  unfold buildCustomRequest; simpl.
  rewrite lookup_insert_ne by discriminate.
  destruct (JsString.nonempty (apiKey settings)).
  - apply lookup_insert_eq.
  - apply lookup_empty.
Qed.

(** C6. Whatever the prompt, the system instruction and the streaming
    flag, the request built for each of the four providers has the
    credential header of that provider and the body shape of that
    provider: a bearer [Authorization] for OpenAI and for a custom
    endpoint with a key, [x-api-key] with the fixed [anthropic-version]
    for Anthropic, no header but [Content-Type] for the local server,
    and no [Authorization] for a custom endpoint without a key; in
    [messages] the message of role [system] that holds the system
    instruction, then the message of role [user] that holds the prompt,
    for OpenAI, custom and local; the system instruction in a top-level
    [system] beside the single message of role [user] for Anthropic; and
    the sampling parameters under [options] for the local server. *)
Theorem C6_request_shapes (defaults : ProviderDefaults)
    (key ep m : string) (mt t : string) (prompt systemPrompt : string) (stream : bool) :
  let both :=
    JArr [ JObj [("role", JStr "system"); ("content", JStr systemPrompt)];
           JObj [("role", JStr "user"); ("content", JStr prompt)] ] in
  (exists r,
      buildRequest defaults (mkSettings "openai" key ep m mt t) prompt systemPrompt stream
        = Return r
      /\ headers r !! "Authorization" = Some ("Bearer " +:+ key)
      /\ Js.own (body r) "messages" = Some both
      /\ Js.own (body r) "system" = None
      /\ Js.own (body r) "max_tokens" = Some (JNum mt)
      /\ Js.own (body r) "temperature" = Some (JNum t)
      /\ Js.own (body r) "stream" = Some (JBool stream))
  /\ (exists r,
      buildRequest defaults (mkSettings "custom" key ep m mt t) prompt systemPrompt stream
        = Return r
      /\ headers r !! "Authorization" =
           (if JsString.nonempty key then Some ("Bearer " +:+ key) else None)
      /\ Js.own (body r) "messages" = Some both
      /\ Js.own (body r) "system" = None
      /\ Js.own (body r) "max_tokens" = Some (JNum mt)
      /\ Js.own (body r) "temperature" = Some (JNum t)
      /\ Js.own (body r) "stream" = Some (JBool stream))
  /\ (exists r,
      buildRequest defaults (mkSettings "custom" "" ep m mt t) prompt systemPrompt stream
        = Return r
      /\ headers r = {[ "Content-Type" := "application/json" ]})
  /\ (exists r,
      buildRequest defaults (mkSettings "anthropic" key ep m mt t) prompt systemPrompt
                   stream = Return r
      /\ headers r !! "x-api-key" = Some key
      /\ headers r !! "anthropic-version" = Some "2023-06-01"
      /\ headers r !! "Authorization" = None
      /\ Js.own (body r) "system" = Some (JStr systemPrompt)
      /\ Js.own (body r) "messages" = Some (JArr [ JObj [("role", JStr "user"); ("content", JStr prompt)] ])
      /\ Js.own (body r) "max_tokens" = Some (JNum mt)
      /\ Js.own (body r) "temperature" = Some (JNum t)
      /\ Js.own (body r) "stream" = Some (JBool stream))
  /\ (exists r,
      buildRequest defaults (mkSettings "ollama" key ep m mt t) prompt systemPrompt stream
        = Return r
      /\ headers r = {[ "Content-Type" := "application/json" ]}
      /\ Js.own (body r) "messages" = Some both
      /\ Js.own (body r) "system" = None
      /\ Js.own (body r) "options" =
           Some (JObj [("temperature", JNum t); ("num_predict", JNum mt)])
      /\ Js.own (body r) "temperature" = None
      /\ Js.own (body r) "max_tokens" = None
      /\ Js.own (body r) "stream" = Some (JBool stream)).
Proof.
  intros both. repeat apply conj.
  - eexists. split; [apply buildRequest_openai |].
    split; [| repeat split].
    simpl. rewrite lookup_insert_ne by discriminate. apply lookup_insert_eq.
  - eexists. split; [apply buildRequest_custom |].
    split; [apply custom_authorization | repeat split].
  - eexists. split; [apply buildRequest_custom |]. simpl.
    apply insert_empty.
  - eexists. split; [apply buildRequest_anthropic |].
    split; [| split; [| split; [| repeat split]]]; simpl.
    + rewrite lookup_insert_ne by discriminate. apply lookup_insert_eq.
    + do 2 (rewrite lookup_insert_ne by discriminate). apply lookup_insert_eq.
    + do 3 (rewrite lookup_insert_ne by discriminate). apply lookup_empty.
  - eexists. split; [apply buildRequest_ollama |].
    split; [apply insert_empty | repeat split].
Qed.

(** C10. The request for the OpenAI provider always carries the header
    [Authorization: Bearer <key>], with an empty key too, where the
    header reads [Bearer ] with nothing after it; a custom endpoint
    without a key and the local server carry no [Authorization]
    header. *)
Theorem C10_openai_bearer_always (defaults : ProviderDefaults)
    (settings : EvergreenAISettings) (ep m mt t prompt systemPrompt : string)
    (stream : bool) :
  headers (buildOpenAIRequest defaults settings prompt systemPrompt stream)
    !! "Authorization" = Some ("Bearer " +:+ apiKey settings)
  /\ (exists r,
        buildRequest defaults (mkSettings "openai" "" ep m mt t) prompt systemPrompt stream
          = Return r
        /\ headers r !! "Authorization" = Some "Bearer ")
  /\ (exists r,
        buildRequest defaults (mkSettings "custom" "" ep m mt t) prompt systemPrompt stream
          = Return r
        /\ headers r !! "Authorization" = None)
  /\ (exists r,
        buildRequest defaults (mkSettings "ollama" "" ep m mt t) prompt systemPrompt stream
          = Return r
        /\ headers r !! "Authorization" = None).
Proof.
  repeat apply conj.
  - simpl. rewrite lookup_insert_ne by discriminate. apply lookup_insert_eq.
  - eexists. split; [apply buildRequest_openai |].
    simpl. rewrite lookup_insert_ne by discriminate. apply lookup_insert_eq.
  - eexists. split; [apply buildRequest_custom |]. apply custom_authorization.
  - eexists. split; [apply buildRequest_ollama |].
    simpl. rewrite lookup_insert_ne by discriminate. apply lookup_empty.
Qed.

(** ** The retry driver *)

Section RetryProperties.

Context {W T : Type}.
Variable delay : Z -> W -> W.
Variable retryConfig : RetryConfig.
Variable operation : M W T.

Lemma retryLoop_failure (remaining : nat) (attempt : Z) (lastError : option thrown)
    (w w' : W) (t : thrown) :
  operation w = (Throw t, w') ->
  retryLoop delay retryConfig operation (S remaining) attempt lastError w =
    match t with
    | ThrownService e =>
        if negb (retryable e) then (Throw t, w')
        else if maxRetries retryConfig <=? attempt then (Throw t, w')
        else retryLoop delay retryConfig operation remaining (attempt + 1) (Some t)
                       (delay (retryDelay retryConfig attempt e) w')
    | _ => (Throw t, w')
    end.
Proof.
  intros Hop. simpl. unfold catchM. rewrite Hop.
  destruct t as [e | |]; try reflexivity.
  destruct (negb (retryable e)); [reflexivity |].
  destruct (maxRetries retryConfig <=? attempt); reflexivity.
Qed.

Lemma retryLoop_success (remaining : nat) (attempt : Z) (lastError : option thrown)
    (w w' : W) (x : T) :
  operation w = (Return x, w') ->
  retryLoop delay retryConfig operation (S remaining) attempt lastError w = (Return x, w').
Proof. intros Hop. simpl. unfold catchM. rewrite Hop. reflexivity. Qed.

Lemma executeWithRetry_enters :
  0 <= maxRetries retryConfig ->
  exists remaining,
    Z.to_nat (maxRetries retryConfig + 1) = S remaining
    /\ Z.of_nat remaining = maxRetries retryConfig.
Proof.
  intros H. exists (Z.to_nat (maxRetries retryConfig)). split; lia.
Qed.

End RetryProperties.

Lemma recording_run {W T : Type} (operation : M W T) (log : list (outcome T))
    (w w' : W) (r : outcome T) :
  operation w = (r, w') ->
  recording operation (log, w) = (r, ((log ++ [r])%list, w')).
Proof. intros H. unfold recording. simpl. rewrite H. reflexivity. Qed.

(** A persistently retryable failure runs the loop to its last
    iteration, where the error of that attempt is thrown. *)
Lemma retryLoop_exhausts {W T : Type} (delay : Z -> W -> W) (cfg : RetryConfig)
    (operation : M W T) :
  (forall w0, exists e w1,
      operation w0 = (Throw (ThrownService e), w1) /\ retryable e = true) ->
  forall (remaining : nat) (attempt : Z) (lastError : option thrown)
         (log : list (outcome T)) (w : W),
    attempt + Z.of_nat remaining = maxRetries cfg ->
    exists e log' w',
      retryLoop (besideLog delay) cfg (recording operation) (S remaining) attempt
                lastError (log, w)
        = (Throw (ThrownService e), ((log ++ log')%list, w'))
      /\ List.length log' = S remaining
      /\ last log' = Some (Throw (ThrownService e)).
Proof.
  intros Hbusy remaining.
  induction remaining as [| n IH]; intros attempt lastError log w Hsync.
  - destruct (Hbusy w) as (e & w1 & Hop & Hre).
    exists e, [Throw (ThrownService e)], w1.
    rewrite (retryLoop_failure _ _ _ _ _ _ _ _ _ (recording_run _ log _ _ _ Hop)).
    rewrite Hre. simpl.
    replace (maxRetries cfg <=? attempt) with true by lia.
    repeat split.
  - destruct (Hbusy w) as (e & w1 & Hop & Hre).
    rewrite (retryLoop_failure _ _ _ _ _ _ _ _ _ (recording_run _ log _ _ _ Hop)).
    rewrite Hre. simpl negb. cbv iota.
    replace (maxRetries cfg <=? attempt) with false by lia.
    unfold besideLog at 2. simpl fst. simpl snd.
    destruct (IH (attempt + 1) (Some (ThrownService e))
                 (log ++ [Throw (ThrownService e)])%list
                 (delay (retryDelay cfg attempt e) w1)) as (e' & log' & w' & Hrun & Hlen & Hlast);
      [lia |].
    exists e', (Throw (ThrownService e) :: log'), w'.
    rewrite Hrun. rewrite <- app_assoc. simpl.
    repeat split; [by rewrite Hlen |].
    destruct log' as [| x log']; [discriminate |]. exact Hlast.
Qed.


(** C5. Under a configuration with [maxRetries] retries, a failure of
    the operation that is a classified error marked not retryable, or no
    classified error at all, leaves [executeWithRetry] at once: the
    operation was invoked once, no delay was waited, and the caller gets
    that failure. A classified failure that stays retryable makes the
    driver invoke the operation [maxRetries + 1] times, and the caller
    gets the classified error of the last invocation. *)
Theorem C5_retry_policy {W T : Type} (delay : Z -> W -> W) (cfg : RetryConfig)
    (operation : M W T) (w : W) :
  0 <= maxRetries cfg ->
  (forall t w',
      operation w = (Throw t, w') ->
      (forall e, t = ThrownService e -> retryable e = false) ->
      executeWithRetry delay cfg operation w = (Throw t, w')
      /\ executeWithRetry (besideLog delay) cfg (recording operation) ([], w)
         = (Throw t, ([Throw t], w')))
  /\ ((forall w0, exists e w1,
          operation w0 = (Throw (ThrownService e), w1) /\ retryable e = true) ->
      exists e log w',
        executeWithRetry (besideLog delay) cfg (recording operation) ([], w)
          = (Throw (ThrownService e), (log, w'))
        /\ Z.of_nat (List.length log) = maxRetries cfg + 1
        /\ last log = Some (Throw (ThrownService e))).
Proof.
  intros Hcfg.
  destruct (executeWithRetry_enters cfg Hcfg) as (remaining & Hfuel & Hrem).
  unfold executeWithRetry. rewrite Hfuel. split.
  - intros t w' Hop Hnot.
    rewrite (retryLoop_failure _ _ _ _ _ _ _ _ _ Hop).
    rewrite (retryLoop_failure _ _ _ _ _ _ _ _ _ (recording_run _ [] _ _ _ Hop)).
    destruct t as [e | |]; try (split; reflexivity).
    rewrite (Hnot e eq_refl). split; reflexivity.
  - intros Hbusy.
    destruct (retryLoop_exhausts delay cfg operation Hbusy remaining 0 None [] w)
      as (e & log & w' & Hrun & Hlen & Hlast); [lia |].
    exists e, log, w'. rewrite Hrun. repeat split; [lia | exact Hlast].
Qed.

Lemma C5_retry_policy_witness :
  (executeWithRetry Sample.logDelay DEFAULT_RETRY_CONFIG Sample.broken []
     = (Throw (ThrownError "RangeError" "Invalid array length"), [])
   /\ executeWithRetry (besideLog Sample.logDelay) DEFAULT_RETRY_CONFIG
                       (recording Sample.broken) ([], [])
      = (Throw (ThrownError "RangeError" "Invalid array length"),
         ([Throw (ThrownError "RangeError" "Invalid array length")], [])))
  /\ (exists e log w',
        executeWithRetry (besideLog Sample.logDelay) DEFAULT_RETRY_CONFIG
                         (recording Sample.alwaysBusy) ([], [])
          = (Throw (ThrownService e), (log, w'))
        /\ Z.of_nat (List.length log) = 3 + 1
        /\ last log = Some (Throw (ThrownService e))).
Proof.
  split.
  - apply (proj1 (C5_retry_policy Sample.logDelay DEFAULT_RETRY_CONFIG Sample.broken []
                                  ltac:(simpl; lia))).
    + reflexivity.
    + intros e He. discriminate He.
  - apply (proj2 (C5_retry_policy Sample.logDelay DEFAULT_RETRY_CONFIG Sample.alwaysBusy []
                                  ltac:(simpl; lia))).
    intros w0. exists Sample.busy, w0. split; reflexivity.
Defined.

(** ** The entry points *)

Section EntryPoints.

Variable defaults : ProviderDefaults.
Variable JSON_parse : string -> outcome json.
Variable isMobile : bool.
Variable net_requestUrl : list event -> request -> outcome RequestUrlResponse.
Variable net_fetch : list event -> request -> outcome FetchResponse.
Variable meanwhile : list event -> option EvergreenAISettings.
Variable retryConfig : RetryConfig.

Lemma generate_unfold (prompt systemPrompt : string) (w : world) :
  generate defaults isMobile net_requestUrl meanwhile retryConfig prompt systemPrompt w =
    if isMobile && String.eqb (aiProvider (settings w)) "ollama"
    then (Throw (ThrownService ollamaOnMobile), w)
    else executeWithRetry (delay meanwhile) retryConfig
           (generateOnce defaults net_requestUrl meanwhile prompt systemPrompt) w.
Proof.
  unfold generate, bindM, getSettings.
  destruct (isMobile && String.eqb (aiProvider (settings w)) "ollama"); reflexivity.
Qed.

Lemma resumed_run (e : event) (w : world) :
  (do _ <- emit e ;; suspend meanwhile) w = (Return tt, resumed meanwhile w e).
Proof.
  unfold bindM, emit, suspend, updateSettings, resumed. simpl.
  destruct (meanwhile (trace w ++ [e])); reflexivity.
Qed.

Lemma await_requestUrl_run (r : request) (w : world) :
  await_requestUrl net_requestUrl meanwhile r w =
    (net_requestUrl (trace (resumed meanwhile w (RequestUrl r))) r,
     resumed meanwhile w (RequestUrl r)).
Proof.
  unfold await_requestUrl, bindM, emit, suspend, updateSettings, resumed. simpl.
  destruct (meanwhile (trace w ++ [RequestUrl r])); reflexivity.
Qed.

Lemma generateOnce_success (prompt systemPrompt : string) (w : world) (r : request)
    (response : RequestUrlResponse) (j : json) (result : AIResponse) :
  buildRequest defaults (settings w) prompt systemPrompt false = Return r ->
  net_requestUrl (trace (resumed meanwhile w (RequestUrl r))) r = Return response ->
  response_status response < 400 ->
  response_json response = Return j ->
  parseResponse (settings (resumed meanwhile w (RequestUrl r))) j = Return result ->
  generateOnce defaults net_requestUrl meanwhile prompt systemPrompt w =
    (Return result, resumed meanwhile w (RequestUrl r)).
Proof.
  intros Hbuild Hnet Hstatus Hjson Hparse.
  unfold generateOnce, bindM, catchM, getSettings, lift. rewrite Hbuild.
  rewrite await_requestUrl_run, Hnet.
  replace (400 <=? response_status response) with false by lia.
  rewrite Hjson, Hparse. reflexivity.
Qed.

End EntryPoints.

(** C2 (as amended). A generation call does not keep the configuration
    it started with. An attempt that starts in the state [w] builds its
    request from the configuration in place in [w], and parses the
    response with the configuration in place when the response arrives:
    if the configuration was replaced while the request was in flight,
    the response to a request built from the old configuration is parsed
    as the new one says. The first attempt of a call starts in the state
    of the call. *)
Theorem C2_settings_read_at_use (defaults : ProviderDefaults) (isMobile : bool)
    (net_requestUrl : list event -> request -> outcome RequestUrlResponse)
    (meanwhile : list event -> option EvergreenAISettings) (retryConfig : RetryConfig)
    (prompt systemPrompt : string) (w : world) (r : request)
    (response : RequestUrlResponse) (j : json) (result : AIResponse) :
  let history := (trace w ++ [RequestUrl r])%list in
  let current := default (settings w) (meanwhile history) in
  buildRequest defaults (settings w) prompt systemPrompt false = Return r ->
  net_requestUrl history r = Return response ->
  response_status response < 400 ->
  response_json response = Return j ->
  parseResponse current j = Return result ->
  generateOnce defaults net_requestUrl meanwhile prompt systemPrompt w =
    (Return result, {| settings := current; trace := history |})
  /\ (0 <= maxRetries retryConfig ->
      isMobile && String.eqb (aiProvider (settings w)) "ollama" = false ->
      generate defaults isMobile net_requestUrl meanwhile retryConfig prompt systemPrompt w =
        (Return result, {| settings := current; trace := history |})).
Proof.
  intros history current Hbuild Hnet Hstatus Hjson Hparse.
  assert (generateOnce defaults net_requestUrl meanwhile prompt systemPrompt w =
            (Return result, {| settings := current; trace := history |})) as Hattempt.
  { apply (generateOnce_success defaults net_requestUrl meanwhile prompt systemPrompt
                                w r response j result); assumption. }
  split; [exact Hattempt |].
  intros Hcfg Hplatform.
  rewrite generate_unfold, Hplatform.
  destruct (executeWithRetry_enters retryConfig Hcfg) as (remaining & Hfuel & _).
  unfold executeWithRetry. rewrite Hfuel.
  by apply retryLoop_success.
Qed.

Lemma C2_settings_read_at_use_witness :
  exists r,
    buildRequest Sample.defaults (Sample.settingsFor "openai" "sk") "p" "s" false = Return r
    /\ generate Sample.defaults false Sample.answering Sample.switchToAnthropic
                DEFAULT_RETRY_CONFIG "p" "s" (Sample.start "openai" "sk")
       = (Return {| response_content := JStr "";
                    response_model := Some (JStr "some-model");
                    response_usage := None |},
          {| settings := Sample.settingsFor "anthropic" "sk-ant";
             trace := [RequestUrl r] |}).
Proof.
  eexists. split; [reflexivity |].
  apply (C2_settings_read_at_use Sample.defaults false Sample.answering
           Sample.switchToAnthropic DEFAULT_RETRY_CONFIG "p" "s"
           (Sample.start "openai" "sk") _
           {| response_status := 200; response_json := Return Sample.openaiCompletion |}
           Sample.openaiCompletion).
  - reflexivity.
  - reflexivity.
  - simpl. lia.
  - reflexivity.
  - reflexivity.
  - simpl. lia.
  - reflexivity.
Defined.

(** C2 (the claim as stated fails). A call starts with the OpenAI
    provider; while its request is in flight the settings are replaced
    by settings for Anthropic. The completion that the network returns,
    in the OpenAI shape, is then read as an Anthropic message and the
    caller gets an empty text, where the configuration of the start of
    the call, and the same call left undisturbed, give "Hello". *)
Lemma C2_counterexample :
  fst (generate Sample.defaults false Sample.answering Sample.switchToAnthropic
                DEFAULT_RETRY_CONFIG "p" "s" (Sample.start "openai" "sk"))
    = Return {| response_content := JStr "";
                response_model := Some (JStr "some-model");
                response_usage := None |}
  /\ parseResponse (settings (Sample.start "openai" "sk")) Sample.openaiCompletion
     = Return {| response_content := JStr "Hello";
                 response_model := Some (JStr "some-model");
                 response_usage := None |}
  /\ fst (generate Sample.defaults false Sample.answering Sample.undisturbed
                   DEFAULT_RETRY_CONFIG "p" "s" (Sample.start "openai" "sk"))
     = Return {| response_content := JStr "Hello";
                 response_model := Some (JStr "some-model");
                 response_usage := None |}.
Proof. repeat split. Qed.

(** C7. With the local-server provider on a mobile platform, both entry
    points fail at once with a classified error that is not retryable,
    and leave the world as it was: the history has no new event, so no
    request was made. *)
Theorem C7_ollama_on_mobile (defaults : ProviderDefaults)
    (JSON_parse : string -> outcome json)
    (net_requestUrl : list event -> request -> outcome RequestUrlResponse)
    (net_fetch : list event -> request -> outcome FetchResponse)
    (meanwhile : list event -> option EvergreenAISettings)
    (callbacks : list event -> option thrown) (retryConfig : RetryConfig)
    (prompt systemPrompt : string) (w : world) :
  aiProvider (settings w) = "ollama" ->
  exists error,
    retryable error = false
    /\ generate defaults true net_requestUrl meanwhile retryConfig prompt systemPrompt w
       = (Throw (ThrownService error), w)
    /\ generateStream defaults JSON_parse true net_requestUrl net_fetch meanwhile
                      callbacks retryConfig prompt systemPrompt w
       = (Throw (ThrownService error), w).
Proof.
  intros Hprovider. exists ollamaOnMobile.
  split; [reflexivity |]. split.
  - rewrite generate_unfold, Hprovider. reflexivity.
  - unfold generateStream, bindM, getSettings. rewrite Hprovider. reflexivity.
Qed.

Lemma C7_ollama_on_mobile_witness :
  exists error,
    retryable error = false
    /\ generate Sample.defaults true Sample.answering Sample.undisturbed
                DEFAULT_RETRY_CONFIG "p" "s" (Sample.start "ollama" "")
       = (Throw (ThrownService error), Sample.start "ollama" "")
    /\ generateStream Sample.defaults Sample.JSON_parse true Sample.answering
                      Sample.streaming Sample.undisturbed Sample.returning
                      DEFAULT_RETRY_CONFIG "p" "s" (Sample.start "ollama" "")
       = (Throw (ThrownService error), Sample.start "ollama" "").
Proof.
  apply (C7_ollama_on_mobile Sample.defaults Sample.JSON_parse Sample.answering
           Sample.streaming Sample.undisturbed Sample.returning DEFAULT_RETRY_CONFIG
           "p" "s" (Sample.start "ollama" "")).
  reflexivity.
Defined.

(** ** The chunk parser *)

Lemma parseStreamChunk_returns (JSON_parse : string -> outcome json)
    (settings : EvergreenAISettings) (line : string) :
  exists r, parseStreamChunk JSON_parse settings line = Return r.
Proof.
  unfold parseStreamChunk.
  destruct (negb (JsString.nonempty (JsString.trim line))
            || String.eqb (JsString.trim line) DONE_line); [eexists; reflexivity |].
  unfold try_catch.
  match goal with |- context [match ?body with Return _ => _ | Throw _ => _ end] =>
    destruct body end; eexists; reflexivity.
Qed.

(** The body of the [try] does throw: on the payload [null] every
    provider reads a property of [null]. *)
Lemma interpretChunk_null (provider : string) :
  exists t, interpretChunk provider JNull = Throw t.
Proof.
  unfold interpretChunk.
  destruct (String.eqb provider "anthropic"); [eexists; reflexivity |].
  destruct (String.eqb provider "ollama"); eexists; reflexivity.
Qed.

Lemma payload_nonempty (trimmed text : string) :
  payload trimmed = Some text -> JsString.nonempty trimmed = true.
Proof. destruct trimmed; [discriminate | reflexivity]. Qed.

Lemma parseStreamChunk_payload (JSON_parse : string -> outcome json)
    (settings : EvergreenAISettings) (line text : string) :
  JsString.trim line <> DONE_line ->
  payload (JsString.trim line) = Some text ->
  parseStreamChunk JSON_parse settings line =
    try_catch (let! data := JSON_parse text in
               interpretChunk (aiProvider settings) data)
              (fun _ => Return None).
Proof.
  intros Hdone Hpayload. unfold parseStreamChunk.
  rewrite (payload_nonempty _ _ Hpayload).
  destruct (String.eqb_spec (JsString.trim line) DONE_line) as [? | _]; [done |].
  simpl. unfold payload in Hpayload.
  destruct (JsString.startsWith (JsString.trim line) "data: ").
  - by injection Hpayload as ->.
  - destruct (JsString.startsWith (JsString.trim line) "{"); [| discriminate].
    by injection Hpayload as ->.
Qed.





(** ** The callbacks of a streaming call *)

Create HintDb quiet.

Lemma quiet_pure {A : Type} (m : M world A) :
  (forall w, snd (m w) = w) -> quiet m.
Proof.
  intros Hpure w r w' Hrun. exists [].
  specialize (Hpure w). rewrite Hrun in Hpure. simpl in Hpure. subst w'.
  by rewrite app_nil_r.
Qed.

Lemma quiet_ret {A : Type} (a : A) : quiet (ret a).
Proof. by apply quiet_pure. Qed.

Lemma quiet_throw {A : Type} (t : thrown) : quiet (@throw world A t).
Proof. by apply quiet_pure. Qed.

Lemma quiet_lift {A : Type} (o : outcome A) : quiet (lift o).
Proof. by apply quiet_pure. Qed.

Lemma quiet_getSettings : quiet getSettings.
Proof. by apply quiet_pure. Qed.

Lemma quiet_bind {A B : Type} (m : M world A) (k : A -> M world B) :
  quiet m -> (forall a, quiet (k a)) -> quiet (bindM m k).
Proof.
  intros Hm Hk w r w' Hrun. unfold bindM in Hrun.
  destruct (m w) as [[a | t] w1] eqn:Hmw.
  - destruct (Hm _ _ _ Hmw) as (new1 & Ht1 & Hf1).
    destruct (Hk a _ _ _ Hrun) as (new2 & Ht2 & Hf2).
    exists (new1 ++ new2)%list. split.
    + by rewrite Ht2, Ht1, app_assoc.
    + by rewrite List.filter_app, Hf1, Hf2.
  - injection Hrun as <- <-. exact (Hm _ _ _ Hmw).
Qed.

Lemma quiet_catch {A : Type} (m : M world A) (handler : thrown -> M world A) :
  quiet m -> (forall t, quiet (handler t)) -> quiet (catchM m handler).
Proof.
  intros Hm Hh w r w' Hrun. unfold catchM in Hrun.
  destruct (m w) as [[a | t] w1] eqn:Hmw.
  - injection Hrun as <- <-. exact (Hm _ _ _ Hmw).
  - destruct (Hm _ _ _ Hmw) as (new1 & Ht1 & Hf1).
    destruct (Hh t _ _ _ Hrun) as (new2 & Ht2 & Hf2).
    exists (new1 ++ new2)%list. split.
    + by rewrite Ht2, Ht1, app_assoc.
    + by rewrite List.filter_app, Hf1, Hf2.
Qed.

Lemma quiet_emit (e : event) : isCallback e = false -> quiet (emit e).
Proof.
  intros He w r w' Hrun. injection Hrun as <- <-. exists [e]. simpl.
  by rewrite He.
Qed.

Lemma quiet_suspend (meanwhile : list event -> option EvergreenAISettings) :
  quiet (suspend meanwhile).
Proof.
  intros w r w' Hrun. unfold suspend, updateSettings in Hrun. exists [].
  rewrite app_nil_r.
  destruct (meanwhile (trace w)); by injection Hrun as <- <-.
Qed.

#[local] Hint Resolve quiet_ret quiet_throw quiet_lift quiet_getSettings
  quiet_suspend : quiet.

Ltac quiet_step :=
  first
    [ apply quiet_bind; [| intros ?]
    | apply quiet_catch; [| intros ?]
    | apply quiet_emit; reflexivity
    | solve [auto with quiet]
    | solve [apply quiet_pure; reflexivity]
    | match goal with
      | |- quiet (if ?b then _ else _) => destruct b
      | |- quiet (match ?x with _ => _ end) => destruct x
      end ].

Section CallbackProperties.

Variable defaults : ProviderDefaults.
Variable JSON_parse : string -> outcome json.
Variable isMobile : bool.
Variable net_requestUrl : list event -> request -> outcome RequestUrlResponse.
Variable net_fetch : list event -> request -> outcome FetchResponse.
Variable meanwhile : list event -> option EvergreenAISettings.
Variable callbacks : list event -> option thrown.
Variable retryConfig : RetryConfig.

Lemma quiet_generateOnce (prompt systemPrompt : string) :
  quiet (generateOnce defaults net_requestUrl meanwhile prompt systemPrompt).
Proof. unfold generateOnce, await_requestUrl. repeat quiet_step. Qed.

Lemma quiet_retryLoop {T : Type} (operation : M world T) :
  quiet operation ->
  forall (remaining : nat) (attempt : Z) (lastError : option thrown),
    quiet (retryLoop (delay meanwhile) retryConfig operation remaining attempt lastError).
Proof.
  intros Hop remaining.
  induction remaining as [| n IH]; intros attempt lastError; simpl.
  - apply quiet_throw.
  - apply quiet_catch; [exact Hop |].
    intros [e | |]; try apply quiet_throw.
    destruct (negb (retryable e)); [apply quiet_throw |].
    destruct (maxRetries retryConfig <=? attempt); [apply quiet_throw |].
    apply quiet_bind; [| intros _; apply IH].
    intros w r w' Hrun. injection Hrun as <- <-.
    exists [Delay (retryDelay retryConfig attempt e)].
    unfold delay. rewrite resumed_run. split; reflexivity.
Qed.

Lemma quiet_generate (prompt systemPrompt : string) :
  quiet (generate defaults isMobile net_requestUrl meanwhile retryConfig
                  prompt systemPrompt).
Proof.
  unfold generate. apply quiet_bind; [apply quiet_getSettings | intros s].
  destruct (isMobile && String.eqb (aiProvider s) "ollama"); [apply quiet_throw |].
  apply quiet_retryLoop, quiet_generateOnce.
Qed.

Lemma filter_fragments (fragments : list json) :
  List.filter isCallback (map OnChunk fragments) = map OnChunk fragments.
Proof. induction fragments as [| f fs IH]; simpl; [| rewrite IH]; reflexivity. Qed.

Lemma emit_suspend_bind {A : Type} (e : event) (k : unit -> M world A) (w : world) :
  (do _ <- emit e ;; do u <- suspend meanwhile ;; k u) w = k tt (resumed meanwhile w e).
Proof.
  unfold bindM, emit, suspend, updateSettings, resumed. simpl.
  destruct (meanwhile (trace w ++ [e])); reflexivity.
Qed.

Lemma invoke_run (e : event) (w : world) :
  invoke callbacks e w =
    (match callbacks (trace w ++ [e])%list with
     | Some error => Throw error
     | None => Return tt
     end,
     {| settings := settings w; trace := (trace w ++ [e])%list |}).
Proof.
  unfold invoke, bindM, emit. simpl.
  destruct (callbacks (trace w ++ [e])); reflexivity.
Qed.

Lemma invoke_returned (e : event) (w w' : world) :
  invoke callbacks e w = (Return tt, w') ->
  w' = {| settings := settings w; trace := (trace w ++ [e])%list |}.
Proof.
  rewrite invoke_run. destruct (callbacks (trace w ++ [e])); [discriminate |].
  by injection 1 as <-.
Qed.

Lemma processLines_cons (line : string) (rest : list string) (w : world) :
  processLines JSON_parse callbacks (line :: rest) w =
    match parseStreamChunk JSON_parse (settings w) line with
    | Return (Some chunk) =>
        if Js.truthy (Some (done chunk)) then
          (do _ <- invoke callbacks OnComplete ;; ret true) w
        else if Js.truthy (Some (content chunk)) then
          (do _ <- invoke callbacks (OnChunk (content chunk)) ;;
           processLines JSON_parse callbacks rest) w
        else processLines JSON_parse callbacks rest w
    | Return None => processLines JSON_parse callbacks rest w
    | Throw t => (Throw t, w)
    end.
Proof.
  cbn [processLines]. unfold bindM at 1 2. unfold getSettings, lift.
  destruct (parseStreamChunk JSON_parse (settings w) line) as [[c |] | t];
    try reflexivity.
  destruct (Js.truthy (Some (done c))); [reflexivity |].
  destruct (Js.truthy (Some (content c))); reflexivity.
Qed.

Lemma bind_invoke_returned {A : Type} (e : event) (k : M world A) (w w' : world) (a : A) :
  (do _ <- invoke callbacks e ;; k) w = (Return a, w') ->
  k {| settings := settings w; trace := (trace w ++ [e])%list |} = (Return a, w').
Proof.
  unfold bindM. rewrite invoke_run.
  destruct (callbacks (trace w ++ [e])); [discriminate | done].
Qed.

(** When the loop over the lines of one read does not throw, it has
    delivered fragments, and it has invoked the completion callback,
    last, exactly when it makes [generateStream] return. *)
Lemma processLines_run (lines : list string) :
  forall (w w' : world) (returned : bool),
    processLines JSON_parse callbacks lines w = (Return returned, w') ->
    exists fragments : list json,
      trace w' = (trace w ++ map OnChunk fragments
                  ++ (if returned then [OnComplete] else []))%list.
Proof.
  induction lines as [| line rest IH]; intros w w' returned Hrun.
  - injection Hrun as <- <-. exists []. by rewrite app_nil_r.
  - rewrite processLines_cons in Hrun.
    destruct (parseStreamChunk_returns JSON_parse (settings w) line) as [[c |] Hparse];
      rewrite Hparse in Hrun; [| by apply IH].
    destruct (Js.truthy (Some (done c))).
    + apply bind_invoke_returned in Hrun. injection Hrun as <- <-.
      exists []. reflexivity.
    + destruct (Js.truthy (Some (content c))); [| by apply IH].
      apply bind_invoke_returned in Hrun.
      destruct (IH _ _ _ Hrun) as [fragments Htrace].
      exists (content c :: fragments). rewrite Htrace. simpl.
      by rewrite <- app_assoc.
Qed.

(** Once a line is a terminal signal the lines after it are not looked
    at, and the loop does not go on to the next read. *)
Lemma processLines_stops (before after : list string) (line : string)
    (chunk : AIStreamChunk) (w : world) :
  parseStreamChunk JSON_parse (settings w) line = Return (Some chunk) ->
  Js.truthy (Some (done chunk)) = true ->
  processLines JSON_parse callbacks (before ++ line :: after) w =
    processLines JSON_parse callbacks (before ++ [line]) w
  /\ fst (processLines JSON_parse callbacks (before ++ [line]) w) <> Return false.
Proof.
  revert w. induction before as [| l before IH]; intros w Hparse Hdone.
  - simpl app. rewrite !processLines_cons, Hparse, Hdone. split; [reflexivity |].
    unfold bindM. rewrite invoke_run.
    destruct (callbacks (trace w ++ [OnComplete])); discriminate.
  - simpl app. rewrite !processLines_cons.
    destruct (parseStreamChunk_returns JSON_parse (settings w) l) as [[c |] ->];
      [| by apply IH].
    destruct (Js.truthy (Some (done c))); [split; [reflexivity |] |].
    { unfold bindM. rewrite invoke_run.
      destruct (callbacks (trace w ++ [OnComplete])); discriminate. }
    destruct (Js.truthy (Some (content c))); [| by apply IH].
    unfold bindM. rewrite invoke_run.
    destruct (callbacks (trace w ++ [OnChunk (content c)])); [split; [done | discriminate] |].
    by apply IH.
Qed.

Lemma readLoop_done (buffer : string) (w w' : world) :
  readLoop JSON_parse meanwhile callbacks [] buffer w = (Return tt, w') ->
  exists fragments : list json,
    trace w' = (trace (resumed meanwhile w Read)
                ++ map OnChunk fragments ++ [OnComplete])%list.
Proof.
  cbn [readLoop]. rewrite emit_suspend_bind.
  set (w1 := resumed meanwhile w Read). intros Hrun.
  unfold bindM at 1 in Hrun.
  match type of Hrun with
  | match ?flush w1 with _ => _ end = _ =>
      destruct (flush w1) as [[[] | t] w2] eqn:Hflush; [| discriminate]
  end.
  apply invoke_returned in Hrun. subst w'. simpl.
  destruct (JsString.nonempty buffer).
  - unfold bindM at 1 2 in Hflush. unfold getSettings, lift in Hflush.
    destruct (parseStreamChunk_returns JSON_parse (settings w1) buffer) as [[c |] Hparse];
      rewrite Hparse in Hflush.
    + destruct (Js.truthy (Some (content c))).
      * apply invoke_returned in Hflush. subst w2. simpl.
        exists [content c]. by rewrite <- app_assoc.
      * injection Hflush as <-. exists []. reflexivity.
    + injection Hflush as <-. exists []. reflexivity.
  - injection Hflush as <-. exists []. reflexivity.
Qed.

Lemma readLoop_rejected (error : thrown) (reads : list read_result) (buffer : string)
    (w : world) :
  readLoop JSON_parse meanwhile callbacks (ReadRejected error :: reads) buffer w =
    (Throw error, resumed meanwhile w Read).
Proof. cbn [readLoop]. by rewrite emit_suspend_bind. Qed.

Lemma readLoop_value (text : string) (reads : list read_result) (buffer : string)
    (w : world) :
  readLoop JSON_parse meanwhile callbacks (ReadValue text :: reads) buffer w =
    let lines := JsString.split_lines (buffer +:+ text) in
    match processLines JSON_parse callbacks (List.removelast lines)
                       (resumed meanwhile w Read) with
    | (Return true, w') => (Return tt, w')
    | (Return false, w') =>
        readLoop JSON_parse meanwhile callbacks reads (List.last lines "") w'
    | (Throw t, w') => (Throw t, w')
    end.
Proof.
  cbn [readLoop]. rewrite emit_suspend_bind. unfold bindM.
  destruct (processLines JSON_parse callbacks _ _) as [[[|] | t] w']; reflexivity.
Qed.

Lemma readLoop_run (reads : list read_result) :
  forall (buffer : string) (w w' : world),
    readLoop JSON_parse meanwhile callbacks reads buffer w = (Return tt, w') ->
    exists (new : list event) (fragments : list json),
      trace w' = (trace w ++ new)%list
      /\ List.filter isCallback new = (map OnChunk fragments ++ [OnComplete])%list.
Proof.
  induction reads as [| [text | error] reads IH]; intros buffer w w' Hrun.
  - destruct (readLoop_done buffer w w' Hrun) as [fragments Htrace].
    exists (Read :: map OnChunk fragments ++ [OnComplete])%list, fragments.
    split; [rewrite Htrace; simpl; by rewrite <- app_assoc |].
    simpl. by rewrite List.filter_app, filter_fragments.
  - rewrite readLoop_value in Hrun. cbv zeta in Hrun.
    destruct (processLines JSON_parse callbacks _ _) as [[returned | t] w1] eqn:Hlines;
      [| discriminate].
    destruct (processLines_run _ _ _ _ Hlines) as [fragments Htrace1].
    destruct returned.
    + injection Hrun as <-.
      exists (Read :: map OnChunk fragments ++ [OnComplete])%list, fragments.
      split; [rewrite Htrace1; simpl; by rewrite <- app_assoc |].
      simpl. by rewrite List.filter_app, filter_fragments.
    + destruct (IH _ _ _ Hrun) as (new & fragments' & Htrace & Hfilter).
      exists (Read :: map OnChunk fragments ++ new)%list, (fragments ++ fragments')%list.
      split.
      * rewrite Htrace, Htrace1. simpl. rewrite app_nil_r. by rewrite <- !app_assoc.
      * simpl. rewrite List.filter_app, filter_fragments, Hfilter, map_app.
        by rewrite <- app_assoc.
  - rewrite readLoop_rejected in Hrun. discriminate.
Qed.

Lemma catchM_returned {A : Type} (m : M world A) (handler : thrown -> M world A)
    (w w' : world) (a : A) :
  (forall t w0, exists t', handler t w0 = (Throw t', w0)) ->
  catchM m handler w = (Return a, w') ->
  m w = (Return a, w').
Proof.
  intros Hthrows Hrun. unfold catchM in Hrun.
  destruct (m w) as [[a' | t] w1]; [exact Hrun |].
  destruct (Hthrows t w1) as [t' Ht']. rewrite Ht' in Hrun. discriminate.
Qed.

End CallbackProperties.

(** C8. When a streaming call succeeds, the callbacks it invoked are a
    sequence of fragment callbacks followed by one completion callback:
    the completion callback is invoked exactly once and no fragment
    callback comes after it. Within the lines of one read, a line that is
    a terminal signal ends the loop: the lines buffered after it are not
    processed, whatever they are, and no further read follows. *)
Theorem C8_completion_once_and_last (defaults : ProviderDefaults)
    (JSON_parse : string -> outcome json) (isMobile : bool)
    (net_requestUrl : list event -> request -> outcome RequestUrlResponse)
    (net_fetch : list event -> request -> outcome FetchResponse)
    (meanwhile : list event -> option EvergreenAISettings)
    (callbacks : list event -> option thrown) (retryConfig : RetryConfig)
    (prompt systemPrompt : string) (w w' : world) :
  generateStream defaults JSON_parse isMobile net_requestUrl net_fetch meanwhile
                 callbacks retryConfig prompt systemPrompt w = (Return tt, w') ->
  (exists (new : list event) (fragments : list json),
      trace w' = (trace w ++ new)%list
      /\ List.filter isCallback new = (map OnChunk fragments ++ [OnComplete])%list)
  /\ (forall (before after : list string) (line : string) (chunk : AIStreamChunk)
             (w0 : world),
        parseStreamChunk JSON_parse (settings w0) line = Return (Some chunk) ->
        Js.truthy (Some (done chunk)) = true ->
        processLines JSON_parse callbacks (before ++ line :: after) w0 =
          processLines JSON_parse callbacks (before ++ [line]) w0
        /\ fst (processLines JSON_parse callbacks (before ++ [line]) w0) <> Return false).
Proof.
  intros Hrun. split; [| intros; by eapply processLines_stops].
  unfold generateStream in Hrun. unfold bindM at 1 in Hrun.
  unfold getSettings at 1 in Hrun. cbv beta iota in Hrun.
  destruct isMobile.
  - destruct (String.eqb (aiProvider (settings w)) "ollama"); [discriminate |].
    unfold bindM at 1 in Hrun.
    destruct (generate defaults true net_requestUrl meanwhile retryConfig
                       prompt systemPrompt w) as [[response | t] w1] eqn:Hgen;
      [| discriminate].
    destruct (quiet_generate _ _ _ _ _ _ _ _ _ _ Hgen) as (new & Htrace & Hquiet).
    apply bind_invoke_returned, invoke_returned in Hrun. subst w'.
    exists (new ++ [OnChunk (response_content response); OnComplete])%list,
           [response_content response].
    split.
    + simpl. rewrite Htrace. by rewrite <- !app_assoc.
    + by rewrite List.filter_app, Hquiet.
  - unfold bindM at 1 in Hrun. unfold lift at 1 in Hrun.
    destruct (buildRequest defaults (settings w) prompt systemPrompt true)
      as [r | t]; [| discriminate].
    apply catchM_returned in Hrun.
    2:{ intros t w0. destruct (isAbortError t); [eexists; reflexivity |].
        destruct t; [eexists; reflexivity | |];
          (destruct (isNetworkError _); eexists; reflexivity). }
    unfold await_fetch in Hrun.
    unfold bindM at 1 in Hrun.
    rewrite emit_suspend_bind in Hrun.
    destruct (net_fetch (trace (resumed meanwhile w (Fetch r))) r)
      as [response | t]; [| discriminate].
    destruct (negb (fetch_ok response)).
    { rewrite emit_suspend_bind in Hrun. unfold bindM, lift, throw in Hrun.
      destruct (parseErrorResponse _ _); discriminate. }
    destruct (fetch_body response) as [reads |]; [| discriminate].
    destruct (readLoop_run _ _ _ reads _ _ _ Hrun) as (new & fragments & Htrace & Hfilter).
    exists (Fetch r :: new), fragments. split.
    + rewrite Htrace. simpl. by rewrite <- app_assoc.
    + exact Hfilter.
Qed.

Lemma C8_completion_once_and_last_witness :
  let w := Sample.start "openai" "sk" in
  let w' := snd (generateStream Sample.defaults Sample.JSON_parse false Sample.answering
                                Sample.streaming Sample.undisturbed Sample.returning
                                DEFAULT_RETRY_CONFIG "p" "s" w) in
  List.filter isCallback (trace w')
    = [OnChunk (JStr "Hello"); OnChunk (JStr " world"); OnComplete]
  /\ exists (new : list event) (fragments : list json),
      trace w' = (trace w ++ new)%list
      /\ List.filter isCallback new = (map OnChunk fragments ++ [OnComplete])%list.
Proof.
  intros w w'. split; [reflexivity |].
  apply (C8_completion_once_and_last Sample.defaults Sample.JSON_parse false
           Sample.answering Sample.streaming Sample.undisturbed Sample.returning
           DEFAULT_RETRY_CONFIG "p" "s" w w').
  reflexivity.
Defined.

(** * Further properties of the service *)

(** ** The error classifier, all statuses *)

Lemma classify_other (status : Z) (message : string) :
  tableStatus status = false ->
  classify status message =
    if 500 <=? status
    then mkAIServiceError message SERVER_ERROR true None
    else mkAIServiceError message UNKNOWN false None.
Proof.
  unfold tableStatus, shortRetryStatus. intros Htable.
  assert (status <> 400 /\ status <> 401 /\ status <> 403 /\ status <> 404
          /\ status <> 429 /\ status <> 500 /\ status <> 502 /\ status <> 503
          /\ status <> 504) as (? & ? & ? & ? & ? & ? & ? & ? & ?) by lia.
  unfold classify.
  destruct status as [| p | p]; try reflexivity.
  do 10 (try destruct p as [p | p |]; try reflexivity; try lia).
Qed.

Lemma classify_table (status : Z) :
  tableStatus status = true ->
  status = 400 \/ status = 401 \/ status = 403 \/ status = 404 \/ status = 429
  \/ status = 500 \/ status = 502 \/ status = 503 \/ status = 504.
Proof. unfold tableStatus, shortRetryStatus. lia. Qed.

Lemma classify_400 (message : string) :
  classify 400 message =
    if lengthWording message
    then mkAIServiceError
           "Content too long - try with shorter text or break it into smaller parts"
           CONTEXT_LENGTH_EXCEEDED false None
    else mkAIServiceError message UNKNOWN false None.
Proof. reflexivity. Qed.

(** X1. Which failures the classifier marks retryable: exactly a 429
    whose message has no quota wording, and every status of 500 or more.
    A classified error that suggests a wait is always retryable. *)
Theorem X1_retryable_statuses (status : Z) (body : json) (message : string) :
  extractMessage body = Return message ->
  exists error,
    parseErrorResponse status body = Return error
    /\ (retryable error = true <->
        (status = 429 /\ quotaWording message = false) \/ 500 <= status)
    /\ (retryAfter error <> None -> retryable error = true).
Proof.
  intros Hmessage. exists (classify status message).
  split; [by apply parseErrorResponse_classify |].
  destruct (tableStatus status) eqn:Htable.
  - destruct (classify_table status Htable)
      as [-> | [-> | [-> | [-> | [-> | [-> | [-> | [-> | ->]]]]]]]];
      try (rewrite classify_400; destruct (lengthWording message));
      try (rewrite classify_429; destruct (quotaWording message));
      simpl; (split; [split; [intros; lia || discriminate | intros [[? ?] | ?];
                                                   try lia; try discriminate; reflexivity]
                     | try done]).
  - rewrite (classify_other status message Htable).
    destruct (500 <=? status) eqn:Hge; simpl.
    + split; [split; [intros; lia | reflexivity] | reflexivity].
    + split; [split; [discriminate |] | done].
      intros [[-> _] | ?]; [discriminate | lia].
Qed.

Lemma X1_retryable_statuses_witness :
  exists error,
    parseErrorResponse 429 Sample.rateLimitedBody = Return error
    /\ (retryable error = true <->
        (429 = 429 /\
         quotaWording "Rate limit reached for requests. Please try again in 20s." = false)
        \/ 500 <= 429)
    /\ (retryAfter error <> None -> retryable error = true).
Proof.
  apply (X1_retryable_statuses 429 Sample.rateLimitedBody
           "Rate limit reached for requests. Please try again in 20s.").
  reflexivity.
Defined.

Lemma to_string_text (s : string) : Js.String_ (Some (JStr s)) = Return s.
Proof. reflexivity. Qed.

Lemma truthy_text (s : string) : s <> "" -> Js.truthy (Some (JStr s)) = true.
Proof. destruct s; [done | reflexivity]. Qed.

(** X2. Where the classifier takes the message of the provider from, for
    a body that is an object: from [error.message] when that is a
    non-empty string, whatever else the body holds; else from [message];
    else from [detail]; and when none of the three is there it is the
    text "API request failed". An [error] that is itself a string is not
    used. *)
Theorem X2_message_precedence (fields : list (string * json)) (s : string) :
  let nested := Js.get_opt (Js.lookup_field "error" fields) "message" in
  let top := Js.lookup_field "message" fields in
  let detail := Js.lookup_field "detail" fields in
  (nested = Some (JStr s) -> s <> "" -> extractMessage (JObj fields) = Return s)
  /\ (Js.truthy nested = false -> top = Some (JStr s) -> s <> "" ->
      extractMessage (JObj fields) = Return s)
  /\ (Js.truthy nested = false -> Js.truthy top = false ->
      detail = Some (JStr s) -> s <> "" ->
      extractMessage (JObj fields) = Return s)
  /\ (Js.truthy nested = false -> Js.truthy top = false -> Js.truthy detail = false ->
      extractMessage (JObj fields) = Return "API request failed")
  /\ (forall text, Js.lookup_field "error" fields = Some (JStr text) -> nested = None).
Proof.
  intros nested top detail.
  assert (forall v, Js.get (Some (JObj fields)) v = Return (Js.lookup_field v fields))
    as Hget by reflexivity.
  unfold extractMessage. rewrite Hget. unfold bind. cbn [Js.own].
  fold nested. fold top. fold detail.
  repeat apply conj.
  - intros -> Hs. by rewrite (truthy_text s Hs).
  - intros -> -> Hs. by rewrite (truthy_text s Hs).
  - intros -> -> -> Hs. by rewrite (truthy_text s Hs).
  - by intros -> -> ->.
  - intros text Herror. subst nested. by rewrite Herror.
Qed.

Lemma X2_message_precedence_witness :
  extractMessage
    (JObj [("message", JStr "outer"); ("error", JObj [("message", JStr "inner")])])
    = Return "inner"
  /\ extractMessage (JObj [("error", JStr "model not found")]) = Return "API request failed".
Proof.
  split.
  - apply (proj1 (X2_message_precedence
                    [("message", JStr "outer"); ("error", JObj [("message", JStr "inner")])]
                    "inner")); [reflexivity | discriminate].
  - apply (proj1 (proj2 (proj2 (proj2 (X2_message_precedence
                    [("error", JStr "model not found")] ""))))); reflexivity.
Defined.

(** ** Non-streaming calls *)

Lemma buildRequest_throws (defaults : ProviderDefaults) (settings : EvergreenAISettings)
    (prompt systemPrompt : string) (stream : bool) (t : thrown) :
  buildRequest defaults settings prompt systemPrompt stream = Throw t ->
  t = ThrownService
        (mkAIServiceError ("Unknown provider: " +:+ aiProvider settings) UNKNOWN false None)
  /\ aiProvider settings <> "openai" /\ aiProvider settings <> "anthropic"
  /\ aiProvider settings <> "ollama" /\ aiProvider settings <> "custom".
Proof.
  unfold buildRequest.
  destruct (String.eqb_spec (aiProvider settings) "openai"); [discriminate |].
  destruct (String.eqb_spec (aiProvider settings) "anthropic"); [discriminate |].
  destruct (String.eqb_spec (aiProvider settings) "ollama"); [discriminate |].
  destruct (String.eqb_spec (aiProvider settings) "custom"); [discriminate |].
  by injection 1 as <-.
Qed.

(** Computations that leave the world as it is. *)
Lemma unchanged_world {A : Type} (m : M world A) (w : world) :
  (forall w0, snd (m w0) = w0) -> snd (m w) = w.
Proof. intros H. apply H. Qed.

Lemma unchanged_bind {A B : Type} (m : M world A) (k : A -> M world B) :
  (forall w0, snd (m w0) = w0) ->
  (forall a w0, snd (k a w0) = w0) ->
  forall w0, snd (bindM m k w0) = w0.
Proof.
  intros Hm Hk w0. unfold bindM. specialize (Hm w0).
  destruct (m w0) as [[a | t] w1]; simpl in Hm; subst w1; [apply Hk | reflexivity].
Qed.

Ltac unchanged_step :=
  first
    [ apply unchanged_bind; [| intros ?]
    | intros ?; reflexivity
    | match goal with
      | |- forall w0, snd ((if ?b then _ else _) w0) = w0 => destruct b
      | |- forall w0, snd ((match ?x with _ => _ end) w0) = w0 => destruct x
      end ].

Section NonStreaming.

Variable defaults : ProviderDefaults.
Variable isMobile : bool.
Variable net_requestUrl : list event -> request -> outcome RequestUrlResponse.
Variable meanwhile : list event -> option EvergreenAISettings.
Variable retryConfig : RetryConfig.

Lemma delay_resumed (ms : Z) (w : world) :
  delay meanwhile ms w = resumed meanwhile w (Delay ms).
Proof. unfold delay. by rewrite resumed_run. Qed.

Lemma generateOnce_unbuilt (prompt systemPrompt : string) (w : world) (t : thrown) :
  buildRequest defaults (settings w) prompt systemPrompt false = Throw t ->
  generateOnce defaults net_requestUrl meanwhile prompt systemPrompt w = (Throw t, w).
Proof.
  intros Hbuild. unfold generateOnce, bindM, getSettings, lift. by rewrite Hbuild.
Qed.

(** An HTTP failure goes through the [catch] of [generate]. *)
Lemma generateOnce_http_failure (prompt systemPrompt : string) (w : world) (r : request)
    (response : RequestUrlResponse) (body : json) (message : string) :
  buildRequest defaults (settings w) prompt systemPrompt false = Return r ->
  net_requestUrl (trace (resumed meanwhile w (RequestUrl r))) r = Return response ->
  400 <= response_status response ->
  response_json response = Return body ->
  extractMessage body = Return message ->
  generateOnce defaults net_requestUrl meanwhile prompt systemPrompt w =
    (Throw (ThrownService
              (let error := classify (response_status response) message in
               if isNetworkError (ThrownService error) then networkError else error)),
     resumed meanwhile w (RequestUrl r)).
Proof.
  intros Hbuild Hnet Hstatus Hjson Hmessage.
  unfold generateOnce, bindM, catchM, getSettings, lift. rewrite Hbuild.
  rewrite await_requestUrl_run, Hnet.
  replace (400 <=? response_status response) with true by lia.
  rewrite Hjson, (parseErrorResponse_classify _ _ _ Hmessage). unfold throw.
  destruct (isNetworkError _); reflexivity.
Qed.

Lemma generateOnce_classified (prompt systemPrompt : string) (w w' : world) (t : thrown) :
  generateOnce defaults net_requestUrl meanwhile prompt systemPrompt w = (Throw t, w') ->
  exists e, t = ThrownService e.
Proof.
  unfold generateOnce, bindM at 1 2, getSettings, lift.
  destruct (buildRequest defaults (settings w) prompt systemPrompt false)
    as [r | t0] eqn:Hbuild.
  - unfold catchM.
    match goal with |- context [match ?body w with _ => _ end] =>
      destruct (body w) as [[a | error] w1] end; [discriminate |].
    destruct (isNetworkError error); [injection 1 as <- _; by eexists |].
    destruct error; injection 1 as <- _; by eexists.
  - injection 1 as <- _. apply buildRequest_throws in Hbuild as [-> _]. by eexists.
Qed.

Lemma generateOnce_events (prompt systemPrompt : string) (w w' : world)
    (o : outcome AIResponse) :
  generateOnce defaults net_requestUrl meanwhile prompt systemPrompt w = (o, w') ->
  trace w' = trace w \/ exists r, trace w' = (trace w ++ [RequestUrl r])%list.
Proof.
  unfold generateOnce, bindM at 1 2, getSettings at 1, lift at 1.
  destruct (buildRequest defaults (settings w) prompt systemPrompt false) as [r | t0];
    [| injection 1 as _ <-; by left].
  intros Hrun. right. exists r.
  change (trace w ++ [RequestUrl r])%list
    with (trace (resumed meanwhile w (RequestUrl r))).
  f_equal.
  unfold catchM, bindM at 1 in Hrun. rewrite await_requestUrl_run in Hrun.
  set (w1 := resumed meanwhile w (RequestUrl r)) in *.
  destruct (net_requestUrl (trace w1) r) as [response | t1].
  - match type of Hrun with
    | context [match ?k w1 with _ => _ end] =>
        assert (snd (k w1) = w1) as Hpure by (apply unchanged_world; repeat unchanged_step);
        destruct (k w1) as [[a | error] w2]
    end; simpl in Hpure; subst w2.
    + by injection Hrun as _ <-.
    + match type of Hrun with
      | ?h w1 = _ =>
          assert (snd (h w1) = w1) as Hpure
            by (apply unchanged_world; repeat unchanged_step)
      end.
      rewrite Hrun in Hpure. by simpl in Hpure.
  - match type of Hrun with
    | ?h w1 = _ =>
        assert (snd (h w1) = w1) as Hpure
          by (apply unchanged_world; repeat unchanged_step)
    end.
    rewrite Hrun in Hpure. by simpl in Hpure.
Qed.

End NonStreaming.

(** ** The wait that a classified error suggests *)






Lemma retryLoop_classified {W T : Type} (delay : Z -> W -> W) (cfg : RetryConfig)
    (operation : M W T) :
  (forall w t w', operation w = (Throw t, w') -> exists e, t = ThrownService e) ->
  forall (remaining : nat) (attempt : Z) (lastError : option thrown) (w w' : W)
         (t : thrown),
    (forall t0, lastError = Some t0 -> exists e, t0 = ThrownService e) ->
    retryLoop delay cfg operation remaining attempt lastError w = (Throw t, w') ->
    exists e, t = ThrownService e.
Proof.
  intros Hop remaining.
  induction remaining as [| n IH]; intros attempt lastError w w' t Hlast Hrun.
  - simpl in Hrun. unfold throw in Hrun. injection Hrun as <- _.
    destruct lastError as [t0 |]; [by apply Hlast | by eexists].
  - destruct (operation w) as [[x | t0] w1] eqn:Hrun0.
    + rewrite (retryLoop_success _ _ _ _ _ _ _ _ _ Hrun0) in Hrun. discriminate.
    + rewrite (retryLoop_failure _ _ _ _ _ _ _ _ _ Hrun0) in Hrun.
      destruct (Hop _ _ _ Hrun0) as [e ->].
      destruct (negb (retryable e)); [injection Hrun as <- _; by eexists |].
      destruct (maxRetries cfg <=? attempt); [injection Hrun as <- _; by eexists |].
      apply IH in Hrun; [done |]. intros t0 [= <-]. by eexists.
Qed.

Lemma retryDelay_bound (cfg : RetryConfig) (attempt : Z) (e : AIServiceError) :
  retryDelay cfg attempt e <= maxDelayMs cfg.
Proof. unfold retryDelay. lia. Qed.

Section RetryBounds.

Variable defaults : ProviderDefaults.
Variable net_requestUrl : list event -> request -> outcome RequestUrlResponse.
Variable meanwhile : list event -> option EvergreenAISettings.
Variable retryConfig : RetryConfig.
Variable prompt systemPrompt : string.

Lemma retryLoop_bounded (remaining : nat) :
  forall (attempt : Z) (lastError : option thrown) (w w' : world)
         (o : outcome AIResponse),
    Z.of_nat remaining = maxRetries retryConfig + 1 - attempt ->
    retryLoop (delay meanwhile) retryConfig
              (generateOnce defaults net_requestUrl meanwhile prompt systemPrompt)
              remaining attempt lastError w = (o, w') ->
    exists new,
      trace w' = (trace w ++ new)%list
      /\ (List.length (List.filter isRequestUrl new) <= remaining)%nat
      /\ (List.length (List.filter isDelay new) <= Nat.pred remaining)%nat
      /\ forallb (withinRetryBounds (maxDelayMs retryConfig)) new = true.
Proof.
  induction remaining as [| n IH]; intros attempt lastError w w' o Hsync Hrun.
  - injection Hrun as _ <-. exists []. by rewrite app_nil_r.
  - destruct (generateOnce defaults net_requestUrl meanwhile prompt systemPrompt w)
      as [[x | t] w1] eqn:Hrun0.
    + rewrite (retryLoop_success _ _ _ _ _ _ _ _ _ Hrun0) in Hrun.
      injection Hrun as _ <-.
      destruct (generateOnce_events _ _ _ _ _ _ _ _ Hrun0) as [-> | [r ->]].
      * exists []. rewrite app_nil_r. repeat split; simpl; lia.
      * exists [RequestUrl r]. repeat split; simpl; lia.
    + rewrite (retryLoop_failure _ _ _ _ _ _ _ _ _ Hrun0) in Hrun.
      assert (exists first,
                 trace w1 = (trace w ++ first)%list
                 /\ (List.length (List.filter isRequestUrl first) <= 1)%nat
                 /\ List.filter isDelay first = []
                 /\ forallb (withinRetryBounds (maxDelayMs retryConfig)) first = true)
        as (first & Hfirst & Hreq & Hdel & Hok).
      { destruct (generateOnce_events _ _ _ _ _ _ _ _ Hrun0) as [-> | [r ->]].
        - exists []. rewrite app_nil_r. repeat split; simpl; lia.
        - exists [RequestUrl r]. repeat split; simpl; lia. }
      assert ((o, w') = (Throw t, w1) ->
              exists new,
                trace w' = (trace w ++ new)%list
                /\ (List.length (List.filter isRequestUrl new) <= S n)%nat
                /\ (List.length (List.filter isDelay new) <= Nat.pred (S n))%nat
                /\ forallb (withinRetryBounds (maxDelayMs retryConfig)) new = true)
        as Hstop.
      { intros [= -> ->]. exists first. rewrite Hdel. repeat split; simpl; try done; lia. }
      destruct t as [e | |]; try (by apply Hstop).
      destruct (negb (retryable e)); [by apply Hstop |].
      destruct (Z.leb_spec (maxRetries retryConfig) attempt); [by apply Hstop |].
      apply IH in Hrun; [| lia].
      destruct Hrun as (rest & Hrest & Hreq' & Hdel' & Hok').
      exists (first ++ Delay (retryDelay retryConfig attempt e) :: rest)%list.
      rewrite Hrest, delay_resumed. simpl trace. rewrite Hfirst.
      repeat split.
      * by rewrite <- !app_assoc.
      * rewrite List.filter_app, length_app. simpl. lia.
      * rewrite List.filter_app, Hdel. simpl. lia.
      * rewrite forallb_app, Hok. simpl. rewrite Hok'.
        pose proof (retryDelay_bound retryConfig attempt e). 
        replace (retryDelay retryConfig attempt e <=? maxDelayMs retryConfig)
          with true by lia.
        reflexivity.
Qed.

End RetryBounds.

Lemma failsFast_cases (status : Z) (message : string) :
  failsFast status message = true ->
  status = 401 \/ status = 403 \/ status = 404
  \/ (status = 400 /\ lengthWording message = true)
  \/ (status = 429 /\ quotaWording message = true).
Proof.
  unfold failsFast. intros H.
  destruct (lengthWording message), (quotaWording message); lia.
Qed.

Lemma failsFast_classified (status : Z) (message : string) :
  failsFast status message = true ->
  retryable (classify status message) = false
  /\ retryAfter (classify status message) = None
  /\ isNetworkError (ThrownService (classify status message)) = false.
Proof.
  intros H.
  destruct (failsFast_cases _ _ H) as [-> | [-> | [-> | [[-> Hw] | [-> Hw]]]]];
    try rewrite classify_400; try rewrite classify_429; try rewrite Hw;
    repeat split.
Qed.

Lemma network_wording_service (text : string) (kind : AIErrorCode) (again : bool)
    (wait : option Z) :
  mentions text "network" = true ->
  isNetworkError (ThrownService (mkAIServiceError text kind again wait)) = true.
Proof.
  intros H. unfold isNetworkError, networkErrorMessages.
  cbn [existsb message]. unfold mentions in H.
  change (JsString.toLowerCase "network") with "network". rewrite H.
  by rewrite !orb_true_r.
Qed.

(** X3. A response with a status of 400 or more is classified inside the
    [try] of [generate], so the classified error passes through its
    [catch]: it reaches the retry driver unchanged unless its message
    has the wording of a network failure, in which case the retryable
    network error takes its place. The replacement never happens for the
    failures with a fixed message (401, 403, 404, a 400 with length
    wording, a 429 with quota wording); it happens for a 400 whose
    message is passed on and mentions a network. *)
Theorem X3_http_failure_through_catch (defaults : ProviderDefaults)
    (net_requestUrl : list event -> request -> outcome RequestUrlResponse)
    (meanwhile : list event -> option EvergreenAISettings)
    (prompt systemPrompt : string) (w : world) (r : request)
    (response : RequestUrlResponse) (body : json) (message : string) :
  let error := classify (response_status response) message in
  buildRequest defaults (settings w) prompt systemPrompt false = Return r ->
  net_requestUrl (trace w ++ [RequestUrl r])%list r = Return response ->
  400 <= response_status response ->
  response_json response = Return body ->
  extractMessage body = Return message ->
  generateOnce defaults net_requestUrl meanwhile prompt systemPrompt w =
    (Throw (ThrownService
              (if isNetworkError (ThrownService error) then networkError else error)),
     resumed meanwhile w (RequestUrl r))
  /\ (failsFast (response_status response) message = true ->
      isNetworkError (ThrownService error) = false)
  /\ (response_status response = 400 -> lengthWording message = false ->
      mentions message "network" = true ->
      isNetworkError (ThrownService error) = true).
Proof.
  intros error Hbuild Hnet Hstatus Hjson Hmessage. split; [| split].
  - by apply (generateOnce_http_failure defaults net_requestUrl meanwhile prompt
                systemPrompt w r response body message).
  - intros Hfast. by apply failsFast_classified.
  - intros H400 Hlength Hnetwork. subst error.
    rewrite H400, classify_400, Hlength. by apply network_wording_service.
Qed.

Lemma X3_http_failure_through_catch_witness :
  generateOnce Sample.defaults
               (Fixture.answeringWith 400 (Fixture.messageBody "Unsupported Network id"))
               Sample.undisturbed "p" "s" (Sample.start "openai" "sk")
    = (Throw (ThrownService networkError),
       {| settings := Sample.settingsFor "openai" "sk";
          trace := [RequestUrl Fixture.request] |}).
Proof.
  apply (proj1 (X3_http_failure_through_catch Sample.defaults
           (Fixture.answeringWith 400 (Fixture.messageBody "Unsupported Network id"))
           Sample.undisturbed "p" "s" (Sample.start "openai" "sk") Fixture.request
           {| response_status := 400;
              response_json := Return (Fixture.messageBody "Unsupported Network id") |}
           (Fixture.messageBody "Unsupported Network id") "Unsupported Network id"
           eq_refl eq_refl ltac:(simpl; lia) eq_refl eq_refl)).
Defined.

(** X4. An invalid key (401), a refused access (403), an unknown model
    (404), a 400 with length wording and a 429 with quota wording fail
    fast: the call makes one request, waits for nothing, and throws the
    classified error, which is not retryable. *)
Theorem X4_fails_fast (defaults : ProviderDefaults) (isMobile : bool)
    (net_requestUrl : list event -> request -> outcome RequestUrlResponse)
    (meanwhile : list event -> option EvergreenAISettings) (retryConfig : RetryConfig)
    (prompt systemPrompt : string) (w : world) (r : request)
    (response : RequestUrlResponse) (body : json) (message : string) :
  0 <= maxRetries retryConfig ->
  isMobile && String.eqb (aiProvider (settings w)) "ollama" = false ->
  buildRequest defaults (settings w) prompt systemPrompt false = Return r ->
  net_requestUrl (trace w ++ [RequestUrl r])%list r = Return response ->
  response_json response = Return body ->
  extractMessage body = Return message ->
  failsFast (response_status response) message = true ->
  generate defaults isMobile net_requestUrl meanwhile retryConfig prompt systemPrompt w =
    (Throw (ThrownService (classify (response_status response) message)),
     resumed meanwhile w (RequestUrl r))
  /\ retryable (classify (response_status response) message) = false.
Proof.
  intros Hcfg Hplatform Hbuild Hnet Hjson Hmessage Hfast.
  destruct (failsFast_classified _ _ Hfast) as (Hretry & _ & Hnetwork).
  split; [| exact Hretry].
  assert (400 <= response_status response) as Hstatus.
  { destruct (failsFast_cases _ _ Hfast) as [? | [? | [? | [[? _] | [? _]]]]]; lia. }
  pose proof (generateOnce_http_failure defaults net_requestUrl meanwhile prompt
                systemPrompt w r response body message Hbuild Hnet Hstatus Hjson Hmessage)
    as Hrun.
  cbv zeta in Hrun. rewrite Hnetwork in Hrun.
  rewrite generate_unfold, Hplatform.
  destruct (executeWithRetry_enters retryConfig Hcfg) as (remaining & Hfuel & _).
  unfold executeWithRetry. rewrite Hfuel.
  rewrite (retryLoop_failure _ _ _ _ _ _ _ _ _ Hrun). by rewrite Hretry.
Qed.

Lemma X4_fails_fast_witness :
  generate Sample.defaults false
           (Fixture.answeringWith 401 (Fixture.messageBody "Incorrect API key provided"))
           Sample.undisturbed DEFAULT_RETRY_CONFIG "p" "s" (Sample.start "openai" "sk")
    = (Throw (ThrownService
                (mkAIServiceError "Invalid API key - please check your API key in settings"
                                  INVALID_API_KEY false None)),
       {| settings := Sample.settingsFor "openai" "sk";
          trace := [RequestUrl Fixture.request] |}).
Proof.
  apply (proj1 (X4_fails_fast Sample.defaults false
           (Fixture.answeringWith 401 (Fixture.messageBody "Incorrect API key provided"))
           Sample.undisturbed DEFAULT_RETRY_CONFIG "p" "s" (Sample.start "openai" "sk")
           Fixture.request
           {| response_status := 401;
              response_json := Return (Fixture.messageBody "Incorrect API key provided") |}
           (Fixture.messageBody "Incorrect API key provided") "Incorrect API key provided"
           ltac:(simpl; lia) eq_refl eq_refl eq_refl eq_refl eq_refl eq_refl)).
Defined.

(** X5. Whatever the network does, a non-streaming call that fails
    throws an [AIServiceError], never a raw error; the message for the
    user is then the message of that error. *)
Theorem X5_only_classified_errors (defaults : ProviderDefaults) (isMobile : bool)
    (net_requestUrl : list event -> request -> outcome RequestUrlResponse)
    (meanwhile : list event -> option EvergreenAISettings) (retryConfig : RetryConfig)
    (prompt systemPrompt : string) (w w' : world) (t : thrown) :
  generate defaults isMobile net_requestUrl meanwhile retryConfig prompt systemPrompt w
    = (Throw t, w') ->
  exists e, t = ThrownService e /\ getUserFriendlyError t = message e.
Proof.
  rewrite generate_unfold. intros Hrun.
  assert (exists e, t = ThrownService e) as [e ->]; [| by exists e].
  destruct (isMobile && String.eqb (aiProvider (settings w)) "ollama").
  - injection Hrun as <- _. by eexists.
  - unfold executeWithRetry in Hrun.
    eapply retryLoop_classified in Hrun; [done | | done].
    intros w0 t0 w1. apply generateOnce_classified.
Qed.

Lemma X5_only_classified_errors_witness :
  exists e,
    Throw (A := AIResponse) (ThrownService Sample.busy) = Throw (ThrownService e)
    /\ getUserFriendlyError (ThrownService Sample.busy) = message e.
Proof.
  destruct (X5_only_classified_errors Sample.defaults false Sample.rateLimiting
              Sample.undisturbed DEFAULT_RETRY_CONFIG "p" "s" (Sample.start "openai" "sk")
              (snd (generate Sample.defaults false Sample.rateLimiting Sample.undisturbed
                             DEFAULT_RETRY_CONFIG "p" "s" (Sample.start "openai" "sk")))
              (ThrownService Sample.busy) eq_refl) as (e & He & Hm).
  exists e. split; [by rewrite He | exact Hm].
Defined.

(** X6. A non-streaming call is bounded: under a configuration with
    [maxRetries] retries it makes at most [maxRetries + 1] requests and
    waits at most [maxRetries] times, never longer than [maxDelayMs] at a
    time; and it does nothing else to the outside (no streaming request,
    no callback). *)
Theorem X6_bounded_effort (defaults : ProviderDefaults) (isMobile : bool)
    (net_requestUrl : list event -> request -> outcome RequestUrlResponse)
    (meanwhile : list event -> option EvergreenAISettings) (retryConfig : RetryConfig)
    (prompt systemPrompt : string) (w w' : world) (o : outcome AIResponse) :
  0 <= maxRetries retryConfig ->
  generate defaults isMobile net_requestUrl meanwhile retryConfig prompt systemPrompt w
    = (o, w') ->
  exists new,
    trace w' = (trace w ++ new)%list
    /\ Z.of_nat (List.length (List.filter isRequestUrl new)) <= maxRetries retryConfig + 1
    /\ Z.of_nat (List.length (List.filter isDelay new)) <= maxRetries retryConfig
    /\ forallb (withinRetryBounds (maxDelayMs retryConfig)) new = true.
Proof.
  intros Hcfg. rewrite generate_unfold.
  destruct (isMobile && String.eqb (aiProvider (settings w)) "ollama").
  - injection 1 as _ <-. exists []. rewrite app_nil_r. repeat split; simpl; lia.
  - unfold executeWithRetry. intros Hrun.
    apply retryLoop_bounded in Hrun; [| lia].
    destruct Hrun as (new & Htrace & Hreq & Hdel & Hok).
    exists new. repeat split; [done | lia | lia | done].
Qed.

Lemma X6_bounded_effort_witness :
  exists new,
    trace (snd (generate Sample.defaults false Sample.rateLimiting Sample.undisturbed
                         DEFAULT_RETRY_CONFIG "p" "s" (Sample.start "openai" "sk")))
      = ([] ++ new)%list
    /\ Z.of_nat (List.length (List.filter isRequestUrl new)) <= 3 + 1
    /\ Z.of_nat (List.length (List.filter isDelay new)) <= 3
    /\ forallb (withinRetryBounds 30000) new = true.
Proof.
  apply (X6_bounded_effort Sample.defaults false Sample.rateLimiting Sample.undisturbed
           DEFAULT_RETRY_CONFIG "p" "s" (Sample.start "openai" "sk") _
           (fst (generate Sample.defaults false Sample.rateLimiting Sample.undisturbed
                          DEFAULT_RETRY_CONFIG "p" "s" (Sample.start "openai" "sk")))).
  - simpl. lia.
  - reflexivity.
Defined.

(** X7. A retry recovers the call: when the operation fails once with a
    retryable classified error and succeeds when invoked again after the
    delay, [executeWithRetry] returns the result of the second
    invocation, provided the configuration allows one retry. Under the
    default configuration that delay is 1000 ms for an error that
    suggests no wait. *)
Theorem X7_retry_recovers {W T : Type} (delay : Z -> W -> W) (cfg : RetryConfig)
    (operation : M W T) (w w1 w2 : W) (e : AIServiceError) (x : T) :
  1 <= maxRetries cfg ->
  operation w = (Throw (ThrownService e), w1) ->
  retryable e = true ->
  operation (delay (retryDelay cfg 0 e) w1) = (Return x, w2) ->
  executeWithRetry delay cfg operation w = (Return x, w2)
  /\ (retryAfter e = None -> retryDelay DEFAULT_RETRY_CONFIG 0 e = 1000).
Proof.
  intros Hcfg Hfirst Hretry Hsecond. split.
  - unfold executeWithRetry.
    assert (exists n, Z.to_nat (maxRetries cfg + 1) = S (S n)) as [n ->].
    { exists (Z.to_nat (maxRetries cfg - 1)). lia. }
    rewrite (retryLoop_failure _ _ _ _ _ _ _ _ _ Hfirst), Hretry. simpl negb. cbv iota.
    replace (maxRetries cfg <=? 0) with false by lia.
    by apply retryLoop_success.
  - intros Hnone. unfold retryDelay. by rewrite Hnone.
Qed.

Lemma X7_retry_recovers_witness :
  executeWithRetry Fixture.noDelay DEFAULT_RETRY_CONFIG Fixture.flaky O
    = (Return "done", 2%nat).
Proof.
  apply (proj1 (X7_retry_recovers Fixture.noDelay DEFAULT_RETRY_CONFIG Fixture.flaky
                  O 1%nat 2%nat Sample.busy "done"
                  ltac:(simpl; lia) eq_refl eq_refl eq_refl)).
Defined.

(** X8. Under a configuration whose [maxRetries] is negative the loop of
    the retry driver is never entered: the operation is not invoked at
    all, and the caller gets the error "Retry limit exceeded", which is
    not retryable. *)
Theorem X8_negative_retries {W T : Type} (delay : Z -> W -> W) (cfg : RetryConfig)
    (operation : M W T) (w : W) :
  maxRetries cfg < 0 ->
  let exceeded :=
    ThrownService (mkAIServiceError "Retry limit exceeded" UNKNOWN false None) in
  executeWithRetry delay cfg operation w = (Throw exceeded, w)
  /\ executeWithRetry (besideLog delay) cfg (recording operation) ([], w)
     = (Throw exceeded, ([], w)).
Proof.
  intros Hcfg exceeded. unfold executeWithRetry.
  replace (Z.to_nat (maxRetries cfg + 1)) with O by lia. split; reflexivity.
Qed.

Lemma X8_negative_retries_witness :
  executeWithRetry Sample.logDelay (mergeRetryConfig (Some (-1)) None None)
                   Sample.alwaysBusy []
    = (Throw (ThrownService
                (mkAIServiceError "Retry limit exceeded" UNKNOWN false None)), []).
Proof.
  apply (proj1 (X8_negative_retries Sample.logDelay (mergeRetryConfig (Some (-1)) None None)
                  Sample.alwaysBusy [] ltac:(simpl; lia))).
Defined.

(** X9. A rate limit that persists, under the default configuration and
    with the settings left alone: the call makes four requests and waits
    30 s between them, not the 60 s that the classifier suggests, which
    the ceiling of the delay cuts; then it throws the rate-limit
    error. *)
Theorem X9_rate_limit_waits (defaults : ProviderDefaults) (isMobile : bool)
    (net_requestUrl : list event -> request -> outcome RequestUrlResponse)
    (prompt systemPrompt : string) (w : world) (r : request)
    (response : RequestUrlResponse) (body : json) (message : string) :
  isMobile && String.eqb (aiProvider (settings w)) "ollama" = false ->
  buildRequest defaults (settings w) prompt systemPrompt false = Return r ->
  (forall history, net_requestUrl history r = Return response) ->
  response_status response = 429 ->
  response_json response = Return body ->
  extractMessage body = Return message ->
  quotaWording message = false ->
  generate defaults isMobile net_requestUrl (fun _ => None) DEFAULT_RETRY_CONFIG
           prompt systemPrompt w
    = (Throw (ThrownService
                (mkAIServiceError "Rate limit reached - waiting and retrying..."
                                  RATE_LIMIT true (Some 60))),
       {| settings := settings w;
          trace := (trace w ++ [ RequestUrl r; Delay 30000; RequestUrl r; Delay 30000;
                                 RequestUrl r; Delay 30000; RequestUrl r ])%list |}).
Proof.
  intros Hplatform Hbuild Hnet Hstatus Hjson Hmessage Hquota.
  assert (forall w0, settings w0 = settings w ->
            generateOnce defaults net_requestUrl (fun _ => None) prompt systemPrompt w0
            = (Throw (ThrownService
                        (mkAIServiceError "Rate limit reached - waiting and retrying..."
                                          RATE_LIMIT true (Some 60))),
               {| settings := settings w; trace := (trace w0 ++ [RequestUrl r])%list |}))
    as Hattempt.
  { intros w0 Hsame.
    rewrite (generateOnce_http_failure defaults net_requestUrl (fun _ => None) prompt
               systemPrompt w0 r response body message);
      [| by rewrite Hsame | apply Hnet | lia | done | done].
    rewrite Hstatus, classify_429, Hquota. unfold resumed. simpl. by rewrite Hsame. }
  rewrite generate_unfold, Hplatform. unfold executeWithRetry.
  change (Z.to_nat (maxRetries DEFAULT_RETRY_CONFIG + 1)) with 4%nat.
  do 4 (erewrite retryLoop_failure; [| apply Hattempt; reflexivity];
        simpl negb; cbv iota;
        match goal with
        | |- context [maxRetries DEFAULT_RETRY_CONFIG <=? ?a] =>
            let b := eval vm_compute in (maxRetries DEFAULT_RETRY_CONFIG <=? a) in
            change (maxRetries DEFAULT_RETRY_CONFIG <=? a) with b; cbv iota
        end;
        try rewrite delay_resumed).
  unfold resumed. simpl. by rewrite <- !app_assoc.
Qed.

Lemma X9_rate_limit_waits_witness :
  generate Sample.defaults false Sample.rateLimiting (fun _ => None) DEFAULT_RETRY_CONFIG
           "p" "s" (Sample.start "openai" "sk")
    = (Throw (ThrownService Sample.busy),
       {| settings := Sample.settingsFor "openai" "sk";
          trace := [ RequestUrl Fixture.request; Delay 30000;
                     RequestUrl Fixture.request; Delay 30000;
                     RequestUrl Fixture.request; Delay 30000;
                     RequestUrl Fixture.request ] |}).
Proof.
  apply (X9_rate_limit_waits Sample.defaults false Sample.rateLimiting "p" "s"
           (Sample.start "openai" "sk") Fixture.request
           {| response_status := 429; response_json := Return Sample.rateLimitedBody |}
           Sample.rateLimitedBody
           "Rate limit reached for requests. Please try again in 20s.").
  - reflexivity.
  - reflexivity.
  - intros history. reflexivity.
  - reflexivity.
  - reflexivity.
  - reflexivity.
  - reflexivity.
Defined.

(** ** Requests and responses *)

Lemma buildRequest_unknown (defaults : ProviderDefaults) (settings : EvergreenAISettings)
    (prompt systemPrompt : string) (stream : bool) :
  unknownProvider (aiProvider settings) = true ->
  buildRequest defaults settings prompt systemPrompt stream =
    Throw (ThrownService
             (mkAIServiceError ("Unknown provider: " +:+ aiProvider settings)
                               UNKNOWN false None)).
Proof.
  unfold unknownProvider, buildRequest. intros H.
  destruct (String.eqb (aiProvider settings) "openai"); [discriminate |].
  destruct (String.eqb (aiProvider settings) "anthropic"); [discriminate |].
  destruct (String.eqb (aiProvider settings) "ollama"); [discriminate |].
  destruct (String.eqb (aiProvider settings) "custom"); [discriminate |].
  reflexivity.
Qed.

Lemma unknownProvider_not_ollama (provider : string) :
  unknownProvider provider = true -> String.eqb provider "ollama" = false.
Proof.
  unfold unknownProvider. destruct (String.eqb provider "ollama"); [| done].
  by rewrite !orb_true_r.
Qed.

(** X10. With a provider identifier that is none of the four, both entry
    points, on every platform, fail with the error "Unknown provider:
    ..." of kind unknown, not retryable, before anything is sent: the
    history is unchanged and nothing is retried. *)
Theorem X10_unknown_provider (defaults : ProviderDefaults)
    (JSON_parse : string -> outcome json) (isMobile : bool)
    (net_requestUrl : list event -> request -> outcome RequestUrlResponse)
    (net_fetch : list event -> request -> outcome FetchResponse)
    (meanwhile : list event -> option EvergreenAISettings)
    (callbacks : list event -> option thrown) (retryConfig : RetryConfig)
    (prompt systemPrompt : string) (w : world) :
  unknownProvider (aiProvider (settings w)) = true ->
  0 <= maxRetries retryConfig ->
  let error :=
    mkAIServiceError ("Unknown provider: " +:+ aiProvider (settings w))
                     UNKNOWN false None in
  generate defaults isMobile net_requestUrl meanwhile retryConfig prompt systemPrompt w
    = (Throw (ThrownService error), w)
  /\ generateStream defaults JSON_parse isMobile net_requestUrl net_fetch meanwhile
                    callbacks retryConfig prompt systemPrompt w
     = (Throw (ThrownService error), w).
Proof.
  intros Hunknown Hcfg error.
  assert (generate defaults isMobile net_requestUrl meanwhile retryConfig
                   prompt systemPrompt w = (Throw (ThrownService error), w)) as Hgen.
  { rewrite generate_unfold, (unknownProvider_not_ollama _ Hunknown), andb_false_r.
    destruct (executeWithRetry_enters retryConfig Hcfg) as (remaining & Hfuel & _).
    unfold executeWithRetry. rewrite Hfuel.
    by rewrite (retryLoop_failure _ _ _ _ _ _ _ _ _
                  (generateOnce_unbuilt defaults net_requestUrl meanwhile prompt
                     systemPrompt w _ (buildRequest_unknown defaults _ _ _ _ Hunknown))). }
  split; [exact Hgen |].
  unfold generateStream. unfold bindM at 1. unfold getSettings at 1. cbv beta iota.
  destruct isMobile.
  - rewrite (unknownProvider_not_ollama _ Hunknown). unfold bindM. by rewrite Hgen.
  - unfold bindM, lift. by rewrite (buildRequest_unknown defaults _ _ _ _ Hunknown).
Qed.

Lemma X10_unknown_provider_witness :
  generate Sample.defaults true Sample.answering Sample.undisturbed DEFAULT_RETRY_CONFIG
           "p" "s" (Sample.start "gemini" "k")
    = (Throw (ThrownService
                (mkAIServiceError "Unknown provider: gemini" UNKNOWN false None)),
       Sample.start "gemini" "k").
Proof.
  apply (proj1 (X10_unknown_provider Sample.defaults Sample.JSON_parse true
                  Sample.answering Sample.streaming Sample.undisturbed Sample.returning
                  DEFAULT_RETRY_CONFIG "p" "s" (Sample.start "gemini" "k")
                  eq_refl ltac:(simpl; lia))).
Defined.

(** X11. Where a request goes. For OpenAI and Anthropic the endpoint is
    the default of the provider, whatever endpoint the settings hold;
    for the local server it is the endpoint of the settings, or the
    default when that is empty; for a custom endpoint it is the endpoint
    of the settings as it is, empty or not: an empty one is not refused.
    Every request carries [Content-Type: application/json]. *)
Theorem X11_endpoints (defaults : ProviderDefaults) (key ep m mt t : string)
    (prompt systemPrompt : string) (stream : bool) :
  let built provider :=
    buildRequest defaults (mkSettings provider key ep m mt t) prompt systemPrompt stream in
  (exists r, built "openai" = Return r /\ endpoint r = openai_endpoint defaults
             /\ headers r !! "Content-Type" = Some "application/json")
  /\ (exists r, built "anthropic" = Return r /\ endpoint r = anthropic_endpoint defaults
                /\ headers r !! "Content-Type" = Some "application/json")
  /\ (exists r, built "ollama" = Return r
                /\ endpoint r = (if String.eqb ep "" then ollama_endpoint defaults else ep)
                /\ headers r !! "Content-Type" = Some "application/json")
  /\ (exists r, built "custom" = Return r /\ endpoint r = ep
                /\ headers r !! "Content-Type" = Some "application/json").
Proof.
  intros built. subst built. cbv beta. repeat apply conj.
  - eexists. split; [apply buildRequest_openai |]. split; [reflexivity |].
    apply lookup_insert_eq.
  - eexists. split; [apply buildRequest_anthropic |]. split; [reflexivity |].
    apply lookup_insert_eq.
  - eexists. split; [apply buildRequest_ollama |]. split; [by destruct ep |].
    apply lookup_insert_eq.
  - eexists. split; [apply buildRequest_custom |]. split; [reflexivity |].
    apply lookup_insert_eq.
Qed.

Lemma get_own (j : json) (k : string) :
  j <> JNull -> Js.get (Some j) k = Return (Js.own j k).
Proof. by destruct j. Qed.

Lemma or_else_text (s : string) : or_else (Some (JStr s)) (JStr "") = JStr s.
Proof. by destruct s. Qed.

(** [parseResponse] returns on every value but [null], and gives the
    empty text when the property it reads first is missing. *)
Lemma parseResponse_returns (settings : EvergreenAISettings) (j : json) :
  j <> JNull ->
  exists result,
    parseResponse settings j = Return result
    /\ (Js.own j (responseKey (aiProvider settings)) = None ->
        response_content result = JStr "").
Proof.
  intros Hj. unfold parseResponse, responseKey.
  destruct (String.eqb (aiProvider settings) "anthropic");
    [| destruct (String.eqb (aiProvider settings) "ollama")];
    rewrite (get_own _ _ Hj); unfold bind;
    (eexists; split; [reflexivity |]); by intros ->.
Qed.

(** X12. A well-formed completion is decoded to its text, by the path of
    the provider: [content[0].text] for Anthropic, [message.content]
    for the local server, [choices[0].message.content] for every other
    provider. The token counts come from [usage.input_tokens] and
    [usage.output_tokens] for Anthropic, from [usage.prompt_tokens] and
    [usage.completion_tokens] for the others, and are never reported for
    the local server. *)
Theorem X12_response_decoding (settings : EvergreenAISettings)
    (fields : list (string * json)) (s : string) :
  (aiProvider settings = "anthropic" ->
   forall block more,
     Js.lookup_field "content" fields = Some (JArr (JObj block :: more)) ->
     Js.lookup_field "text" block = Some (JStr s) ->
     exists result,
       parseResponse settings (JObj fields) = Return result
       /\ response_content result = JStr s
       /\ response_model result = Js.lookup_field "model" fields
       /\ (forall usage, Js.lookup_field "usage" fields = Some (JObj usage) ->
           response_usage result =
             Some (Js.lookup_field "input_tokens" usage,
                   Js.lookup_field "output_tokens" usage)))
  /\ (aiProvider settings = "ollama" ->
      forall reply,
        Js.lookup_field "message" fields = Some (JObj reply) ->
        Js.lookup_field "content" reply = Some (JStr s) ->
        exists result,
          parseResponse settings (JObj fields) = Return result
          /\ response_content result = JStr s
          /\ response_model result = Js.lookup_field "model" fields
          /\ response_usage result = None)
  /\ (aiProvider settings <> "anthropic" -> aiProvider settings <> "ollama" ->
      forall choice more reply,
        Js.lookup_field "choices" fields = Some (JArr (JObj choice :: more)) ->
        Js.lookup_field "message" choice = Some (JObj reply) ->
        Js.lookup_field "content" reply = Some (JStr s) ->
        exists result,
          parseResponse settings (JObj fields) = Return result
          /\ response_content result = JStr s
          /\ response_model result = Js.lookup_field "model" fields
          /\ (forall usage, Js.lookup_field "usage" fields = Some (JObj usage) ->
              response_usage result =
                Some (Js.lookup_field "prompt_tokens" usage,
                      Js.lookup_field "completion_tokens" usage))).
Proof.
  repeat apply conj.
  - intros Hprovider block more Hcontent Htext. unfold parseResponse.
    rewrite Hprovider. cbn [String.eqb Ascii.eqb Bool.eqb andb].
    cbn [Js.get bind Js.own]. rewrite Hcontent.
    eexists. split; [reflexivity |]. cbn. rewrite Htext.
    split; [apply or_else_text |]. split; [reflexivity |].
    by intros usage ->.
  - intros Hprovider reply Hmessage Htext. unfold parseResponse.
    rewrite Hprovider. cbn [String.eqb Ascii.eqb Bool.eqb andb].
    cbn [Js.get bind Js.own]. rewrite Hmessage.
    eexists. split; [reflexivity |]. cbn. rewrite Htext.
    split; [apply or_else_text |]. by split.
  - intros Hanthropic Hollama choice more reply Hchoices Hmessage Htext.
    unfold parseResponse.
    destruct (String.eqb_spec (aiProvider settings) "anthropic"); [done |].
    destruct (String.eqb_spec (aiProvider settings) "ollama"); [done |].
    cbn [Js.get bind Js.own]. rewrite Hchoices.
    eexists. split; [reflexivity |]. cbn. rewrite Hmessage. cbn. rewrite Htext.
    split; [apply or_else_text |]. split; [reflexivity |].
    by intros usage ->.
Qed.

Lemma X12_response_decoding_witness :
  exists result,
    parseResponse (Sample.settingsFor "custom" "") Sample.openaiCompletion = Return result
    /\ response_content result = JStr "Hello"
    /\ response_model result = Some (JStr "some-model")
    /\ (forall usage,
          Js.lookup_field "usage"
            [("choices", JArr [JObj [("message", JObj [("content", JStr "Hello")])]]);
             ("model", JStr "some-model")] = Some (JObj usage) ->
          response_usage result =
            Some (Js.lookup_field "prompt_tokens" usage,
                  Js.lookup_field "completion_tokens" usage)).
Proof.
  apply (proj2 (proj2 (X12_response_decoding (Sample.settingsFor "custom" "")
           [("choices", JArr [JObj [("message", JObj [("content", JStr "Hello")])]]);
            ("model", JStr "some-model")] "Hello"))
           ltac:(discriminate) ltac:(discriminate)
           [("message", JObj [("content", JStr "Hello")])] []
           [("content", JStr "Hello")] eq_refl eq_refl eq_refl).
Defined.

(** X13. A response with a status below 400 whose body is any JSON value
    but [null] makes the call succeed at the first attempt, with one
    request: fields that are missing do not fail it. When the body lacks
    the property that the provider in place keeps its text under, the
    text of the result is empty. *)
Theorem X13_lenient_success (defaults : ProviderDefaults) (isMobile : bool)
    (net_requestUrl : list event -> request -> outcome RequestUrlResponse)
    (meanwhile : list event -> option EvergreenAISettings) (retryConfig : RetryConfig)
    (prompt systemPrompt : string) (w : world) (r : request)
    (response : RequestUrlResponse) (j : json) :
  let after := resumed meanwhile w (RequestUrl r) in
  0 <= maxRetries retryConfig ->
  isMobile && String.eqb (aiProvider (settings w)) "ollama" = false ->
  buildRequest defaults (settings w) prompt systemPrompt false = Return r ->
  net_requestUrl (trace w ++ [RequestUrl r])%list r = Return response ->
  response_status response < 400 ->
  response_json response = Return j ->
  j <> JNull ->
  exists result,
    generate defaults isMobile net_requestUrl meanwhile retryConfig prompt systemPrompt w
      = (Return result, after)
    /\ (Js.own j (responseKey (aiProvider (settings after))) = None ->
        response_content result = JStr "").
Proof.
  intros after Hcfg Hplatform Hbuild Hnet Hstatus Hjson Hj.
  destruct (parseResponse_returns (settings after) j Hj) as (result & Hparse & Hempty).
  exists result. split; [| exact Hempty].
  rewrite generate_unfold, Hplatform.
  destruct (executeWithRetry_enters retryConfig Hcfg) as (remaining & Hfuel & _).
  unfold executeWithRetry. rewrite Hfuel.
  apply retryLoop_success.
  by apply (generateOnce_success defaults net_requestUrl meanwhile prompt systemPrompt
              w r response j result).
Qed.

Lemma X13_lenient_success_witness :
  exists result,
    generate Sample.defaults false (Fixture.answeringWith 200 Sample.unrelatedValue)
             Sample.undisturbed DEFAULT_RETRY_CONFIG "p" "s" (Sample.start "openai" "sk")
      = (Return result,
         {| settings := Sample.settingsFor "openai" "sk";
            trace := [RequestUrl Fixture.request] |})
    /\ (Js.own Sample.unrelatedValue (responseKey "openai") = None ->
        response_content result = JStr "").
Proof.
  apply (X13_lenient_success Sample.defaults false
           (Fixture.answeringWith 200 Sample.unrelatedValue) Sample.undisturbed
           DEFAULT_RETRY_CONFIG "p" "s" (Sample.start "openai" "sk") Fixture.request
           {| response_status := 200; response_json := Return Sample.unrelatedValue |}
           Sample.unrelatedValue).
  - simpl. lia.
  - reflexivity.
  - reflexivity.
  - reflexivity.
  - simpl. lia.
  - reflexivity.
  - discriminate.
Defined.

(** ** Lines of a stream *)

Lemma of_Z_pos_nonzero (p : positive) : JsString.of_Z (Z.pos p) <> "0".
Proof.
  unfold JsString.of_Z. simpl. unfold NilZero.string_of_uint.
  pose proof (DecimalPos.Unsigned.to_uint_nonzero p) as Hzero.
  pose proof (DecimalPos.Unsigned.to_uint_nonnil p) as Hnil.
  destruct (Pos.to_uint p) as [| u | u | u | u | u | u | u | u | u | u];
    try done; simpl; try discriminate.
  destruct u; try discriminate. by destruct Hzero.
Qed.

Lemma nonempty_array_length (x : json) (more : list json) :
  Js.is_zero (Js.length (JArr (x :: more))) = false.
Proof.
  unfold Js.length, Js.is_zero. cbn [List.length].
  rewrite Nat2Z.inj_succ, <- Z.add_1_r.
  destruct (Z.of_nat (List.length more) + 1) as [| p | p] eqn:Hn; try lia.
  apply String.eqb_neq, of_Z_pos_nonzero.
Qed.

(** X14. A well-formed line of a stream is decoded by the shape of the
    provider, once [JSON.parse] has read its payload. For an
    OpenAI-compatible provider the first choice gives the fragment
    [delta.content], unless its [finish_reason] is [stop]: then the line
    is terminal and whatever text it carries is dropped. For Anthropic a
    [content_block_delta] gives [delta.text] and a [message_stop] is
    terminal. For the local server the line gives [message.content]
    together with its [done] flag. *)
Theorem X14_chunk_decoding (JSON_parse : string -> outcome json)
    (settings : EvergreenAISettings) (line text : string)
    (fields : list (string * json)) (s : string) :
  JsString.trim line <> DONE_line ->
  payload (JsString.trim line) = Some text ->
  JSON_parse text = Return (JObj fields) ->
  let parsed := parseStreamChunk JSON_parse settings line in
  (aiProvider settings <> "anthropic" -> aiProvider settings <> "ollama" ->
   forall choice more,
     Js.lookup_field "choices" fields = Some (JArr (JObj choice :: more)) ->
     (Js.lookup_field "finish_reason" choice = Some (JStr "stop") ->
      parsed = Return (Some {| content := JStr ""; done := JBool true |}))
     /\ (Js.is_string (Js.lookup_field "finish_reason" choice) "stop" = false ->
         forall delta,
           Js.lookup_field "delta" choice = Some (JObj delta) ->
           Js.lookup_field "content" delta = Some (JStr s) ->
           parsed = Return (Some {| content := JStr s; done := JBool false |})))
  /\ (aiProvider settings = "anthropic" ->
      (Js.lookup_field "type" fields = Some (JStr "message_stop") ->
       parsed = Return (Some {| content := JStr ""; done := JBool true |}))
      /\ (Js.lookup_field "type" fields = Some (JStr "content_block_delta") ->
          forall delta,
            Js.lookup_field "delta" fields = Some (JObj delta) ->
            Js.lookup_field "text" delta = Some (JStr s) ->
            parsed = Return (Some {| content := JStr s; done := JBool false |})))
  /\ (aiProvider settings = "ollama" ->
      forall reply finished,
        Js.lookup_field "message" fields = Some (JObj reply) ->
        Js.lookup_field "content" reply = Some (JStr s) ->
        Js.lookup_field "done" fields = Some (JBool finished) ->
        parsed = Return (Some {| content := JStr s; done := JBool finished |})).
Proof.
  intros Hdone Hpayload Hparse parsed. subst parsed.
  rewrite (parseStreamChunk_payload _ _ _ _ Hdone Hpayload), Hparse.
  cbn [bind]. unfold interpretChunk. repeat apply conj.
  - intros Hanthropic Hollama choice more Hchoices.
    destruct (String.eqb_spec (aiProvider settings) "anthropic"); [done |].
    destruct (String.eqb_spec (aiProvider settings) "ollama"); [done |].
    cbn [Js.get Js.own bind]. rewrite Hchoices. cbn [Js.truthy negb orb].
    rewrite nonempty_array_length. cbn [Js.first Js.get Js.own bind]. split.
    + by intros ->.
    + intros Hfinish delta Hdelta Hcontent. rewrite Hfinish.
      cbn [Js.get_opt Js.own]. rewrite Hdelta. cbn [Js.get_opt Js.own].
      rewrite Hcontent. by rewrite or_else_text.
  - intros Hanthropic. rewrite Hanthropic. cbn [String.eqb Ascii.eqb Bool.eqb andb].
    cbn [Js.get Js.own bind]. split.
    + by intros ->.
    + intros -> delta Hdelta Htext. cbn. rewrite Hdelta. cbn. rewrite Htext.
      by rewrite or_else_text.
  - intros Hollama reply finished Hmessage Hcontent Hfinished. rewrite Hollama.
    cbn [String.eqb Ascii.eqb Bool.eqb andb]. cbn [Js.get Js.own bind].
    rewrite Hmessage, Hfinished. cbn [Js.get_opt Js.own]. rewrite Hcontent.
    rewrite or_else_text. by destruct finished.
Qed.

Lemma X14_chunk_decoding_witness :
  parseStreamChunk Sample.JSON_parse (Sample.settingsFor "openai" "sk")
                   ("data: " +:+ Sample.deltaText "Hello")
    = Return (Some {| content := JStr "Hello"; done := JBool false |}).
Proof.
  apply (proj2 (proj1 (X14_chunk_decoding Sample.JSON_parse
           (Sample.settingsFor "openai" "sk") ("data: " +:+ Sample.deltaText "Hello")
           (Sample.deltaText "Hello")
           [("choices", JArr [JObj [("delta", JObj [("content", JStr "Hello")])]])]
           "Hello" ltac:(discriminate) eq_refl eq_refl)
           ltac:(discriminate) ltac:(discriminate)
           [("delta", JObj [("content", JStr "Hello")])] [] eq_refl)
           eq_refl [("content", JStr "Hello")] eq_refl eq_refl).
Defined.

Lemma trimEnd_space_after (s : string) (c : ascii) :
  JsString.is_space c = true ->
  JsString.trimEnd (s +:+ String c EmptyString) = JsString.trimEnd s.
Proof.
  intros Hc. induction s as [| a s IH]; simpl.
  - by rewrite Hc.
  - by rewrite IH.
Qed.

Lemma trim_space_after (s : string) (c : ascii) :
  JsString.is_space c = true ->
  JsString.trim (s +:+ String c EmptyString) = JsString.trim s.
Proof.
  intros Hc. unfold JsString.trim. induction s as [| a s IH].
  - simpl. by rewrite Hc.
  - simpl. destruct (JsString.is_space a); [exact IH |].
    apply (trimEnd_space_after (String a s) c Hc).
Qed.

(** X15. White space around a line does not change what the chunk parser
    makes of it: a line followed, or preceded, by a space, a tab or the
    carriage return that a stream with CR LF line ends leaves at the end
    of each line, is parsed as the line itself. *)
Theorem X15_white_space_ignored (JSON_parse : string -> outcome json)
    (settings : EvergreenAISettings) (line : string) (c : ascii) :
  JsString.is_space c = true ->
  parseStreamChunk JSON_parse settings (line +:+ String c EmptyString)
    = parseStreamChunk JSON_parse settings line
  /\ parseStreamChunk JSON_parse settings (String c line)
     = parseStreamChunk JSON_parse settings line.
Proof.
  intros Hc. unfold parseStreamChunk. rewrite (trim_space_after line c Hc).
  split; [reflexivity |].
  assert (JsString.trim (String c line) = JsString.trim line) as ->; [| reflexivity].
  unfold JsString.trim. simpl. by rewrite Hc.
Qed.

Lemma X15_white_space_ignored_witness :
  parseStreamChunk Sample.JSON_parse (Sample.settingsFor "openai" "sk")
                   ("data: [DONE]" +:+ String (ascii_of_N 13) EmptyString)
    = parseStreamChunk Sample.JSON_parse (Sample.settingsFor "openai" "sk") "data: [DONE]".
Proof.
  apply (proj1 (X15_white_space_ignored Sample.JSON_parse (Sample.settingsFor "openai" "sk")
                  "data: [DONE]" (ascii_of_N 13) eq_refl)).
Defined.

(** ** The reads of a stream *)

Lemma append_assoc (a b c : string) : (a +:+ b) +:+ c = a +:+ (b +:+ c).
Proof.
  induction a as [| x a IH]; [reflexivity |].
  change (String x ((a +:+ b) +:+ c) = String x (a +:+ (b +:+ c))). by f_equal.
Qed.

Lemma split_lines_nonempty (s : string) : JsString.split_lines s <> [].
Proof.
  induction s as [| c s IH]; simpl; [done |].
  destruct (Ascii.eqb c JsString.newline); [done |].
  by destruct (JsString.split_lines s).
Qed.

(** Splitting a text that arrives in two pieces: the lines of the whole
    are the complete lines of the first piece, then the lines of what
    the first piece left over followed by the second piece. *)
Lemma split_lines_app (a b : string) :
  JsString.split_lines (a +:+ b) =
    (List.removelast (JsString.split_lines a)
     ++ JsString.split_lines (List.last (JsString.split_lines a) "" +:+ b))%list.
Proof.
  induction a as [| c a IH]; [reflexivity |].
  change (String c a +:+ b) with (String c (a +:+ b)).
  cbn [JsString.split_lines].
  pose proof (split_lines_nonempty a) as Hne.
  destruct (Ascii.eqb c JsString.newline) eqn:Hc.
  - rewrite IH. destruct (JsString.split_lines a) as [| l ls]; [done |]. reflexivity.
  - rewrite IH. destruct (JsString.split_lines a) as [| l ls]; [done |].
    destruct ls as [| l' ls]; [| reflexivity].
    cbn [List.removelast List.last app].
    change (String c l +:+ b) with (String c (l +:+ b)).
    cbn [JsString.split_lines]. by rewrite Hc.
Qed.

Lemma split_lines_pieces (a b : string) :
  let carried := List.last (JsString.split_lines a) "" in
  List.removelast (JsString.split_lines (a +:+ b)) =
    (List.removelast (JsString.split_lines a)
     ++ List.removelast (JsString.split_lines (carried +:+ b)))%list
  /\ List.last (JsString.split_lines (a +:+ b)) "" =
     List.last (JsString.split_lines (carried +:+ b)) "".
Proof.
  intros carried. rewrite split_lines_app. fold carried.
  pose proof (split_lines_nonempty (carried +:+ b)) as Hne. split.
  - by apply List.removelast_app.
  - destruct (List.exists_last Hne) as (front & final & ->).
    by rewrite app_assoc, !List.last_last.
Qed.

Section Boundaries.

Variable JSON_parse : string -> outcome json.

Lemma processLines_app (callbacks : list event -> option thrown)
    (first second : list string) (w : world) :
  processLines JSON_parse callbacks (first ++ second) w =
    match processLines JSON_parse callbacks first w with
    | (Return false, w1) => processLines JSON_parse callbacks second w1
    | stopped => stopped
    end.
Proof.
  revert w. induction first as [| line first IH]; intros w; [reflexivity |].
  simpl app. rewrite !processLines_cons.
  destruct (parseStreamChunk JSON_parse (settings w) line) as [[c |] | t];
    [| apply IH | reflexivity].
  destruct (Js.truthy (Some (done c))).
  { unfold bindM. destruct (invoke callbacks OnComplete w) as [[[] | t] w1]; reflexivity. }
  destruct (Js.truthy (Some (content c))); [| apply IH].
  unfold bindM.
  destruct (invoke callbacks (OnChunk (content c)) w) as [[[] | t] w1];
    [apply IH | reflexivity].
Qed.

Lemma sameCallbacks_refl (w : world) : sameCallbacks w w.
Proof. by split. Qed.

Lemma sameCallbacks_invoked (e : event) (w w' : world) :
  sameCallbacks w w' ->
  sameCallbacks {| settings := settings w; trace := (trace w ++ [e])%list |}
                {| settings := settings w'; trace := (trace w' ++ [e])%list |}.
Proof.
  intros [Hs Ht]. split; [exact Hs |]. simpl. by rewrite !List.filter_app, Ht.
Qed.

Lemma sameCallbacks_read (w w' : world) :
  sameCallbacks w w' ->
  sameCallbacks (resumed leftAlone w Read) w'
  /\ sameCallbacks (resumed leftAlone w Read) (resumed leftAlone w' Read).
Proof.
  intros [Hs Ht]. unfold resumed, leftAlone, sameCallbacks. simpl.
  rewrite !List.filter_app, Ht. simpl. by rewrite !app_nil_r.
Qed.

Lemma invoke_returns (e : event) (w : world) :
  invoke returns e w =
    (Return tt, {| settings := settings w; trace := (trace w ++ [e])%list |}).
Proof. by rewrite invoke_run. Qed.

(** With callbacks that return, the loop over the lines of a read does
    the same in two states with the same settings. *)
Lemma processLines_same (lines : list string) :
  forall w w' : world,
    sameCallbacks w w' ->
    exists (returned : bool) (w1 w1' : world),
      processLines JSON_parse returns lines w = (Return returned, w1)
      /\ processLines JSON_parse returns lines w' = (Return returned, w1')
      /\ sameCallbacks w1 w1'.
Proof.
  induction lines as [| line rest IH]; intros w w' Hsame.
  - by exists false, w, w'.
  - rewrite !processLines_cons. destruct Hsame as [Hs Ht]. rewrite <- Hs.
    destruct (parseStreamChunk_returns JSON_parse (settings w) line) as [[c |] ->];
      [| by apply IH].
    destruct (Js.truthy (Some (done c))).
    { unfold bindM. rewrite !invoke_returns. eexists true, _, _.
      split; [reflexivity |]. split; [reflexivity |].
      by apply sameCallbacks_invoked. }
    destruct (Js.truthy (Some (content c))); [| by apply IH].
    unfold bindM. rewrite !invoke_returns.
    by apply IH, sameCallbacks_invoked.
Qed.

Lemma readLoop_same (reads : list read_result) :
  forall (buffer : string) (w w' : world),
    sameCallbacks w w' ->
    fst (readLoop JSON_parse leftAlone returns reads buffer w)
      = fst (readLoop JSON_parse leftAlone returns reads buffer w')
    /\ sameCallbacks (snd (readLoop JSON_parse leftAlone returns reads buffer w))
                     (snd (readLoop JSON_parse leftAlone returns reads buffer w')).
Proof.
  induction reads as [| [text | error] reads IH]; intros buffer w w' Hsame.
  - cbn [readLoop]. rewrite !emit_suspend_bind.
    destruct Hsame as [Hs Ht].
    assert (settings (resumed leftAlone w' Read) = settings w) as Hs' by (symmetry; exact Hs).
    destruct (JsString.nonempty buffer); unfold bindM, getSettings, lift, ret;
      [rewrite Hs';
       change (settings (resumed leftAlone w Read)) with (settings w);
       destruct (parseStreamChunk_returns JSON_parse (settings w) buffer) as [[c |] ->];
       [destruct (Js.truthy (Some (content c))) | ] |];
      rewrite !invoke_returns; unfold sameCallbacks; simpl;
      rewrite !List.filter_app, Ht; by repeat split.
  - rewrite !readLoop_value. cbv zeta.
    destruct (sameCallbacks_read w w' Hsame) as [_ Hread].
    destruct (processLines_same
                (List.removelast (JsString.split_lines (buffer +:+ text))) _ _ Hread)
      as (returned & w1 & w1' & -> & -> & Hsame1).
    destruct returned; [by split |]. by apply IH.
  - rewrite !readLoop_rejected. split; [reflexivity |].
    by destruct (sameCallbacks_read w w' Hsame).
Qed.

End Boundaries.

(** X16. Where the reads of a stream cut its text does not matter. With
    the settings left alone and callbacks that return, two consecutive
    reads and the single read of their concatenated text leave the
    streaming loop with the same outcome, after the same callbacks in
    the same order; so a line cut between two reads is delivered as if
    it had arrived whole. *)
Theorem X16_read_boundaries (JSON_parse : string -> outcome json)
    (a b : string) (rest : list read_result) (buffer : string) (w : world) :
  let cut :=
    readLoop JSON_parse leftAlone returns (ReadValue a :: ReadValue b :: rest) buffer w in
  let whole :=
    readLoop JSON_parse leftAlone returns (ReadValue (a +:+ b) :: rest) buffer w in
  fst cut = fst whole
  /\ List.filter isCallback (trace (snd cut)) = List.filter isCallback (trace (snd whole))
  /\ settings (snd cut) = settings (snd whole).
Proof.
  intros cut whole.
  assert (fst cut = fst whole /\ sameCallbacks (snd cut) (snd whole))
    as (Hout & Hs & Ht); [| by repeat split].
  subst cut whole. rewrite !readLoop_value. cbv zeta.
  rewrite <- append_assoc.
  destruct (split_lines_pieces (buffer +:+ a) b) as [-> ->].
  rewrite processLines_app.
  set (w0 := resumed leftAlone w Read).
  destruct (processLines_same JSON_parse
              (List.removelast (JsString.split_lines (buffer +:+ a))) w0 w0
              (sameCallbacks_refl w0))
    as (returned & w1 & w1' & Hrun & _ & _).
  rewrite Hrun. destruct returned; [split; [reflexivity | apply sameCallbacks_refl] |].
  rewrite readLoop_value. cbv zeta.
  destruct (sameCallbacks_read w1 w1 (sameCallbacks_refl w1)) as [Hread _].
  destruct (processLines_same JSON_parse
              (List.removelast
                 (JsString.split_lines
                    (List.last (JsString.split_lines (buffer +:+ a)) "" +:+ b)))
              _ _ Hread)
    as (returned & w2 & w2' & -> & -> & Hsame2).
  destruct returned; [by split |].
  by apply readLoop_same.
Qed.

(** ** Transport failures *)

Lemma generateOnce_rejected (defaults : ProviderDefaults)
    (net_requestUrl : list event -> request -> outcome RequestUrlResponse)
    (meanwhile : list event -> option EvergreenAISettings)
    (prompt systemPrompt : string) (w : world) (r : request) (t : thrown) :
  buildRequest defaults (settings w) prompt systemPrompt false = Return r ->
  net_requestUrl (trace (resumed meanwhile w (RequestUrl r))) r = Throw t ->
  generateOnce defaults net_requestUrl meanwhile prompt systemPrompt w =
    (Throw (ThrownService
              (if isNetworkError t then networkError
               else match t with
                    | ThrownService e => e
                    | _ => mkAIServiceError (messageOr t "Unknown error occurred")
                                            UNKNOWN false None
                    end)),
     resumed meanwhile w (RequestUrl r)).
Proof.
  intros Hbuild Hnet.
  unfold generateOnce, bindM, catchM, getSettings, lift. rewrite Hbuild.
  rewrite await_requestUrl_run, Hnet.
  destruct (isNetworkError t); [reflexivity |]. by destruct t.
Qed.

(** X17. A transport failure of a non-streaming call. When every request
    is rejected with an error that has the wording of a network failure,
    the call, under the default configuration and with the settings left
    alone, makes four requests, waiting 1000, 2000 and 4000 ms between
    them, and throws the network error. When the request is rejected
    with any other error that is no [AIServiceError], the call makes one
    request and throws an error of kind unknown, not retryable, that
    carries the message of the rejection. *)
Theorem X17_transport_failures (defaults : ProviderDefaults) (isMobile : bool)
    (net_requestUrl : list event -> request -> outcome RequestUrlResponse)
    (prompt systemPrompt : string) (w : world) (r : request) (name text : string) :
  isMobile && String.eqb (aiProvider (settings w)) "ollama" = false ->
  buildRequest defaults (settings w) prompt systemPrompt false = Return r ->
  (forall history, net_requestUrl history r = Throw (ThrownError name text)) ->
  let run := generate defaults isMobile net_requestUrl leftAlone DEFAULT_RETRY_CONFIG
                      prompt systemPrompt w in
  (isNetworkError (ThrownError name text) = true ->
   run = (Throw (ThrownService networkError),
          {| settings := settings w;
             trace := (trace w ++ [ RequestUrl r; Delay 1000; RequestUrl r; Delay 2000;
                                    RequestUrl r; Delay 4000; RequestUrl r ])%list |}))
  /\ (isNetworkError (ThrownError name text) = false ->
      run = (Throw (ThrownService (mkAIServiceError text UNKNOWN false None)),
             {| settings := settings w; trace := (trace w ++ [RequestUrl r])%list |})).
Proof.
  intros Hplatform Hbuild Hnet run. subst run.
  assert (forall w0, settings w0 = settings w ->
            generateOnce defaults net_requestUrl leftAlone prompt systemPrompt w0
            = (Throw (ThrownService
                        (if isNetworkError (ThrownError name text) then networkError
                         else mkAIServiceError text UNKNOWN false None)),
               {| settings := settings w; trace := (trace w0 ++ [RequestUrl r])%list |}))
    as Hattempt.
  { intros w0 Hsame.
    rewrite (generateOnce_rejected defaults net_requestUrl leftAlone prompt systemPrompt
               w0 r (ThrownError name text)); [| by rewrite Hsame | apply Hnet].
    unfold resumed, leftAlone. simpl. by rewrite Hsame. }
  rewrite generate_unfold, Hplatform. unfold executeWithRetry.
  change (Z.to_nat (maxRetries DEFAULT_RETRY_CONFIG + 1)) with 4%nat.
  split; intros Hkind; rewrite Hkind in Hattempt.
  - do 4 (erewrite retryLoop_failure; [| apply Hattempt; reflexivity];
          simpl negb; cbv iota;
          match goal with
          | |- context [maxRetries DEFAULT_RETRY_CONFIG <=? ?a] =>
              let b := eval vm_compute in (maxRetries DEFAULT_RETRY_CONFIG <=? a) in
              change (maxRetries DEFAULT_RETRY_CONFIG <=? a) with b; cbv iota
          end;
          try rewrite delay_resumed).
    unfold resumed, leftAlone. simpl. by rewrite <- !app_assoc.
  - erewrite retryLoop_failure; [| apply Hattempt; reflexivity]. reflexivity.
Qed.

Lemma X17_transport_failures_witness :
  generate Sample.defaults false
           (fun _ _ => Throw (ThrownError "Error" "net::ERR_NETWORK_CHANGED"))
           leftAlone DEFAULT_RETRY_CONFIG "p" "s" (Sample.start "openai" "sk")
    = (Throw (ThrownService networkError),
       {| settings := Sample.settingsFor "openai" "sk";
          trace := [ RequestUrl Fixture.request; Delay 1000;
                     RequestUrl Fixture.request; Delay 2000;
                     RequestUrl Fixture.request; Delay 4000;
                     RequestUrl Fixture.request ] |}).
Proof.
  apply (proj1 (X17_transport_failures Sample.defaults false
           (fun _ _ => Throw (ThrownError "Error" "net::ERR_NETWORK_CHANGED"))
           "p" "s" (Sample.start "openai" "sk") Fixture.request
           "Error" "net::ERR_NETWORK_CHANGED" eq_refl eq_refl (fun _ => eq_refl))).
  reflexivity.
Defined.

(** ** Streaming calls *)

Lemma emitsOnly_unchanged {A : Type} (P : event -> bool) (m : M world A) :
  (forall w, snd (m w) = w) -> emitsOnly P m.
Proof.
  intros Hpure w r w' Hrun. exists [].
  specialize (Hpure w). rewrite Hrun in Hpure. simpl in Hpure. subst w'.
  by rewrite app_nil_r.
Qed.

Lemma emitsOnly_bind {A B : Type} (P : event -> bool) (m : M world A)
    (k : A -> M world B) :
  emitsOnly P m -> (forall a, emitsOnly P (k a)) -> emitsOnly P (bindM m k).
Proof.
  intros Hm Hk w r w' Hrun. unfold bindM in Hrun.
  destruct (m w) as [[a | t] w1] eqn:Hmw.
  - destruct (Hm _ _ _ Hmw) as (new1 & Ht1 & Hf1).
    destruct (Hk a _ _ _ Hrun) as (new2 & Ht2 & Hf2).
    exists (new1 ++ new2)%list. split.
    + by rewrite Ht2, Ht1, app_assoc.
    + by rewrite forallb_app, Hf1, Hf2.
  - injection Hrun as <- <-. exact (Hm _ _ _ Hmw).
Qed.

Lemma emitsOnly_emit (P : event -> bool) (e : event) : P e = true -> emitsOnly P (emit e).
Proof.
  intros He w r w' Hrun. injection Hrun as <- <-. exists [e]. simpl. by rewrite He.
Qed.

Lemma emitsOnly_suspend (P : event -> bool)
    (meanwhile : list event -> option EvergreenAISettings) :
  emitsOnly P (suspend meanwhile).
Proof.
  intros w r w' Hrun. unfold suspend, updateSettings in Hrun. exists [].
  rewrite app_nil_r. destruct (meanwhile (trace w)); by injection Hrun as <- <-.
Qed.

Lemma emitsOnly_invoke (P : event -> bool) (callbacks : list event -> option thrown)
    (e : event) :
  P e = true -> emitsOnly P (invoke callbacks e).
Proof.
  intros He w r w' Hrun. rewrite invoke_run in Hrun. injection Hrun as _ <-.
  exists [e]. simpl. by rewrite He.
Qed.

Ltac emits_step :=
  first
    [ apply emitsOnly_invoke; reflexivity
    | apply emitsOnly_emit; reflexivity
    | apply emitsOnly_suspend
    | solve [apply emitsOnly_unchanged; reflexivity]
    | apply emitsOnly_bind; [| intros ?]
    | match goal with
      | |- emitsOnly _ (if ?b then _ else _) => destruct b
      | |- emitsOnly _ (match ?x with _ => _ end) => destruct x
      end ].

Section StreamingCalls.

Variable defaults : ProviderDefaults.
Variable JSON_parse : string -> outcome json.
Variable net_requestUrl : list event -> request -> outcome RequestUrlResponse.
Variable net_fetch : list event -> request -> outcome FetchResponse.
Variable meanwhile : list event -> option EvergreenAISettings.
Variable callbacks : list event -> option thrown.
Variable retryConfig : RetryConfig.

Lemma emitsOnly_processLines (lines : list string) :
  emitsOnly streamEvent (processLines JSON_parse callbacks lines).
Proof.
  induction lines as [| line rest IH]; cbn [processLines]; repeat emits_step; exact IH.
Qed.

Lemma emitsOnly_readLoop (reads : list read_result) :
  forall buffer, emitsOnly streamEvent (readLoop JSON_parse meanwhile callbacks reads buffer).
Proof.
  induction reads as [| [text | error] reads IH]; intros buffer; cbn [readLoop];
    repeat emits_step; try apply emitsOnly_processLines; apply IH.
Qed.

Lemma await_fetch_bind {A : Type} (r : request) (k : FetchResponse -> M world A)
    (w : world) :
  (do response <- await_fetch net_fetch meanwhile r ;; k response) w =
    match net_fetch (trace (resumed meanwhile w (Fetch r))) r with
    | Return response => k response (resumed meanwhile w (Fetch r))
    | Throw t => (Throw t, resumed meanwhile w (Fetch r))
    end.
Proof.
  unfold await_fetch. unfold bindM at 1. by rewrite emit_suspend_bind.
Qed.

End StreamingCalls.

(** X18. A streaming call on a desktop platform is never retried, and
    never lets a raw error out. Either the request cannot be built and
    nothing happens, or the call sends exactly one streaming request,
    built from the settings of the start with the streaming flag set,
    and after it only reads the body and invokes callbacks: no second
    request, no delay. Whatever fails, a read, the parsing of an error
    body or a callback of the caller, the call throws an
    [AIServiceError]. *)
Theorem X18_desktop_stream (defaults : ProviderDefaults)
    (JSON_parse : string -> outcome json)
    (net_requestUrl : list event -> request -> outcome RequestUrlResponse)
    (net_fetch : list event -> request -> outcome FetchResponse)
    (meanwhile : list event -> option EvergreenAISettings)
    (callbacks : list event -> option thrown) (retryConfig : RetryConfig)
    (prompt systemPrompt : string) (w w' : world) (o : outcome unit) :
  generateStream defaults JSON_parse false net_requestUrl net_fetch meanwhile callbacks
                 retryConfig prompt systemPrompt w = (o, w') ->
  ((trace w' = trace w
    /\ exists t, buildRequest defaults (settings w) prompt systemPrompt true = Throw t)
   \/ (exists r new,
         buildRequest defaults (settings w) prompt systemPrompt true = Return r
         /\ trace w' = (trace w ++ Fetch r :: new)%list
         /\ forallb streamEvent new = true))
  /\ (forall t, o = Throw t -> exists e, t = ThrownService e).
Proof.
  unfold generateStream. unfold bindM at 1. unfold getSettings at 1. cbv beta iota.
  unfold bindM at 1. unfold lift at 1.
  destruct (buildRequest defaults (settings w) prompt systemPrompt true) as [r | t0]
    eqn:Hbuild.
  2:{ injection 1 as <- <-. split; [left; split; [done | by eexists] |].
      intros t [= <-]. apply buildRequest_throws in Hbuild as [-> _]. by eexists. }
  intros Hrun.
  match type of Hrun with
  | catchM _ ?h w = _ =>
      assert (forall t w0, exists e, h t w0 = (Throw (ThrownService e), w0)) as Hhandler
  end.
  { intros t w0. destruct (isAbortError t); [by eexists |].
    destruct t; [by eexists | |]; (destruct (isNetworkError _); by eexists). }
  unfold catchM in Hrun. rewrite await_fetch_bind in Hrun.
  set (w1 := resumed meanwhile w (Fetch r)) in *.
  assert (trace w1 = (trace w ++ [Fetch r])%list) as Hw1 by reflexivity.
  destruct (net_fetch (trace w1) r) as [response | t1].
  - match type of Hrun with
    | match ?k w1 with _ => _ end = _ =>
        assert (emitsOnly streamEvent k) as Hemits;
        [| destruct (k w1) as [[u | t2] w2] eqn:Hk]
    end.
    { repeat emits_step. apply emitsOnly_readLoop. }
    + injection Hrun as <- <-.
      destruct (Hemits _ _ _ Hk) as (new & Htrace & Hok).
      split; [| discriminate]. right. exists r, new.
      rewrite Htrace, Hw1, <- app_assoc. by repeat split.
    + destruct (Hhandler t2 w2) as [e He]. rewrite He in Hrun. injection Hrun as <- <-.
      destruct (Hemits _ _ _ Hk) as (new & Htrace & Hok).
      split; [| intros t [= <-]; by eexists]. right. exists r, new.
      rewrite Htrace, Hw1, <- app_assoc. by repeat split.
  - destruct (Hhandler t1 w1) as [e He]. rewrite He in Hrun. injection Hrun as <- <-.
    split; [| intros t [= <-]; by eexists]. right. exists r, [].
    by repeat split.
Qed.

Lemma X18_desktop_stream_witness :
  exists e,
    ThrownService (mkAIServiceError "the view is gone" UNKNOWN false None) = ThrownService e.
Proof.
  apply (proj2 (X18_desktop_stream Sample.defaults Sample.JSON_parse Sample.answering
                  Sample.streaming Sample.undisturbed
                  (fun _ => Some (ThrownError "Error" "the view is gone"))
                  DEFAULT_RETRY_CONFIG "p" "s" (Sample.start "openai" "sk")
                  (snd (generateStream Sample.defaults Sample.JSON_parse false
                          Sample.answering Sample.streaming Sample.undisturbed
                          (fun _ => Some (ThrownError "Error" "the view is gone"))
                          DEFAULT_RETRY_CONFIG "p" "s" (Sample.start "openai" "sk")))
                  (Throw (ThrownService
                            (mkAIServiceError "the view is gone" UNKNOWN false None)))
                  eq_refl) _ eq_refl).
Defined.

(** ** The fallback of a streaming call, and the connection test *)

Lemma emitsOnly_catch {A : Type} (P : event -> bool) (m : M world A)
    (handler : thrown -> M world A) :
  emitsOnly P m -> (forall t, emitsOnly P (handler t)) -> emitsOnly P (catchM m handler).
Proof.
  intros Hm Hh w r w' Hrun. unfold catchM in Hrun.
  destruct (m w) as [[a | t] w1] eqn:Hmw.
  - injection Hrun as <- <-. exact (Hm _ _ _ Hmw).
  - destruct (Hm _ _ _ Hmw) as (new1 & Ht1 & Hf1).
    destruct (Hh t _ _ _ Hrun) as (new2 & Ht2 & Hf2).
    exists (new1 ++ new2)%list. split.
    + by rewrite Ht2, Ht1, app_assoc.
    + by rewrite forallb_app, Hf1, Hf2.
Qed.

Section Fallback.

Variable defaults : ProviderDefaults.
Variable isMobile : bool.
Variable net_requestUrl : list event -> request -> outcome RequestUrlResponse.
Variable meanwhile : list event -> option EvergreenAISettings.
Variable retryConfig : RetryConfig.
Variable prompt systemPrompt : string.

Lemma emitsOnly_generateOnce :
  emitsOnly nonStreaming
            (generateOnce defaults net_requestUrl meanwhile prompt systemPrompt).
Proof.
  intros w r w' Hrun.
  destruct (generateOnce_events _ _ _ _ _ _ _ _ Hrun) as [-> | [q ->]].
  - exists []. by rewrite app_nil_r.
  - by exists [RequestUrl q].
Qed.

Lemma emitsOnly_retryLoop (remaining : nat) :
  forall (attempt : Z) (lastError : option thrown),
    emitsOnly nonStreaming
              (retryLoop (delay meanwhile) retryConfig
                         (generateOnce defaults net_requestUrl meanwhile prompt systemPrompt)
                         remaining attempt lastError).
Proof.
  induction remaining as [| n IH]; intros attempt lastError; simpl.
  - by apply emitsOnly_unchanged.
  - apply emitsOnly_catch; [apply emitsOnly_generateOnce |].
    intros [e | |]; try by apply emitsOnly_unchanged.
    destruct (negb (retryable e)); [by apply emitsOnly_unchanged |].
    destruct (maxRetries retryConfig <=? attempt); [by apply emitsOnly_unchanged |].
    apply emitsOnly_bind; [| intros _; apply IH].
    intros w r w' Hrun. injection Hrun as <- <-.
    exists [Delay (retryDelay retryConfig attempt e)].
    by rewrite delay_resumed.
Qed.

Lemma emitsOnly_generate :
  emitsOnly nonStreaming
            (generate defaults isMobile net_requestUrl meanwhile retryConfig
                      prompt systemPrompt).
Proof.
  intros w r w'. rewrite generate_unfold.
  destruct (isMobile && String.eqb (aiProvider (settings w)) "ollama").
  - injection 1 as <- <-. exists []. by rewrite app_nil_r.
  - apply emitsOnly_retryLoop.
Qed.

End Fallback.

(** X19. A streaming call on a mobile platform, for a provider other
    than the local server, is the non-streaming call followed by the
    callbacks. It sends the requests of [generate], retried and delayed
    as there, and no streaming request. When [generate] fails, the call
    fails with the same error and no callback is invoked. When it
    succeeds, the whole text, even an empty one, goes to the fragment
    callback once and the completion callback follows; an error that the
    fragment callback throws leaves the call as it is, not wrapped in an
    [AIServiceError], and the completion callback is not invoked. *)
Theorem X19_mobile_fallback (defaults : ProviderDefaults)
    (JSON_parse : string -> outcome json)
    (net_requestUrl : list event -> request -> outcome RequestUrlResponse)
    (net_fetch : list event -> request -> outcome FetchResponse)
    (meanwhile : list event -> option EvergreenAISettings)
    (callbacks : list event -> option thrown) (retryConfig : RetryConfig)
    (prompt systemPrompt : string) (w w1 : world) (o : outcome AIResponse) :
  String.eqb (aiProvider (settings w)) "ollama" = false ->
  generate defaults true net_requestUrl meanwhile retryConfig prompt systemPrompt w
    = (o, w1) ->
  (exists new, trace w1 = (trace w ++ new)%list /\ forallb nonStreaming new = true)
  /\ match o with
     | Throw t =>
         generateStream defaults JSON_parse true net_requestUrl net_fetch meanwhile
                        callbacks retryConfig prompt systemPrompt w = (Throw t, w1)
     | Return response =>
         let fragment := OnChunk (response_content response) in
         let delivered := {| settings := settings w1;
                             trace := (trace w1 ++ [fragment])%list |} in
         let completed := {| settings := settings w1;
                             trace := (trace w1 ++ [fragment; OnComplete])%list |} in
         generateStream defaults JSON_parse true net_requestUrl net_fetch meanwhile
                        callbacks retryConfig prompt systemPrompt w =
           match callbacks (trace delivered) with
           | Some t => (Throw t, delivered)
           | None =>
               match callbacks (trace completed) with
               | Some t => (Throw t, completed)
               | None => (Return tt, completed)
               end
           end
     end.
Proof.
  intros Hprovider Hgen. split.
  { exact (emitsOnly_generate defaults true net_requestUrl meanwhile retryConfig
             prompt systemPrompt _ _ _ Hgen). }
  assert (generateStream defaults JSON_parse true net_requestUrl net_fetch meanwhile
                         callbacks retryConfig prompt systemPrompt w =
            match o with
            | Return response =>
                (do _ <- invoke callbacks (OnChunk (response_content response)) ;;
                 invoke callbacks OnComplete) w1
            | Throw t => (Throw t, w1)
            end) as ->.
  { unfold generateStream. unfold bindM at 1. unfold getSettings at 1. cbv beta iota.
    rewrite Hprovider. unfold bindM at 1. rewrite Hgen. by destruct o. }
  destruct o as [response | t]; [| done].
  cbv zeta. unfold bindM. rewrite invoke_run. simpl trace.
  destruct (callbacks (trace w1 ++ [OnChunk (response_content response)])%list);
    [done |].
  rewrite invoke_run. simpl trace. simpl settings. rewrite <- app_assoc. simpl app.
  by destruct (callbacks _).
Qed.

Lemma X19_mobile_fallback_witness :
  let w := Sample.start "openai" "sk" in
  let run := generate Sample.defaults true Sample.answering Sample.undisturbed
                      DEFAULT_RETRY_CONFIG "p" "s" w in
  exists new, trace (snd run) = (trace w ++ new)%list /\ forallb nonStreaming new = true.
Proof.
  intros w run.
  apply (proj1 (X19_mobile_fallback Sample.defaults Sample.JSON_parse Sample.answering
                  Sample.streaming Sample.undisturbed Sample.returning
                  DEFAULT_RETRY_CONFIG "p" "s" w (snd run) (fst run) eq_refl eq_refl)).
Defined.

(** X20. The connection test with a provider that answers. When the
    request of the test gets a response with a status below 400 and a
    body that is any JSON value but [null], the test sends that one
    request and its result is read off the text of the response alone:
    true when the text, in lower case, contains [connected]. A body that
    lacks the property that the provider in place keeps its text under
    makes the test return false; it does not make it fail. *)
Theorem X20_connection_test (defaults : ProviderDefaults) (isMobile : bool)
    (net_requestUrl : list event -> request -> outcome RequestUrlResponse)
    (meanwhile : list event -> option EvergreenAISettings) (retryConfig : RetryConfig)
    (w : world) (r : request) (response : RequestUrlResponse) (j : json) :
  let after := resumed meanwhile w (RequestUrl r) in
  0 <= maxRetries retryConfig ->
  isMobile && String.eqb (aiProvider (settings w)) "ollama" = false ->
  buildRequest defaults (settings w) connectionPrompt connectionSystemPrompt false
    = Return r ->
  net_requestUrl (trace w ++ [RequestUrl r])%list r = Return response ->
  response_status response < 400 ->
  response_json response = Return j ->
  j <> JNull ->
  exists result,
    parseResponse (settings after) j = Return result
    /\ testConnection defaults isMobile net_requestUrl meanwhile retryConfig w
         = match response_content result with
           | JStr text =>
               (Return (JsString.includes (JsString.toLowerCase text) "connected"), after)
           | _ =>
               (Throw (Js.TypeError "response.content.toLowerCase is not a function"),
                after)
           end
    /\ (Js.own j (responseKey (aiProvider (settings after))) = None ->
        testConnection defaults isMobile net_requestUrl meanwhile retryConfig w
          = (Return false, after)).
Proof.
  intros after Hcfg Hplatform Hbuild Hnet Hstatus Hjson Hj.
  destruct (parseResponse_returns (settings after) j Hj) as (result & Hparse & Hempty).
  assert (generate defaults isMobile net_requestUrl meanwhile retryConfig
                   connectionPrompt connectionSystemPrompt w = (Return result, after))
    as Hgen.
  { rewrite generate_unfold, Hplatform.
    destruct (executeWithRetry_enters retryConfig Hcfg) as (remaining & Hfuel & _).
    unfold executeWithRetry. rewrite Hfuel.
    apply retryLoop_success.
    by apply (generateOnce_success defaults net_requestUrl meanwhile connectionPrompt
                connectionSystemPrompt w r response j result). }
  assert (testConnection defaults isMobile net_requestUrl meanwhile retryConfig w
            = match response_content result with
              | JStr text =>
                  (Return (JsString.includes (JsString.toLowerCase text) "connected"),
                   after)
              | _ =>
                  (Throw (Js.TypeError "response.content.toLowerCase is not a function"),
                   after)
              end) as Htest.
  { unfold testConnection, catchM, bindM. rewrite Hgen. unfold lift, saysConnected.
    by destruct (response_content result). }
  exists result. split; [done |]. split; [done |].
  intros Hkey. rewrite Htest, (Hempty Hkey). reflexivity.
Qed.

Lemma X20_connection_test_witness :
  let w := Sample.start "openai" "sk" in
  let r := buildOpenAIRequest Sample.defaults (Sample.settingsFor "openai" "sk")
                              connectionPrompt connectionSystemPrompt false in
  testConnection Sample.defaults false (Fixture.answeringWith 200 Sample.unrelatedValue)
                 Sample.undisturbed DEFAULT_RETRY_CONFIG w
    = (Return false, resumed Sample.undisturbed w (RequestUrl r)).
Proof.
  intros w r.
  destruct (X20_connection_test Sample.defaults false
              (Fixture.answeringWith 200 Sample.unrelatedValue) Sample.undisturbed
              DEFAULT_RETRY_CONFIG w r
              {| response_status := 200; response_json := Return Sample.unrelatedValue |}
              Sample.unrelatedValue
              ltac:(simpl; lia) eq_refl eq_refl eq_refl ltac:(simpl; lia) eq_refl
              ltac:(discriminate)) as (result & _ & _ & Hfalse).
  exact (Hfalse eq_refl).
Defined.

(** ** The message for the user *)

Lemma startsWith_toLowerCase (needle : string) :
  forall s,
    JsString.startsWith s needle = true ->
    JsString.startsWith (JsString.toLowerCase s) (JsString.toLowerCase needle) = true.
Proof.
  unfold JsString.startsWith.
  induction needle as [| c needle IH]; intros s; [by destruct s |].
  destruct s as [| d s]; [done |]. simpl.
  destruct (ascii_dec c d) as [-> | Hne]; [| done].
  intros Hrest. destruct (ascii_dec _ _); [by apply IH | done].
Qed.

Lemma includes_toLowerCase (needle : string) :
  forall s,
    JsString.includes s needle = true ->
    JsString.includes (JsString.toLowerCase s) (JsString.toLowerCase needle) = true.
Proof.
  induction s as [| c s IH]; intros Hin;
    cbn [JsString.includes JsString.toLowerCase] in Hin |- *;
    apply orb_true_iff in Hin as [Hin | Hin]; try done.
  - apply startsWith_toLowerCase in Hin. cbn [JsString.toLowerCase] in Hin.
    by rewrite Hin.
  - apply startsWith_toLowerCase in Hin. cbn [JsString.toLowerCase] in Hin.
    by rewrite Hin.
  - rewrite (IH Hin). by rewrite orb_true_r.
Qed.

(** X21. The message for the user and the classification of failures
    agree on what a network failure is: an [Error] that
    [getUserFriendlyError] words as a network error, whatever its name
    and the case of the rest of its message, is one that
    [isNetworkError] accepts. So when the request of an attempt of a
    non-streaming call is rejected with it, the attempt throws the
    network error of the service, which is retryable and carries that
    same wording. *)
Theorem X21_network_wording_agrees (name msg : string) :
  getUserFriendlyError (ThrownError name msg)
    = "Network error - please check your internet connection" ->
  isNetworkError (ThrownError name msg) = true
  /\ (forall (defaults : ProviderDefaults)
             (net_requestUrl : list event -> request -> outcome RequestUrlResponse)
             (meanwhile : list event -> option EvergreenAISettings)
             (prompt systemPrompt : string) (w : world) (r : request),
        buildRequest defaults (settings w) prompt systemPrompt false = Return r ->
        net_requestUrl (trace w ++ [RequestUrl r])%list r
          = Throw (ThrownError name msg) ->
        generateOnce defaults net_requestUrl meanwhile prompt systemPrompt w
          = (Throw (ThrownService
                      (mkAIServiceError
                         "Network error - please check your internet connection"
                         NETWORK_ERROR true None)),
             resumed meanwhile w (RequestUrl r))).
Proof.
  intros Hwording.
  assert (isNetworkError (ThrownError name msg) = true) as Hnetwork.
  { revert Hwording. unfold getUserFriendlyError.
    destruct (JsString.includes msg "fetch failed") eqn:Hfetch.
    { intros _. apply includes_toLowerCase in Hfetch.
      unfold isNetworkError, networkErrorMessages. cbn [existsb]. by rewrite Hfetch. }
    destruct (JsString.includes msg "Failed to fetch") eqn:Hfailed.
    { intros _. apply includes_toLowerCase in Hfailed.
      unfold isNetworkError, networkErrorMessages. cbn [existsb]. rewrite Hfailed.
      by rewrite !orb_true_r. }
    cbn [orb].
    destruct (JsString.includes msg "timeout" || JsString.includes msg "Timeout");
      [discriminate |].
    intros ->. unfold isNetworkError, networkErrorMessages. cbn [existsb].
    apply orb_true_iff. right. reflexivity. }
  split; [exact Hnetwork |].
  intros defaults net_requestUrl meanwhile prompt systemPrompt w r Hbuild Hnet.
  rewrite (generateOnce_rejected defaults net_requestUrl meanwhile prompt systemPrompt
             w r (ThrownError name msg) Hbuild Hnet).
  by rewrite Hnetwork.
Qed.

Lemma X21_network_wording_agrees_witness :
  isNetworkError (ThrownError "TypeError" "Failed to fetch") = true
  /\ generateOnce Sample.defaults
                  (fun _ _ => Throw (ThrownError "TypeError" "Failed to fetch"))
                  Sample.undisturbed "p" "s" (Sample.start "openai" "sk")
     = (Throw (ThrownService
                 (mkAIServiceError "Network error - please check your internet connection"
                                   NETWORK_ERROR true None)),
        resumed Sample.undisturbed (Sample.start "openai" "sk")
                (RequestUrl Fixture.request)).
Proof.
  destruct (X21_network_wording_agrees "TypeError" "Failed to fetch" eq_refl)
    as [Hnetwork Hattempt].
  split; [exact Hnetwork |].
  apply (Hattempt Sample.defaults
           (fun _ _ => Throw (ThrownError "TypeError" "Failed to fetch"))
           Sample.undisturbed "p" "s" (Sample.start "openai" "sk") Fixture.request);
    reflexivity.
Defined.
